(** * find_differential_primers: primer classification core

    A shallow embedding of the classification and filtering core of
    [find_differential_primers.py]: the primer records held by each
    [GenomeData] object, the 3' GC and internal-oligo filters, the
    PrimerSearch result loader [classify_primers], the three classification
    queries of [GenomeData] and the data assembled by [write_report].

    Python objects are modelled as records, dictionaries as [gmap], sets as
    [gset]; an uncaught Python exception ends the run and is modelled by the
    [Raise] result. *)

From Stdlib Require Import ZArith Ascii String.
From stdpp Require Import gmap strings list fin_maps pretty.

Open Scope string_scope.

(** ** Exceptions *)

Inductive exn : Type :=
  | KeyError | AttributeError | TypeError | IndexError | NameError | IOError.

Inductive result (A : Type) : Type :=
  | Ok (a : A)
  | Raise (e : exn).
Arguments Ok {A} a.
Arguments Raise {A} e.

#[global] Instance result_ret : MRet result := λ A a, Ok a.
#[global] Instance result_bind : MBind result := λ A B k r,
  match r with
  | Ok a => k a
  | Raise e => Raise e
  end.

(** Looking at the value of a run that did not raise. *)
Definition result_map {A B} (f : A → B) (r : result A) : result B :=
  match r with
  | Ok a => Ok (f a)
  | Raise e => Raise e
  end.

(** A [for] loop whose body may raise: the state is threaded through the
    items in order and the first exception stops the loop. *)
Fixpoint for_each {A S} (body : A → S → result S) (items : list A) (s : S)
  : result S :=
  match items with
  | [] => Ok s
  | x :: rest => s' ← body x s; for_each body rest s'
  end.

(** A list comprehension [[p for p in l if test p]] whose test may raise. *)
Fixpoint filter_raising {A} (test : A → result bool) (l : list A)
  : result (list A) :=
  match l with
  | [] => Ok []
  | x :: rest =>
      b ← test x;
      kept ← filter_raising test rest;
      Ok (if b : bool then x :: kept else kept)
  end.

(** ** Python string operations used by the script *)

Module PyStr.

Fixpoint drop (n : nat) (s : string) : string :=
  match n, s with
  | O, _ => s
  | S _, EmptyString => EmptyString
  | S k, String _ rest => drop k rest
  end.

Fixpoint take (n : nat) (s : string) : string :=
  match n, s with
  | O, _ => EmptyString
  | S _, EmptyString => EmptyString
  | S k, String c rest => String c (take k rest)
  end.

(** [s[-n:]] for a positive [n]. *)
Definition last_chars (n : nat) (s : string) : string :=
  drop (String.length s - n) s.

(** [s[1:-1]] *)
Definition strip_ends (s : string) : string :=
  take (String.length s - 2) (drop 1 s).

(** [s[i]] for a non-negative [i]; [None] stands for [IndexError]. *)
Definition index (s : string) (i : nat) : option ascii := String.get i s.

Fixpoint startswith (pre s : string) : bool :=
  match pre, s with
  | EmptyString, _ => true
  | String _ _, EmptyString => false
  | String a pre', String b s' =>
      if Ascii.eqb a b then startswith pre' s' else false
  end.

Definition endswith (suf s : string) : bool :=
  if (String.length suf <=? String.length s)%nat
  then String.eqb (drop (String.length s - String.length suf) s) suf
  else false.

(** [count_from sub skip s]: occurrences of the non-empty [sub] found by a
    left-to-right scan of [s] that resumes after each match; [skip] is the
    number of characters still covered by the previous match. *)
Fixpoint count_from (sub : string) (skip : nat) (s : string) : nat :=
  match s with
  | EmptyString => O
  | String _ rest =>
      match skip with
      | S k => count_from sub k rest
      | O =>
          if startswith sub s
          then S (count_from sub (String.length sub - 1) rest)
          else count_from sub O rest
      end
  end.

(** [s.count(sub)] *)
Definition count (sub s : string) : nat :=
  match sub with
  | EmptyString => S (String.length s)
  | _ => count_from sub O s
  end.

(** [sub in s] *)
Fixpoint contains (sub s : string) : bool :=
  startswith sub s ||
  match s with
  | EmptyString => false
  | String _ rest => contains sub rest
  end.

Fixpoint rev_onto (acc s : string) : string :=
  match s with
  | EmptyString => acc
  | String c rest => rev_onto (String c acc) rest
  end.

(** [split_from sep skip cur s]: the pieces of a left-to-right split of
    [s] at the non-empty [sep]; [cur] holds the current piece reversed. *)
Fixpoint split_from (sep : string) (skip : nat) (cur s : string)
  : list string :=
  match s with
  | EmptyString => [rev_onto EmptyString cur]
  | String c rest =>
      match skip with
      | S k => split_from sep k cur rest
      | O =>
          if startswith sep s
          then rev_onto EmptyString cur
               :: split_from sep (String.length sep - 1) EmptyString rest
          else split_from sep O (String c cur) rest
      end
  end.

(** [s.split(sep)] for a non-empty separator. *)
Definition split (sep s : string) : list string :=
  split_from sep O EmptyString s.

(** [s.rfind(c)] for a single character; [None] stands for [-1]. *)
Fixpoint rfind_char (c : ascii) (s : string) : option nat :=
  match s with
  | EmptyString => None
  | String a rest =>
      match rfind_char c rest with
      | Some i => Some (S i)
      | None => if Ascii.eqb a c then Some O else None
      end
  end.

(** [s.rstrip(c)] for a single character. *)
Fixpoint rstrip_char (c : ascii) (s : string) : string :=
  match s with
  | EmptyString => EmptyString
  | String a rest =>
      match rstrip_char c rest with
      | EmptyString => if Ascii.eqb a c then EmptyString else String a EmptyString
      | kept => String a kept
      end
  end.

Fixpoint all_char (c : ascii) (s : string) : bool :=
  match s with
  | EmptyString => true
  | String a rest => Ascii.eqb a c && all_char c rest
  end.

End PyStr.

(** ** [os.path] (POSIX flavour) *)

Module OsPath.

(** [os.path.split] *)
Definition split (p : string) : string * string :=
  let i := match PyStr.rfind_char "/" p with Some k => S k | None => O end in
  let head := PyStr.take i p in
  let tail := PyStr.drop i p in
  let head' :=
    if negb (String.eqb head "") && negb (PyStr.all_char "/" head)
    then PyStr.rstrip_char "/" head else head in
  (head', tail).

(** Is some character of [p[from:upto]] different from the dot? *)
Definition nondot_between (p : string) (from upto : nat) : bool :=
  negb (PyStr.all_char "." (PyStr.take (upto - from) (PyStr.drop from p))).

(** [os.path.splitext]: the extension starts at the last dot of the last
    path component, leading dots of that component apart. *)
Definition splitext (p : string) : string * string :=
  let filename_index :=
    match PyStr.rfind_char "/" p with Some k => S k | None => O end in
  match PyStr.rfind_char "." p with
  | Some dot_index =>
      if (filename_index <=? dot_index)%nat
         && nondot_between p filename_index dot_index
      then (PyStr.take dot_index p, PyStr.drop dot_index p)
      else (p, "")
  | None => (p, "")
  end.

(** [os.path.join] of two components. *)
Definition join (a b : string) : string :=
  if PyStr.startswith "/" b then b
  else if String.eqb a "" || PyStr.endswith "/" a then a ++ b
  else a ++ "/" ++ b.

End OsPath.

(** ** Data model *)

(** [Bio.Emboss.Primer3]: a primer pair as parsed from an ePrimer3 file.
    Melting temperatures and GC percentages are floating-point payload that
    no decision reads; they are left out. *)
Module Primer3.

Record Oligo : Type := { seq : string }.

Record Primers : Type := {
  size : Z;
  forward_seq : string;
  forward_start : Z;
  forward_length : Z;
  reverse_seq : string;
  reverse_start : Z;
  reverse_length : Z;
  (** [None]: the pair carries no internal oligo ([primer.oligo] is not
      an attribute of the object). *)
  oligo : option Oligo
}.

End Primer3.

(** A primer object as the script uses it: the parsed fields together with
    the attributes added after parsing. [negative_control_amplimers] is
    [None] while the attribute has not been set on the object. *)
Module Primer.

Record t : Type := {
  name : string;
  size : Z;
  forward_seq : string;
  forward_start : Z;
  forward_length : Z;
  reverse_seq : string;
  reverse_start : Z;
  reverse_length : Z;
  oligo : option Primer3.Oligo;
  cds_overlap : bool;
  gc3primevalid : bool;
  oligovalid : bool;
  blastpass : bool;
  amplifies_organism : gset string;
  amplifies_family : gset string;
  negative_control_amplimers : option nat
}.

Definition set_gc3primevalid (b : bool) (p : t) : t :=
  {| name := name p; size := size p;
     forward_seq := forward_seq p; forward_start := forward_start p;
     forward_length := forward_length p;
     reverse_seq := reverse_seq p; reverse_start := reverse_start p;
     reverse_length := reverse_length p; oligo := oligo p;
     cds_overlap := cds_overlap p; gc3primevalid := b;
     oligovalid := oligovalid p; blastpass := blastpass p;
     amplifies_organism := amplifies_organism p;
     amplifies_family := amplifies_family p;
     negative_control_amplimers := negative_control_amplimers p |}.

Definition set_oligovalid (b : bool) (p : t) : t :=
  {| name := name p; size := size p;
     forward_seq := forward_seq p; forward_start := forward_start p;
     forward_length := forward_length p;
     reverse_seq := reverse_seq p; reverse_start := reverse_start p;
     reverse_length := reverse_length p; oligo := oligo p;
     cds_overlap := cds_overlap p; gc3primevalid := gc3primevalid p;
     oligovalid := b; blastpass := blastpass p;
     amplifies_organism := amplifies_organism p;
     amplifies_family := amplifies_family p;
     negative_control_amplimers := negative_control_amplimers p |}.

Definition set_blastpass (b : bool) (p : t) : t :=
  {| name := name p; size := size p;
     forward_seq := forward_seq p; forward_start := forward_start p;
     forward_length := forward_length p;
     reverse_seq := reverse_seq p; reverse_start := reverse_start p;
     reverse_length := reverse_length p; oligo := oligo p;
     cds_overlap := cds_overlap p; gc3primevalid := gc3primevalid p;
     oligovalid := oligovalid p; blastpass := b;
     amplifies_organism := amplifies_organism p;
     amplifies_family := amplifies_family p;
     negative_control_amplimers := negative_control_amplimers p |}.

Definition set_amplifies_organism (s : gset string) (p : t) : t :=
  {| name := name p; size := size p;
     forward_seq := forward_seq p; forward_start := forward_start p;
     forward_length := forward_length p;
     reverse_seq := reverse_seq p; reverse_start := reverse_start p;
     reverse_length := reverse_length p; oligo := oligo p;
     cds_overlap := cds_overlap p; gc3primevalid := gc3primevalid p;
     oligovalid := oligovalid p; blastpass := blastpass p;
     amplifies_organism := s;
     amplifies_family := amplifies_family p;
     negative_control_amplimers := negative_control_amplimers p |}.

Definition set_amplifies_family (s : gset string) (p : t) : t :=
  {| name := name p; size := size p;
     forward_seq := forward_seq p; forward_start := forward_start p;
     forward_length := forward_length p;
     reverse_seq := reverse_seq p; reverse_start := reverse_start p;
     reverse_length := reverse_length p; oligo := oligo p;
     cds_overlap := cds_overlap p; gc3primevalid := gc3primevalid p;
     oligovalid := oligovalid p; blastpass := blastpass p;
     amplifies_organism := amplifies_organism p;
     amplifies_family := s;
     negative_control_amplimers := negative_control_amplimers p |}.

Definition set_negative_control_amplimers (n : nat) (p : t) : t :=
  {| name := name p; size := size p;
     forward_seq := forward_seq p; forward_start := forward_start p;
     forward_length := forward_length p;
     reverse_seq := reverse_seq p; reverse_start := reverse_start p;
     reverse_length := reverse_length p; oligo := oligo p;
     cds_overlap := cds_overlap p; gc3primevalid := gc3primevalid p;
     oligovalid := oligovalid p; blastpass := blastpass p;
     amplifies_organism := amplifies_organism p;
     amplifies_family := amplifies_family p;
     negative_control_amplimers := Some n |}.

(** [p.amplifies_organism.add(x)] *)
Definition add_organism (x : string) (p : t) : t :=
  set_amplifies_organism ({[x]} ∪ amplifies_organism p) p.

(** [p.amplifies_family.add(x)] *)
Definition add_family (x : string) (p : t) : t :=
  set_amplifies_family ({[x]} ∪ amplifies_family p) p.

End Primer.

(** [Bio.Emboss.PrimerSearch]: the parsed output of one PrimerSearch run,
    a dictionary from primer name to the list of its amplimers. *)
Module PrimerSearch.

Record Amplifier : Type := { hit_info : string; length : Z }.

Record OutputRecord : Type := {
  amplifiers : gmap string (list Amplifier)
}.

End PrimerSearch.

(** The [GenomeData] class. [families] is [None] when the configuration
    file gives ['-'] for the family column. *)
Module GenomeData.

Record t : Type := {
  name : string;
  families : option (list string);
  seqfilename : option string;
  ftfilename : option string;
  primerfilename : option string;
  primersearchfilename : option string;
  primers : gmap string Primer.t;
  primersearch_output : list string
}.

Definition set_primers (ps : gmap string Primer.t) (gd : t) : t :=
  {| name := name gd; families := families gd;
     seqfilename := seqfilename gd; ftfilename := ftfilename gd;
     primerfilename := primerfilename gd;
     primersearchfilename := primersearchfilename gd;
     primers := ps;
     primersearch_output := primersearch_output gd |}.

(** [self.primers.values()] *)
Definition values (gd : t) : list Primer.t := (map_to_list (primers gd)).*2.

End GenomeData.

(** The command-line options read by the core (the global [options]). *)
Record Options : Type := {
  nocds : bool;
  filtergc3prime : bool;
  hybridprobe : bool;
  single_product : option string;
  outdir : string
}.

(** Truth value of [options.single_product] (a string or [None]). *)
Definition single_product_active (options : Options) : bool :=
  match single_product options with
  | Some s => negb (String.eqb s "")
  | None => false
  end.

(** The parsed contents of the PrimerSearch output files, by file name:
    what [PrimerSearch.read(open(filename, 'rU'))] returns. *)
Definition read_primersearch (fs : gmap string PrimerSearch.OutputRecord)
    (filename : string) : result PrimerSearch.OutputRecord :=
  match fs !! filename with
  | Some psdata => Ok psdata
  | None => Raise IOError
  end.

(** [for k, v in d.items()] with a body that may raise. *)
Definition for_items {V S} (body : string → V → S → result S)
    (d : gmap string V) (s : S) : result S :=
  for_each (λ kv, body kv.1 kv.2) (map_to_list d) s.

(** A loop that updates every value of a dictionary in place, with a body
    that may raise. *)
Definition update_step {V} (body : V → result V) (kv : string * V)
    (acc : gmap string V) : result (gmap string V) :=
  v' ← body kv.2; Ok (<[kv.1 := v']> acc).

Definition update_values {V} (body : V → result V) (d : gmap string V)
    : result (gmap string V) :=
  for_each (update_step body) (map_to_list d) d.

(** ** Filters *)

(** The test of [filter_primers_gc_3prime] on one primer. *)
Definition gc_3prime_test (primer : Primer.t) : bool :=
  let fseq := PyStr.last_chars 5 (Primer.forward_seq primer) in
  let rseq := PyStr.last_chars 5 (Primer.reverse_seq primer) in
  (2 <? PyStr.count "C" fseq + PyStr.count "G" fseq)%nat
  || (2 <? PyStr.count "C" rseq + PyStr.count "G" fseq)%nat.

Definition filter_primers_gc_3prime (gd : GenomeData.t) : GenomeData.t :=
  GenomeData.set_primers
    ((λ primer, if gc_3prime_test primer
                then Primer.set_gc3primevalid false primer
                else primer) <$> GenomeData.primers gd)
    gd.

(** The condition of [filter_primers_oligo] on one primer, evaluated left
    to right with Python's short-circuit [or]. *)
Definition oligo_test (primer : Primer.t) : result bool :=
  match Primer.oligo primer with
  | None => Raise AttributeError
  | Some o =>
      let s := Primer3.seq o in
      if PyStr.startswith "G" s then Ok true
      else if PyStr.endswith "G" s then Ok true
      else if (1 <? PyStr.count "CC" (PyStr.strip_ends s))%nat then Ok true
      else match PyStr.index s 1 with
           | Some c => Ok (Ascii.eqb c "G")
           | None => Raise IndexError
           end
  end.

Definition filter_primers_oligo (gd : GenomeData.t) : result GenomeData.t :=
  ps ← update_values
         (λ primer, invalid ← oligo_test primer;
                    Ok (if invalid : bool
                        then Primer.set_oligovalid false primer
                        else primer))
         (GenomeData.primers gd);
  Ok (GenomeData.set_primers ps gd).

(** The assignment [gd.primers[name].blastpass = False] that [parse_blast]
    makes for a primer name reported by the BLAST screen, on the object the
    name belongs to. *)
Definition mark_blast_failure (name : string) (gd : GenomeData.t)
    : result GenomeData.t :=
  match GenomeData.primers gd !! name with
  | None => Raise KeyError
  | Some p =>
      Ok (GenomeData.set_primers
            (<[name := Primer.set_blastpass false p]> (GenomeData.primers gd))
            gd)
  end.

(** ** Loading primers *)

(** ["%04d" % n] *)
Definition format_04d (n : nat) : string :=
  let digits : string := pretty n in
  PyStr.drop (String.length digits) "0000" ++ digits.

(** The attributes [load_primers] gives to a freshly parsed primer pair.
    No value is given to [negative_control_amplimers]. *)
Definition init_primer (gd_name : string) (primercount : nat)
    (primer : Primer3.Primers) : Primer.t :=
  {| Primer.name := gd_name ++ "_primer_" ++ format_04d primercount;
     Primer.size := Primer3.size primer;
     Primer.forward_seq := Primer3.forward_seq primer;
     Primer.forward_start := Primer3.forward_start primer;
     Primer.forward_length := Primer3.forward_length primer;
     Primer.reverse_seq := Primer3.reverse_seq primer;
     Primer.reverse_start := Primer3.reverse_start primer;
     Primer.reverse_length := Primer3.reverse_length primer;
     Primer.oligo := Primer3.oligo primer;
     Primer.cds_overlap := false;
     Primer.gc3primevalid := true;
     Primer.oligovalid := true;
     Primer.blastpass := true;
     Primer.amplifies_organism := ∅;
     Primer.amplifies_family := ∅;
     Primer.negative_control_amplimers := None |}.

(** [d.setdefault(k, v)] on a dictionary (the returned value is unused). *)
Definition setdefault {V} (k : string) (v : V) (d : gmap string V)
    : gmap string V :=
  match d !! k with
  | Some _ => d
  | None => <[k := v]> d
  end.

(** The inner loop of [load_primers] over the parsed pairs of one file;
    [primercount] is the count reached so far. *)
Fixpoint add_primers (gd_name : string) (primercount : nat)
    (parsed : list Primer3.Primers) (ps : gmap string Primer.t)
    : gmap string Primer.t :=
  match parsed with
  | [] => ps
  | primer :: rest =>
      let primer' := init_primer gd_name (S primercount) primer in
      add_primers gd_name (S primercount) rest
        (setdefault (Primer.name primer') primer' ps)
  end.


(** ** The cross-amplification matrix builder: [classify_primers] *)

(** The convenience dictionary [gddict], filled with [setdefault]. Its
    entries are only read for membership and for [families], which
    [classify_primers] never changes. *)
Definition build_gddict (gdlist : list GenomeData.t)
    : gmap string GenomeData.t :=
  foldl (λ gddict gd, setdefault (GenomeData.name gd) gd gddict) ∅ gdlist.

(** The target organism named by a PrimerSearch output file. *)
Definition targetname_of (filename : string) : string :=
  default ""
    (last (PyStr.split "_vs_"
             (OsPath.splitext (OsPath.split filename).2).1)).

(** The body run for a primer that amplifies the target: the target name is
    added to its organisms and each of the target's families to its
    families, through [gd.primers[pname]] each time. *)
Definition record_amplification (targetname : string)
    (target_families : option (list string)) (pname : string)
    (ps : gmap string Primer.t) : result (gmap string Primer.t) :=
  match ps !! pname with
  | None => Raise KeyError
  | Some p =>
      let ps1 := <[pname := Primer.add_organism targetname p]> ps in
      match target_families with
      | None => Raise TypeError
      | Some fams =>
          for_each
            (λ family acc,
               match acc !! pname with
               | None => Raise KeyError
               | Some q => Ok (<[pname := Primer.add_family family q]> acc)
               end)
            fams ps1
      end
  end.

(** The body run for a primer of the negative-control output. *)
Definition record_negative_control (pname : string)
    (pdata : list PrimerSearch.Amplifier) (ps : gmap string Primer.t)
    : result (gmap string Primer.t) :=
  match ps !! pname with
  | None => Raise KeyError
  | Some p =>
      Ok (<[pname :=
              Primer.set_negative_control_amplimers (List.length pdata) p]> ps)
  end.

(** The body of the loop over [psdata.amplifiers.items()] for a known
    target: a primer with at least one amplimer amplifies the target. *)
Definition amplification_step (targetname : string)
    (target_families : option (list string)) (pname : string)
    (pdata : list PrimerSearch.Amplifier) (ps : gmap string Primer.t)
    : result (gmap string Primer.t) :=
  if (0 <? List.length pdata)%nat
  then record_amplification targetname target_families pname ps
  else Ok ps.

(** One iteration of the loop over [gd.primersearch_output]. *)
Definition classify_file (fs : gmap string PrimerSearch.OutputRecord)
    (gddict : gmap string GenomeData.t) (filename : string)
    (gd : GenomeData.t) : result GenomeData.t :=
  let targetname := targetname_of filename in
  match gddict !! targetname with
  | Some target =>
      psdata ← read_primersearch fs filename;
      ps ← for_items
             (amplification_step targetname (GenomeData.families target))
             (PrimerSearch.amplifiers psdata) (GenomeData.primers gd);
      Ok (GenomeData.set_primers ps gd)
  | None =>
      if PyStr.contains "negative_control" filename
      then
        psdata ← read_primersearch fs filename;
        ps ← for_items record_negative_control
               (PrimerSearch.amplifiers psdata) (GenomeData.primers gd);
        Ok (GenomeData.set_primers ps gd)
      else Ok gd
  end.

(** [for gd in gdlist] with a body that updates [gd] in place. *)
Fixpoint update_each {A} (body : A → result A) (l : list A)
  : result (list A) :=
  match l with
  | [] => Ok []
  | x :: rest =>
      x' ← body x;
      rest' ← update_each body rest;
      Ok (x' :: rest')
  end.

Definition classify_primers (fs : gmap string PrimerSearch.OutputRecord)
    (gdlist : list GenomeData.t) : result (list GenomeData.t) :=
  let gddict := build_gddict gdlist in
  update_each
    (λ gd, for_each (classify_file fs gddict)
             (GenomeData.primersearch_output gd) gd)
    gdlist.

(** ** The classifier: queries of [GenomeData] *)

(** [[p for p in primerlist if p.negative_control_amplimers == 1]] *)
Definition single_product_stage (primerlist : list Primer.t)
    : result (list Primer.t) :=
  filter_raising
    (λ p, match Primer.negative_control_amplimers p with
          | Some n => Ok (n =? 1)%nat
          | None => Raise AttributeError
          end)
    primerlist.

(** The four flag stages that precede the single-product stage. *)
Definition flag_stages (options : Options)
    (cds_overlap oligovalid blastfilter : bool)
    (primerlist : list Primer.t) : list Primer.t :=
  let l1 := if cds_overlap then List.filter Primer.cds_overlap primerlist
            else primerlist in
  let l2 := if filtergc3prime options then List.filter Primer.gc3primevalid l1
            else l1 in
  let l3 := if oligovalid then List.filter Primer.oligovalid l2 else l2 in
  if blastfilter then List.filter Primer.blastpass l3 else l3.

(** The five filter stages that both query methods run, in this order, on
    their initial list. *)
Definition filter_stages (options : Options)
    (cds_overlap oligovalid blastfilter : bool)
    (primerlist : list Primer.t) : result (list Primer.t) :=
  let l4 := flag_stages options cds_overlap oligovalid blastfilter
              primerlist in
  if single_product_active options then single_product_stage l4 else Ok l4.

Definition get_primers_amplify_count (options : Options)
    (self : GenomeData.t) (count : Z)
    (cds_overlap oligovalid blastfilter : bool) : result (list Primer.t) :=
  let primerlist :=
    List.filter
      (λ p, (count =? Z.of_nat (size (Primer.amplifies_organism p)))%Z)
      (GenomeData.values self) in
  filter_stages options cds_overlap oligovalid blastfilter primerlist.

Definition get_unique_primers (options : Options) (self : GenomeData.t)
    (cds_overlap oligovalid blastfilter : bool) : result (list Primer.t) :=
  get_primers_amplify_count options self 0 cds_overlap oligovalid blastfilter.

Definition get_family_unique_primers (options : Options)
    (self : GenomeData.t) (family_members : gset string)
    (cds_overlap oligovalid blastfilter : bool) : result (list Primer.t) :=
  let primerlist :=
    List.filter
      (λ p, bool_decide
              (family_members
               = {[GenomeData.name self]} ∪ Primer.amplifies_organism p))
      (GenomeData.values self) in
  filter_stages options cds_overlap oligovalid blastfilter primerlist.

(** The three classification queries, with what each takes besides the
    sample: nothing, the member names of a family, the number of other
    organisms of the run. *)
Inductive query : Type :=
  | unique
  | family_unique (family_members : gset string)
  | universal (other_org_count : Z).

Definition run_query (options : Options) (self : GenomeData.t) (q : query)
    (cds_overlap oligovalid blastfilter : bool) : result (list Primer.t) :=
  match q with
  | unique =>
      get_unique_primers options self cds_overlap oligovalid blastfilter
  | family_unique family_members =>
      get_family_unique_primers options self family_members
        cds_overlap oligovalid blastfilter
  | universal other_org_count =>
      get_primers_amplify_count options self other_org_count
        cds_overlap oligovalid blastfilter
  end.

(** The test on the amplified organisms that selects the initial list of
    each query. *)
Definition base_predicate (self : GenomeData.t) (q : query) (p : Primer.t)
    : bool :=
  match q with
  | unique => (0 =? Z.of_nat (size (Primer.amplifies_organism p)))%Z
  | family_unique family_members =>
      bool_decide
        (family_members
         = {[GenomeData.name self]} ∪ Primer.amplifies_organism p)
  | universal other_org_count =>
      (other_org_count =? Z.of_nat (size (Primer.amplifies_organism p)))%Z
  end.

(** ** The report writer: [write_report] *)

(** [sep.join(l)] *)
Fixpoint str_join (sep : string) (l : list string) : string :=
  match l with
  | [] => ""
  | [x] => x
  | x :: rest => x ++ sep ++ str_join sep rest
  end.

(** [str(x)] for a file name that may be [None]. *)
Definition str_of_filename (x : option string) : string := default "None" x.

(** One record of an ePrimer3 file: the running number, the primer whose
    fields are printed and the source file name of the comment line. *)
Record eprimer3_entry : Type := {
  entry_number : nat;
  entry_primer : Primer.t;
  entry_source : string
}.

(** The files written in ePrimer3 format, by file name. *)
Abbreviation eprimer3_files := (gmap string (list eprimer3_entry)).

(** [write_eprimer3]: the file is opened with mode ['w'] whatever [append]
    is, so earlier contents are replaced. A file is identified by the path
    string handed to [open]: two strings are two entries, also when they
    name one file of the disk (as [out/A] and [out/./A] do). Statements
    that tell the files of different samples or families apart therefore
    take names without a slash, which are different entries of the one
    output directory. [open] is taken to succeed; a statement about what
    [write_report] has written is about a run that returns. *)
Definition write_eprimer3 (primers : list Primer.t)
    (filename sourcefilename : string) (append : bool)
    (files : eprimer3_files) : eprimer3_files :=
  <[filename :=
      imap (λ i p, {| entry_number := S i; entry_primer := p;
                      entry_source := sourcefilename |}) primers]> files.

(** The dictionary [families] of member names, keyed by family. *)
Definition build_families (gdlist : list GenomeData.t)
    : result (gmap string (gset string)) :=
  for_each
    (λ gd families,
       match GenomeData.families gd with
       | None => Raise TypeError
       | Some fams =>
           Ok (foldl
                 (λ acc family,
                    <[family := {[GenomeData.name gd]}
                                ∪ default ∅ (acc !! family)]> acc)
                 families fams)
       end)
    gdlist ∅.

(** The three queries as [write_report] calls them. Both arguments are
    positional: [cds_overlap] binds the first keyword parameter and
    [blastfilter] the second one, which is [oligovalid]; the parameter
    [blastfilter] of the methods keeps its default [False]. *)
Definition report_unique (options : Options) (blastfilter : bool)
    (gd : GenomeData.t) : result (list Primer.t) :=
  get_unique_primers options gd (negb (nocds options)) blastfilter false.

Definition report_family_unique (options : Options) (blastfilter : bool)
    (families : gmap string (gset string)) (gd : GenomeData.t)
    (family : string) : result (list Primer.t) :=
  get_family_unique_primers options gd (default ∅ (families !! family))
    (negb (nocds options)) blastfilter false.

Definition report_universal (options : Options) (blastfilter : bool)
    (gdlist : list GenomeData.t) (gd : GenomeData.t)
    : result (list Primer.t) :=
  get_primers_amplify_count options gd (Z.of_nat (List.length gdlist) - 1)
    (negb (nocds options)) blastfilter false.

Record summary_row : Type := {
  row_name : string;
  row_families : string;
  row_unique_count : nat;
  row_universal_count : nat;
  row_seqfilename : string;
  row_ftfilename : string;
  row_primerfilename : string
}.

Record family_row : Type := {
  frow_family : string;
  frow_count : nat;
  frow_primer_file : string
}.

(** The variables that the loop over [gdlist] of [write_report] updates.
    [universal_primers] is the loop's local variable: unbound before the
    first iteration, and holding the last sample's list afterwards. *)
Record report_state : Type := {
  rows : list summary_row;
  files : eprimer3_files;
  all_universal_primers : list Primer.t;
  family_specific_primers : gmap string (list Primer.t);
  universal_primers : option (list Primer.t)
}.

Definition report_start : report_state :=
  {| rows := []; files := ∅; all_universal_primers := [];
     family_specific_primers := ∅; universal_primers := None |}.

(** One iteration of the loop over [gdlist]. The FASTA files of amplicon
    sequences that the script writes next to each primer file are not
    modelled. *)
Definition report_sample (options : Options) (blastfilter : bool)
    (gdlist : list GenomeData.t) (families : gmap string (gset string))
    (gd : GenomeData.t) (st : report_state) : result report_state :=
  unique_primers ← report_unique options blastfilter gd;
  fams ← match GenomeData.families gd with
         | Some fams => Ok fams
         | None => Raise TypeError
         end;
  fsp ← for_each
          (λ family acc,
             fup ← report_family_unique options blastfilter families gd
                     family;
             Ok (<[family := (default [] (acc !! family) ++ fup)%list]> acc))
          fams (family_specific_primers st);
  universal ← report_universal options blastfilter gdlist gd;
  Ok {| rows :=
          (rows st ++
          [ {| row_name := GenomeData.name gd;
               row_families := str_join "," fams;
               row_unique_count := List.length unique_primers;
               row_universal_count := List.length universal;
               row_seqfilename :=
                 str_of_filename (GenomeData.seqfilename gd);
               row_ftfilename := str_of_filename (GenomeData.ftfilename gd);
               row_primerfilename :=
                 str_of_filename (GenomeData.primerfilename gd) |} ])%list;
        files :=
          write_eprimer3 unique_primers
            (OsPath.join (outdir options)
               (GenomeData.name gd ++ "_specific_primers.eprimer3"))
            (str_of_filename (GenomeData.seqfilename gd)) false (files st);
        all_universal_primers := (all_universal_primers st ++ universal)%list;
        family_specific_primers := fsp;
        universal_primers := Some universal |}.

Record Report : Type := {
  summary : list summary_row;
  family_summary : list family_row;
  eprimer3_output : eprimer3_files
}.

Definition universal_filename (options : Options) : string :=
  OsPath.join (outdir options) "universal_primers.eprimer3".

Definition write_report (options : Options) (gdlist : list GenomeData.t)
    (blastfilter : bool) : result Report :=
  families ← build_families gdlist;
  st ← for_each (report_sample options blastfilter gdlist families)
         gdlist report_start;
  (* write_eprimer3(universal_primers, ...) after the loop *)
  universal ← match universal_primers st with
              | Some l => Ok l
              | None => Raise NameError
              end;
  let files1 :=
    write_eprimer3 universal (universal_filename options) "" true
      (files st) in
  let family_items := map_to_list (family_specific_primers st) in
  Ok {| summary := rows st;
        family_summary :=
          (λ fp, {| frow_family := fp.1;
                    frow_count := List.length fp.2;
                    frow_primer_file :=
                      OsPath.join (outdir options)
                        (fp.1 ++ "_family-specific_primers.eprimer3") |})
          <$> family_items;
        eprimer3_output :=
          foldl
            (λ acc fp,
               write_eprimer3 fp.2
                 (OsPath.join (outdir options)
                    (fp.1 ++ "_family-specific_primers.eprimer3"))
                 "" false acc)
            files1 family_items |}.

(** The primers of the universal export, as listed in its file. *)
Definition universal_export (options : Options) (report : Report)
    : list Primer.t :=
  entry_primer <$> default [] (eprimer3_output report !! universal_filename options).

(** ** Sample data used by the examples below *)

Module Sample.

Definition pair (fseq rseq : string) (o : option string) : Primer3.Primers :=
  {| Primer3.size := 100;
     Primer3.forward_seq := fseq; Primer3.forward_start := 11;
     Primer3.forward_length := Z.of_nat (String.length fseq);
     Primer3.reverse_seq := rseq; Primer3.reverse_start := 91;
     Primer3.reverse_length := Z.of_nat (String.length rseq);
     Primer3.oligo := (λ s, {| Primer3.seq := s |}) <$> o |}.

Definition genome (name : string) (fams : list string)
    (outputs : list string) : GenomeData.t :=
  {| GenomeData.name := name;
     GenomeData.families := Some fams;
     GenomeData.seqfilename := Some ("data/" ++ name ++ ".fas");
     GenomeData.ftfilename := None;
     GenomeData.primerfilename := Some ("data/" ++ name ++ ".eprimer3");
     GenomeData.primersearchfilename := None;
     GenomeData.primers := ∅;
     GenomeData.primersearch_output := outputs |}.

(** A genome with the primers of [parsed] as [load_primers] numbers and
    initialises them, no filter run. *)
Definition loaded (name : string) (fams : list string)
    (outputs : list string) (parsed : list Primer3.Primers)
    : GenomeData.t :=
  let gd := genome name fams outputs in
  GenomeData.set_primers (add_primers name 0 parsed ∅) gd.

Definition amplimer : PrimerSearch.Amplifier :=
  {| PrimerSearch.hit_info := "hit"; PrimerSearch.length := 100 |}.

Definition output (l : list (string * list PrimerSearch.Amplifier))
    : PrimerSearch.OutputRecord :=
  {| PrimerSearch.amplifiers := list_to_map l |}.

Definition plain_options : Options :=
  {| nocds := true; filtergc3prime := false; hybridprobe := false;
     single_product := None; outdir := "out" |}.

Definition gc_options : Options :=
  {| nocds := true; filtergc3prime := true; hybridprobe := false;
     single_product := Some "control.fas"; outdir := "out" |}.

Definition single_product_options : Options :=
  {| nocds := true; filtergc3prime := false; hybridprobe := false;
     single_product := Some "control.fas"; outdir := "out" |}.

(** Forward 3' end ATATA, reverse 3' end GCGAT. *)
Definition gc_reverse_rich : GenomeData.t :=
  loaded "A" ["F1"] [] [pair "ACTTGATCAAGTATATA" "TTGACTAATCAAGCGAT" None].

(** Forward 3' end GGAAT, reverse 3' end CATAT. *)
Definition gc_mixed : GenomeData.t :=
  loaded "A" ["F1"] [] [pair "ACTTGATCAAGTGGAAT" "TTGACTAATCAACATAT" None].

(** Two pairs, the first without an internal oligo. *)
Definition oligo_missing : GenomeData.t :=
  loaded "A" ["F1"] []
    [pair "ACTTGATCAAGTATATA" "TTGACTAATCAAGTTAT" None;
     pair "ACTTGATCAAGTATATT" "TTGACTAATCAAGTTAA" (Some "ACCTTGGACCTTA")].

(** Two pairs with internal oligos, the second starting with G. *)
Definition oligo_present : GenomeData.t :=
  loaded "A" ["F1"] []
    [pair "ACTTGATCAAGTATATA" "TTGACTAATCAAGTTAT" (Some "ACTTAGGATCTTA");
     pair "ACTTGATCAAGTATATT" "TTGACTAATCAAGTTAA" (Some "GCCTTGGACCTTA")].

Definition two_pairs : list Primer3.Primers :=
  [pair "ACTTGATCAAGTATATA" "TTGACTAATCAAGTTAT" None;
   pair "ACTTGATCAAGTATATT" "TTGACTAATCAAGTTAA" None].

Definition one_pair : list Primer3.Primers :=
  [pair "ACTTGATCAAGTATATA" "TTGACTAATCAAGTTAT" None].

(** PrimerSearch outputs of an all-against-all run on two genomes: the
    primer of A amplifies B, the primer of B does not amplify A. *)
Definition fs_pairwise : gmap string PrimerSearch.OutputRecord :=
  {[ "data/A_vs_B.primersearch" := output [("A_primer_0001", [amplimer])];
     "data/B_vs_A.primersearch" := output [("B_primer_0001", [])] ]}.

Definition A_query : GenomeData.t :=
  loaded "A" ["F1"] ["data/A_vs_B.primersearch"] one_pair.

Definition B_query : GenomeData.t :=
  loaded "B" ["F1"] ["data/B_vs_A.primersearch"] one_pair.

Definition A_and_B : list GenomeData.t := [A_query; B_query].

(** A genome whose output list holds a comparison against itself. *)
Definition fs_self : gmap string PrimerSearch.OutputRecord :=
  {[ "data/A_vs_A.primersearch" := output [("A_primer_0001", [amplimer])] ]}.

Definition A_self : GenomeData.t :=
  loaded "A" ["F1"] ["data/A_vs_A.primersearch"] one_pair.

(** A genome with its negative-control output: two products for the first
    primer, none for the second. *)
Definition fs_control : gmap string PrimerSearch.OutputRecord :=
  {[ "data/A_negative_control.primersearch" :=
       output [("A_primer_0001", [amplimer; amplimer]);
               ("A_primer_0002", [])] ]}.

Definition A_control : GenomeData.t :=
  loaded "A" ["F1"] ["data/A_negative_control.primersearch"] two_pairs.

(** The objects of [A_and_B] after [classify_primers]. *)
Definition classified : list GenomeData.t :=
  match classify_primers fs_pairwise A_and_B with
  | Ok gdlist => gdlist
  | Raise _ => []
  end.

Definition A_classified : GenomeData.t :=
  default (genome "A" ["F1"] []) (head classified).

(** A single genome, no PrimerSearch output. *)
Definition A_alone : GenomeData.t := loaded "A" ["F1"] [] one_pair.

(** Two genomes, A with two primers: the first primer of A amplifies B,
    the second amplifies nothing, and the primer of B does not amplify A. *)
Definition fs_two : gmap string PrimerSearch.OutputRecord :=
  {[ "data/A_vs_B.primersearch" :=
       output [("A_primer_0001", [amplimer]); ("A_primer_0002", [])];
     "data/B_vs_A.primersearch" := output [("B_primer_0001", [])] ]}.

Definition A_two_query : GenomeData.t :=
  loaded "A" ["F1"] ["data/A_vs_B.primersearch"] two_pairs.

(** The first object of [[A_two_query; B_query]] after
    [classify_primers]. *)
Definition A_two_classified : GenomeData.t :=
  match classify_primers fs_two [A_two_query; B_query] with
  | Ok (gd :: _) => gd
  | _ => genome "A" ["F1"] []
  end.

(** A primer whose forward 3' end is GCGCG, after the 3' GC filter. *)
Definition A_gc_rich : GenomeData.t :=
  filter_primers_gc_3prime
    (loaded "A" ["F1"] [] [pair "ACTTGATCAAGTGCGCG" "TTGACTAATCAAGTTAT" None]).

End Sample.

(** ** Descriptions used in the statements *)

(** The internal-oligo rule as the docstring of [filter_primers_oligo]
    words it: G at either end, two or more CC inside, or G in second
    position. *)
Definition oligo_shape_invalid (s : string) : bool :=
  PyStr.startswith "G" s
  || PyStr.endswith "G" s
  || (1 <? PyStr.count "CC" (PyStr.strip_ends s))%nat
  || match PyStr.index s 1 with
     | Some c => Ascii.eqb c "G"
     | None => false
     end.

(** The 3' GC rule as the docstring of [filter_primers_gc_3prime] words it:
    either primer has more than two G+C among its last five bases. *)
Definition gc_3prime_described (primer : Primer.t) : bool :=
  let fseq := PyStr.last_chars 5 (Primer.forward_seq primer) in
  let rseq := PyStr.last_chars 5 (Primer.reverse_seq primer) in
  (2 <? PyStr.count "C" fseq + PyStr.count "G" fseq)%nat
  || (2 <? PyStr.count "C" rseq + PyStr.count "G" rseq)%nat.

(** Does the primer carry an internal oligo of at least two bases? *)
Definition long_oligo (primer : Primer.t) : bool :=
  match Primer.oligo primer with
  | Some o => (2 <=? String.length (Primer3.seq o))%nat
  | None => false
  end.

(** The primer after the internal-oligo rule has been applied to it. *)
Definition oligo_checked (primer : Primer.t) : Primer.t :=
  match Primer.oligo primer with
  | Some o =>
      if oligo_shape_invalid (Primer3.seq o)
      then Primer.set_oligovalid false primer
      else primer
  | None => primer
  end.

(** The conjunction of the flags that the active stages test. *)
Definition flags_pass (options : Options)
    (cds_overlap oligovalid blastfilter : bool) (p : Primer.t) : bool :=
  implb cds_overlap (Primer.cds_overlap p)
  && implb (filtergc3prime options) (Primer.gc3primevalid p)
  && implb oligovalid (Primer.oligovalid p)
  && implb blastfilter (Primer.blastpass p).

(** Has the negative-control pass never set the attribute? *)
Definition unscanned (p : Primer.t) : bool :=
  match Primer.negative_control_amplimers p with
  | Some _ => false
  | None => true
  end.

(** [p.negative_control_amplimers == 1] on a primer that has the
    attribute. *)
Definition one_product (p : Primer.t) : bool :=
  match Primer.negative_control_amplimers p with
  | Some n => (n =? 1)%nat
  | None => false
  end.

(** The names of a list of primers. *)
Definition names (l : list Primer.t) : list string := Primer.name <$> l.

(** A primer after the target and the target's families have been added
    to its two sets. *)
Definition amplified (targetname : string) (fams : list string)
    (p : Primer.t) : Primer.t :=
  foldl (λ q family, Primer.add_family family q)
    (Primer.add_organism targetname p) fams.

(** What one entry of a PrimerSearch output for a known target does to the
    primer it names. *)
Definition amplify_if (targetname : string)
    (target_families : option (list string))
    (pdata : list PrimerSearch.Amplifier) (p : Primer.t) : Primer.t :=
  if (0 <? List.length pdata)%nat
  then amplified targetname (default [] target_families) p
  else p.

(** What a negative-control output does to the primer named [k]. *)
Definition count_products
    (amplifiers : gmap string (list PrimerSearch.Amplifier)) (k : string)
    (p : Primer.t) : Primer.t :=
  match amplifiers !! k with
  | Some pdata =>
      Primer.set_negative_control_amplimers (List.length pdata) p
  | None => p
  end.

(** The object after a negative-control output has been read into it:
    every primer the output names has its number of products recorded. *)
Definition with_control_counts (psdata : PrimerSearch.OutputRecord)
    (gd : GenomeData.t) : GenomeData.t :=
  GenomeData.set_primers
    (map_imap
       (λ k p, Some (count_products (PrimerSearch.amplifiers psdata) k p))
       (GenomeData.primers gd))
    gd.

(** ** Further descriptions used in the statements *)

(** Two primer objects that agree on everything except, possibly, the two
    sets of amplified names and the negative-control count. *)
Definition same_payload (p p' : Primer.t) : Prop :=
  Primer.name p' = Primer.name p
  ∧ Primer.size p' = Primer.size p
  ∧ Primer.forward_seq p' = Primer.forward_seq p
  ∧ Primer.forward_start p' = Primer.forward_start p
  ∧ Primer.forward_length p' = Primer.forward_length p
  ∧ Primer.reverse_seq p' = Primer.reverse_seq p
  ∧ Primer.reverse_start p' = Primer.reverse_start p
  ∧ Primer.reverse_length p' = Primer.reverse_length p
  ∧ Primer.oligo p' = Primer.oligo p
  ∧ Primer.cds_overlap p' = Primer.cds_overlap p
  ∧ Primer.gc3primevalid p' = Primer.gc3primevalid p
  ∧ Primer.oligovalid p' = Primer.oligovalid p
  ∧ Primer.blastpass p' = Primer.blastpass p.


(** [p'] is [p] after some passes of the matrix builder that may have added
    names of [targets] to its amplified organisms: nothing but the two sets
    and the negative-control count differs, and the sets have only grown. *)
Definition extends_by (targets : gset string) (p p' : Primer.t) : Prop :=
  same_payload p p'
  ∧ Primer.amplifies_organism p ⊆ Primer.amplifies_organism p'
  ∧ Primer.amplifies_organism p' ⊆ targets ∪ Primer.amplifies_organism p
  ∧ Primer.amplifies_family p ⊆ Primer.amplifies_family p'.

(** The target names that [classify_primers] decodes from the result files
    of a sample. *)
Definition decoded_targets (gd : GenomeData.t) : gset string :=
  list_to_set (targetname_of <$> GenomeData.primersearch_output gd).

(** A result file that [classify_primers] can apply to the sample [gd]. A
    file for a target of the collection must be readable, and every primer
    it reports with at least one amplimer must be a primer of the sample,
    the target then having a list of families; a negative-control file
    must be readable and name primers of the sample only; any other file is
    passed over. *)
Definition file_applies (fs : gmap string PrimerSearch.OutputRecord)
    (gddict : gmap string GenomeData.t) (gd : GenomeData.t)
    (filename : string) : Prop :=
  match gddict !! targetname_of filename with
  | Some target =>
      match fs !! filename with
      | Some psdata =>
          map_Forall
            (λ k pdata,
               0 < List.length pdata →
               is_Some (GenomeData.primers gd !! k)
               ∧ is_Some (GenomeData.families target))
            (PrimerSearch.amplifiers psdata)
      | None => False
      end
  | None =>
      if PyStr.contains "negative_control" filename
      then match fs !! filename with
           | Some psdata =>
               map_Forall (λ k _, is_Some (GenomeData.primers gd !! k))
                 (PrimerSearch.amplifiers psdata)
           | None => False
           end
      else True
  end.

(** What [classify_primers] may do to one sample. *)
Definition classified_from (gd gd' : GenomeData.t) : Prop :=
  gd' = GenomeData.set_primers (GenomeData.primers gd') gd
  ∧ ∀ k, option_Forall2 (extends_by (decoded_targets gd))
           (GenomeData.primers gd !! k) (GenomeData.primers gd' !! k).

(** A summary row that describes the sample [gd] of the collection: its
    name, and the sizes of its unique and universal sets as the report
    queries them. *)
Definition summarises (options : Options) (blastfilter : bool)
    (gdlist : list GenomeData.t) (gd : GenomeData.t) (row : summary_row)
    : Prop :=
  row_name row = GenomeData.name gd
  ∧ ∃ unique_primers universal_primers,
      report_unique options blastfilter gd = Ok unique_primers
      ∧ row_unique_count row = List.length unique_primers
      ∧ report_universal options blastfilter gdlist gd
        = Ok universal_primers
      ∧ row_universal_count row = List.length universal_primers.

(** ** Naming the PrimerSearch result files *)

(** [[body x for x in l]] with a body that may raise. *)
Fixpoint map_raising {A B} (body : A → result B) (l : list A)
  : result (list B) :=
  match l with
  | [] => Ok []
  | x :: rest =>
      y ← body x;
      ys ← map_raising body rest;
      Ok (y :: ys)
  end.

(** [gd.primersearch_output = outputs] *)
Definition set_primersearch_output (outputs : list string)
    (gd : GenomeData.t) : GenomeData.t :=
  {| GenomeData.name := GenomeData.name gd;
     GenomeData.families := GenomeData.families gd;
     GenomeData.seqfilename := GenomeData.seqfilename gd;
     GenomeData.ftfilename := GenomeData.ftfilename gd;
     GenomeData.primerfilename := GenomeData.primerfilename gd;
     GenomeData.primersearchfilename := GenomeData.primersearchfilename gd;
     GenomeData.primers := GenomeData.primers gd;
     GenomeData.primersearch_output := outputs |}.

(** [os.path.split(gd.seqfilename)[0]]; without a sequence file name the
    call reaches [None.rfind] and raises an attribute error. *)
Definition seqfile_dir (gd : GenomeData.t) : result string :=
  match GenomeData.seqfilename gd with
  | Some f => Ok (OsPath.split f).1
  | None => Raise AttributeError
  end.

(** ["%s_vs_%s.primersearch" % (query, target)] *)
Definition pairwise_name (query target : string) : string :=
  query ++ "_vs_" ++ target ++ ".primersearch".

(** The body of the inner loop of [primersearch] for the query at position
    [i] and the target at position [jt.1]: one more output file when the
    target is another object than the query ([query_gd != target_gd]
    compares the objects, not their names; the objects of the list are
    distinct, so the positions are compared). *)
Definition pairwise_step (i : nat) (query_gd : GenomeData.t)
    (jt : nat * GenomeData.t) (acc : list string) : result (list string) :=
  if (i =? jt.1)%nat then Ok acc
  else
    outdir ← seqfile_dir query_gd;
    Ok (acc ++ [OsPath.join outdir
                  (pairwise_name (GenomeData.name query_gd)
                     (GenomeData.name jt.2))])%list.

(** The inner loop of [primersearch] for the query at position [i]. *)
Definition pairwise_outputs (gdlist : list GenomeData.t) (i : nat)
    (query_gd : GenomeData.t) : result (list string) :=
  for_each (pairwise_step i query_gd) (imap pair gdlist) [].

(** The loops of [primersearch]: the list of result files each query is
    given. The PrimerSearch command lines built along the way are not
    modelled. *)
Definition primersearch_outputs (gdlist : list GenomeData.t)
    : result (list GenomeData.t) :=
  map_raising
    (λ iq, outputs ← pairwise_outputs gdlist iq.1 iq.2;
           Ok (set_primersearch_output outputs iq.2))
    (imap pair gdlist).

(** [primersearch], as far as the objects are concerned. After the loops
    the command lines are run by [multiprocessing_run], which returns, or,
    when [sge] is set, handed to [sge_run], a name that is defined nowhere
    in the script. *)
Definition primersearch (sge : bool) (gdlist : list GenomeData.t)
    : result (list GenomeData.t) :=
  searched ← primersearch_outputs gdlist;
  if sge then Raise NameError else Ok searched.

(** ["%s_negative_control.primersearch" % query] *)
Definition control_name (query : string) : string :=
  query ++ "_negative_control.primersearch".

(** [find_negative_target_products], as far as the objects are concerned.
    The loop replaces the output list of every query by the single
    negative-control file. The function then ends with
    [multiprocessing_run(clines, cpus)], a call with two arguments of a
    function that has one parameter, or, when [sge] is set, with [sge_run],
    a name that is defined nowhere in the script. *)
Definition find_negative_target_products (sge : bool)
    (gdlist : list GenomeData.t) : result (list GenomeData.t) :=
  map_raising
    (λ query_gd,
       outdir ← seqfile_dir query_gd;
       Ok (set_primersearch_output
             [OsPath.join outdir (control_name (GenomeData.name query_gd))]
             query_gd))
    gdlist
  ≫= λ _, Raise (if sge then NameError else TypeError).

(** [load_existing_primersearch_results]: the files of the sequence file's
    directory with extension [.primersearch] whose name starts with the name
    of the object. [listdir] stands for [os.listdir]: the entries of a
    directory, or the error it raises. *)
Definition load_existing_primersearch_results
    (listdir : string → result (list string)) (gdlist : list GenomeData.t)
    : result (list GenomeData.t) :=
  map_raising
    (λ gd,
       filedir ← seqfile_dir gd;
       entries ← listdir filedir;
       let primersearch_files :=
         List.filter
           (λ f, String.eqb (OsPath.splitext f).2 ".primersearch"
                 && PyStr.startswith (GenomeData.name gd) f)
           entries in
       Ok (set_primersearch_output
             ((λ filename, OsPath.join filedir filename)
              <$> primersearch_files)
             gd))
    gdlist.

(** A sample name that the file naming scheme can carry: no path separator
    and no ["_vs"] in it. *)
Definition plain_name (n : string) : bool :=
  negb (PyStr.contains "/" n) && negb (PyStr.contains "_vs" n).

(** [sep] matches at no position of [s ++ rest] that lies within [s]. *)
Fixpoint no_match_within (sep s rest : string) : bool :=
  match s with
  | EmptyString => true
  | String _ s' =>
      negb (PyStr.startswith sep (s ++ rest)) && no_match_within sep s' rest
  end.

(** ** The files of the report *)

(** The file that [write_report] writes the unique primers of a sample
    to. *)
Definition specific_filename (options : Options) (gd_name : string)
    : string :=
  OsPath.join (outdir options) (gd_name ++ "_specific_primers.eprimer3").

(** The file that [write_report] writes the primers of a family to. *)
Definition family_filename (options : Options) (family : string) : string :=
  OsPath.join (outdir options)
    (family ++ "_family-specific_primers.eprimer3").

(** The records of an ePrimer3 file written from [primers]. *)
Definition eprimer3_entries (primers : list Primer.t)
    (sourcefilename : string) : list eprimer3_entry :=
  imap (λ i p, {| entry_number := S i; entry_primer := p;
                  entry_source := sourcefilename |}) primers.

(** What one sample adds to the primers collected for [family]: the result
    of its family-unique query, once for each time the sample lists the
    family. *)
Definition family_contribution (options : Options) (blastfilter : bool)
    (families : gmap string (gset string)) (family : string)
    (gd : GenomeData.t) (primers : list Primer.t) : Prop :=
  ∃ fams,
    GenomeData.families gd = Some fams
    ∧ match count_occ string_dec fams family with
      | 0 => primers = []
      | S n =>
          ∃ fup,
            report_family_unique options blastfilter families gd family
            = Ok fup
            ∧ primers = concat (replicate (S n) fup)
      end.

(** ** Cleaning up: [clean_output] *)

(** The extensions listed in [clean_output], as the source has them. *)
Definition cleaned_extensions : list string :=
  [".eprimer3"; "primers"; ".prodigalout"; ".primersearch"; ".xml"].

(** The entries of a directory listing that [clean_output] goes on to
    delete. *)
Definition clean_selection (entries : list string) : list string :=
  List.filter
    (λ f, bool_decide ((OsPath.splitext f).2 ∈ cleaned_extensions))
    entries.

(** The paths handed to [os.remove] for one sample, given the listing of
    the directory of its sequence file. *)
Definition clean_targets (gd : GenomeData.t) (entries : list string)
    : result (list string) :=
  seqdir ← seqfile_dir gd;
  Ok ((λ filename, OsPath.join seqdir filename) <$> clean_selection entries).

(** ** The names used by the BLAST screen *)

(** The identifiers under which [build_blast_input] writes the two
    sequences of a primer. *)
Definition blast_query_ids (name : string) : string * string :=
  (name ++ "_forward", name ++ "_reverse").

(** ['_'.join(record.query.split('_')[:-1])] in [process_blastxml]. *)
Definition blast_query_primer (query : string) : string :=
  str_join "_" (removelast (PyStr.split "_" query)).

(** [name.split('_primer_')[0]] in [parse_blast]. *)
Definition blast_owner (name : string) : string :=
  default "" (head (PyStr.split "_primer_" name)).

(** The body of the loop of [parse_blast] for one reported primer name.
    [gddict[...]] is the first object of the list with the decoded name (the
    dictionary is filled with [setdefault]) and the assignment is made on
    that object, so it shows in the list. *)
Definition parse_blast_mark (name : string) (gdlist : list GenomeData.t)
    : result (list GenomeData.t) :=
  match list_find (λ gd, GenomeData.name gd = blast_owner name) gdlist with
  | None => Raise KeyError
  | Some (i, gd) =>
      gd' ← mark_blast_failure name gd;
      Ok (<[i := gd']> gdlist)
  end.

(** ** The configuration file *)

Module Config.

Definition tab : string := String "009" "".
Definition nl : string := String "010" "".

(** The characters that [str.strip()] removes: blank, tab, line feed,
    vertical tab, form feed and carriage return. *)
Definition is_space (c : ascii) : bool :=
  existsb (Ascii.eqb c) [" "; "009"; "010"; "011"; "012"; "013"]%char.

Fixpoint lstrip (s : string) : string :=
  match s with
  | EmptyString => EmptyString
  | String c rest => if is_space c then lstrip rest else s
  end.

Fixpoint rstrip (s : string) : string :=
  match s with
  | EmptyString => EmptyString
  | String c rest =>
      match rstrip rest with
      | EmptyString => if is_space c then EmptyString else String c EmptyString
      | kept => String c kept
      end
  end.

(** [s.strip()] *)
Definition strip (s : string) : string := rstrip (lstrip s).

(** Neither a line feed nor a carriage return in [s]. *)
Definition no_eol (s : string) : bool :=
  negb (PyStr.contains nl s) && negb (PyStr.contains (String "013" "") s).

(** [lines_from cur after_cr s]: the lines that iterating over a file
    opened with mode ['rU'] yields for the text [s], each with its
    terminator as a line feed ([\r\n] and [\r] are read as [\n]); [cur]
    holds the current line reversed, and [after_cr] tells that the previous
    character was a carriage return. *)
Fixpoint lines_from (cur : string) (after_cr : bool) (s : string)
  : list string :=
  match s with
  | EmptyString =>
      if String.eqb cur "" then [] else [PyStr.rev_onto "" cur]
  | String c rest =>
      if Ascii.eqb c "010" then
        if after_cr then lines_from "" false rest
        else PyStr.rev_onto "" (String "010" cur)
             :: lines_from "" false rest
      else if Ascii.eqb c "013" then
        PyStr.rev_onto "" (String "010" cur) :: lines_from "" true rest
      else lines_from (String c cur) false rest
  end.

Definition file_lines (text : string) : list string :=
  lines_from "" false text.

(** [x if x != '-' else None] *)
Definition dash_to_None (x : string) : option string :=
  if String.eqb x "-" then None else Some x.

(** [GenomeData.__init__], as far as the attributes go; the sequence is
    loaded by [create_gd_from_config] below. The dictionary of primers is
    empty, and no result file is known. *)
Definition GenomeData_init
    (name families seqfilename ftfilename primerfilename
       primersearchfilename : string) : GenomeData.t :=
  {| GenomeData.name := name;
     GenomeData.families :=
       if String.eqb families "-" then None
       else Some (PyStr.split "," families);
     GenomeData.seqfilename := dash_to_None seqfilename;
     GenomeData.ftfilename := dash_to_None ftfilename;
     GenomeData.primerfilename := dash_to_None primerfilename;
     GenomeData.primersearchfilename := dash_to_None primersearchfilename;
     GenomeData.primers := ∅;
     GenomeData.primersearch_output := [] |}.

(** The ways in which [create_gd_from_config] fails: the value error of a
    line that does not have six columns, and the two failures of
    [load_sequence] (the I/O error of [open], and [sys.exit(1)] after the
    value error of [SeqIO.read]). *)
Inductive failure : Type :=
  | unpack_error
  | sequence_io_error
  | sequence_exit.

(** The lines that are read as data: not blank, not starting with [#];
    stripped. The comment test is made on the line as it is in the file. *)
Definition data_lines (lines : list string) : list string :=
  strip
  <$> List.filter
        (λ l, negb (String.eqb (strip l) "")
              && negb (PyStr.startswith "#" l))
        lines.

(** [[e.strip() for e in line.strip().split('\t') if e.strip()]] *)
Definition fields (line : string) : list string :=
  List.filter (λ e, negb (String.eqb e ""))
    (strip <$> PyStr.split tab (strip line)).

(** The object made from one data line; [load_sequence] tells how loading
    a sequence file fails, if it does. *)
Definition create_gd (load_sequence : string → option failure)
    (line : string) : failure + GenomeData.t :=
  match fields line with
  | [name; family; sfile; ffile; pfile; psfile] =>
      let gd := GenomeData_init name family sfile ffile pfile psfile in
      match GenomeData.seqfilename gd with
      | Some seqfilename =>
          match load_sequence seqfilename with
          | Some e => inl e
          | None => inr gd
          end
      | None => inr gd
      end
  | _ => inl unpack_error
  end.

Fixpoint create_all (load_sequence : string → option failure)
    (lines : list string) : failure + list GenomeData.t :=
  match lines with
  | [] => inr []
  | line :: rest =>
      match create_gd load_sequence line with
      | inl e => inl e
      | inr gd =>
          match create_all load_sequence rest with
          | inl e => inl e
          | inr gdlist => inr (gd :: gdlist)
          end
      end
  end.

(** [create_gd_from_config], given the lines of the file. *)
Definition create_gd_from_config (load_sequence : string → option failure)
    (lines : list string) : failure + list GenomeData.t :=
  create_all load_sequence (data_lines lines).

(** The comment lines that [write_config_file] of [build_config_file.py]
    starts the file with; [asctime] is the time stamp. *)
Definition header_lines (asctime : string) : list string :=
  ["# find_differential_primers.py configuration file";
   "# Automatically generated by build_config_file.py, " ++ asctime;
   "#";
   "# This file defines the following data, in tab-separated format:";
   "# Column 1: Entity abbreviation";
   "# Column 2: Family/group for the Entity, comma-separated for multiple groups";
   "# Column 3: Location of sequence data in FASTA format";
   "# Column 4: Location of GenBank file describing features ('-' if none)";
   "# Column 5: Location of ePrimer3 primer definitions ('-' if none)";
   "# Column 6: Location of PrimerSearch input format primer definitions ('-' if none)";
   "#";
   "# BLANK COLUMNS ARE IGNORED! USE '-' IF THERE IS NO DATA."].

(** [os.path.splitext(os.path.split(filename)[-1])[0]] *)
Definition fstem (filename : string) : string :=
  (OsPath.splitext (OsPath.split filename).2).1.

(** The line written for one FASTA file, without its line feed. *)
Definition config_row (filename : string) : string :=
  str_join tab [fstem filename; fstem filename; filename; "-"; "-"; "-"].

(** The text that [write_config_file] writes. *)
Definition write_config_file (asctime : string)
    (fasta_files : list string) : string :=
  (str_join nl (header_lines asctime) ++ nl ++ nl)
  ++ foldr (λ filename text, config_row filename ++ nl ++ text) ""
       fasta_files.

(** A column that is read back as it was written: not empty, without
    tabulation or line end, and without white space at its ends. *)
Definition plain_field (s : string) : bool :=
  negb (String.eqb s "") && String.eqb (strip s) s
  && negb (PyStr.contains tab s) && no_eol s.

(** A FASTA file name that the configuration file can carry. *)
Definition plain_file (filename : string) : bool :=
  plain_field filename && plain_field (fstem filename)
  && negb (PyStr.startswith "#" (fstem filename)).

End Config.

(** ** Further sample data *)

Module Fixture.

(** A negative-control file of A that names a primer A does not have. *)
Definition fs_foreign_control : gmap string PrimerSearch.OutputRecord :=
  {[ "data/A_negative_control.primersearch" :=
       Sample.output [("A_primer_0009", [])] ]}.

(** Three samples: A is searched against B and then against C, and the
    result file of A against C names a primer of C. *)
Definition fs_late : gmap string PrimerSearch.OutputRecord :=
  {[ "data/B_vs_A.primersearch" :=
       Sample.output [("B_primer_0001", [])];
     "data/A_vs_B.primersearch" :=
       Sample.output [("A_primer_0001", [Sample.amplimer])];
     "data/A_vs_C.primersearch" :=
       Sample.output [("A_primer_0001", []);
                      ("C_primer_0001", [Sample.amplimer])] ]}.

Definition A_late : GenomeData.t :=
  Sample.loaded "A" ["F1"]
    ["data/A_vs_B.primersearch"; "data/A_vs_C.primersearch"]
    Sample.one_pair.

Definition C_alone : GenomeData.t :=
  Sample.loaded "C" ["F2"] [] Sample.one_pair.


(** A sample whose configuration line gave ['-'] as families. *)
Definition no_families : GenomeData.t :=
  {| GenomeData.name := "C";
     GenomeData.families := None;
     GenomeData.seqfilename := Some "data/C.fas";
     GenomeData.ftfilename := None;
     GenomeData.primerfilename := Some "data/C.eprimer3";
     GenomeData.primersearchfilename := None;
     GenomeData.primers := ∅;
     GenomeData.primersearch_output := [] |}.

(** A sample whose configuration line gave ['-'] as sequence file. *)
Definition no_sequence : GenomeData.t :=
  {| GenomeData.name := "D";
     GenomeData.families := Some ["F1"];
     GenomeData.seqfilename := None;
     GenomeData.ftfilename := None;
     GenomeData.primerfilename := None;
     GenomeData.primersearchfilename := None;
     GenomeData.primers := ∅;
     GenomeData.primersearch_output := [] |}.

(** Two samples with their primers loaded, before any PrimerSearch run. *)
Definition B_alone : GenomeData.t :=
  Sample.loaded "B" ["F1"] [] Sample.one_pair.

Definition unscreened : list GenomeData.t := [Sample.A_alone; B_alone].

(** A sample whose name starts with the name of sample A. *)
Definition AB_alone : GenomeData.t :=
  Sample.loaded "AB" ["F1"] [] Sample.one_pair.

Definition prefixed : list GenomeData.t := [Sample.A_alone; AB_alone].

(** The directory of the sequence files after an earlier run. *)
Definition listdir (d : string) : result (list string) :=
  if String.eqb d "data"
  then Ok ["A.fas"; "AB.fas"; "A_vs_AB.primersearch";
           "AB_vs_A.primersearch"; "A_negative_control.primersearch";
           "notes.txt"]
  else Raise IOError.

(** [prefixed] after [load_existing_primersearch_results]. *)
Definition reloaded : list GenomeData.t :=
  match load_existing_primersearch_results listdir prefixed with
  | Ok gdlist => gdlist
  | Raise _ => []
  end.

(** The directory of the sequence file of A after a run. *)
Definition run_directory : list string :=
  ["A.fas"; "A.eprimer3"; "A.primers"; "A_vs_B.primersearch";
   "A_BLAST_input.fas"; "A_BLAST_output.xml"].

(** Two samples whose primers amplify each other, after
    [classify_primers]. *)
Definition fs_mutual : gmap string PrimerSearch.OutputRecord :=
  {[ "data/A_vs_B.primersearch" :=
       Sample.output [("A_primer_0001", [Sample.amplimer])];
     "data/B_vs_A.primersearch" :=
       Sample.output [("B_primer_0001", [Sample.amplimer])] ]}.

Definition mutual : list GenomeData.t :=
  match classify_primers fs_mutual Sample.A_and_B with
  | Ok gdlist => gdlist
  | Raise _ => []
  end.

Definition A_mutual : GenomeData.t :=
  default (Sample.genome "A" ["F1"] []) (mutual !! 0).

Definition B_mutual : GenomeData.t :=
  default (Sample.genome "B" ["F1"] []) (mutual !! 1).

(** The second object of [Sample.classified]. *)
Definition B_classified : GenomeData.t :=
  default (Sample.genome "B" ["F1"] []) (Sample.classified !! 1).

End Fixture.

(** * Properties *)

Open Scope nat_scope.

(** Decide a closed proposition by evaluating its decision procedure. *)
Ltac by_evaluation :=
  lazymatch goal with
  | |- ?P => apply (bool_decide_unpack P); vm_compute; exact I
  end.

(** ** The exception monad and the loops *)

Lemma bind_Ok {A B} (a : A) (k : A → result B) : (Ok a ≫= k) = k a.
Proof. reflexivity. Qed.

Lemma bind_Raise {A B} (e : exn) (k : A → result B) :
  (Raise e ≫= k) = Raise e.
Proof. reflexivity. Qed.

Lemma bind_Ok_inv {A B} (r : result A) (k : A → result B) (b : B) :
  (r ≫= k) = Ok b → ∃ a, r = Ok a ∧ k a = Ok b.
Proof. destruct r as [a|e]; [eauto | discriminate]. Qed.

Lemma for_each_cons {A S} (body : A → S → result S) x l (s : S) :
  for_each body (x :: l) s = (body x s ≫= for_each body l).
Proof. reflexivity. Qed.

Lemma update_step_pair {V} (body : V → result V) k v acc :
  update_step body (k, v) acc = (body v ≫= λ v', Ok (<[k := v']> acc)).
Proof. reflexivity. Qed.

Lemma for_each_app {A S} (body : A → S → result S) l1 l2 (s : S) :
  for_each body (l1 ++ l2) s = (for_each body l1 s ≫= for_each body l2).
Proof.
  revert s. induction l1 as [|x l1 IH]; intros s; simpl; [reflexivity|].
  destruct (body x s) as [s'|e]; simpl; [apply IH | reflexivity].
Qed.

(** ** Dictionaries updated value by value *)

Section update_values.
Context {V : Type} (body : V → result V).

Lemma update_loop_ok (g : V → V) (l : list (string * V))
    (acc : gmap string V) :
  (∀ kv, kv ∈ l → body kv.2 = Ok (g kv.2)) →
  for_each (update_step body) l acc
  = Ok (foldl (λ a kv, <[kv.1 := g kv.2]> a) acc l).
Proof.
  revert acc. induction l as [|[k v] l IH]; intros acc H; [reflexivity|].
  pose proof (H (k, v) ltac:(constructor)) as Hkv. simpl in Hkv.
  rewrite for_each_cons, update_step_pair, Hkv, !bind_Ok. apply IH.
  intros kv' Hkv'. apply H. by constructor.
Qed.

Lemma foldl_insert_lookup (g : V → V) (l : list (string * V))
    (acc : gmap string V) (i : string) :
  NoDup l.*1 →
  foldl (λ a kv, <[kv.1 := g kv.2]> a) acc l !! i
  = match (list_to_map l : gmap string V) !! i with
    | Some v => Some (g v)
    | None => acc !! i
    end.
Proof.
  revert acc. induction l as [|[k v] l IH]; intros acc Hnd; [reflexivity|].
  apply NoDup_cons in Hnd as [Hk Hnd]. simpl. rewrite IH by done.
  destruct (decide (k = i)) as [->|Hne].
  - rewrite (not_elem_of_list_to_map_1 _ i Hk). by simplify_map_eq.
  - simplify_map_eq. destruct (list_to_map l !! i); [done|]. by simplify_map_eq.
Qed.

(** When the body succeeds on every value, the dictionary is updated
    pointwise. *)
Lemma update_values_ok (g : V → V) (d : gmap string V) :
  (∀ k v, d !! k = Some v → body v = Ok (g v)) →
  update_values body d = Ok (g <$> d).
Proof.
  intros H. unfold update_values.
  rewrite (update_loop_ok g).
  - f_equal. apply map_eq. intros i.
    rewrite foldl_insert_lookup by apply NoDup_fst_map_to_list.
    rewrite list_to_map_to_list, lookup_fmap.
    by destruct (d !! i).
  - intros [k v] Hkv. simpl. apply (H k). by apply elem_of_map_to_list.
Qed.

Lemma update_loop_raise (l : list (string * V)) (acc : gmap string V) :
  (∃ kv e, kv ∈ l ∧ body kv.2 = Raise e) →
  ∃ kv e, kv ∈ l ∧ body kv.2 = Raise e ∧ for_each (update_step body) l acc = Raise e.
Proof.
  revert acc. induction l as [|[k v] l IH]; intros acc (kv & e & Hin & Hb).
  - by apply elem_of_nil in Hin.
  - rewrite for_each_cons, update_step_pair.
    destruct (body v) as [v'|e'] eqn:Hv; rewrite ?bind_Ok, ?bind_Raise.
    + apply elem_of_cons in Hin as [->|Hin]; [simpl in Hb; congruence|].
      destruct (IH (<[k:=v']> acc)) as (kv' & e'' & Hin' & Hb' & Hrun);
        [by eauto|].
      exists kv', e''. split_and!; [by constructor|done|done].
    + exists (k, v), e'. split_and!; [constructor|done|done].
Qed.

(** When the body raises on some value, the whole update raises an
    exception that the body raises on one of the values. *)
Lemma update_values_raise (d : gmap string V) :
  (∃ k v e, d !! k = Some v ∧ body v = Raise e) →
  ∃ k v e, d !! k = Some v ∧ body v = Raise e
           ∧ update_values body d = Raise e.
Proof.
  intros (k & v & e & Hk & Hb).
  destruct (update_loop_raise (map_to_list d) d) as ([k' v'] & e' & Hin & Hb' & Hrun).
  - exists (k, v), e. split; [by apply elem_of_map_to_list|done].
  - exists k', v', e'. split_and!; [by apply elem_of_map_to_list|done|done].
Qed.
End update_values.

(** ** The 3' GC filter *)

(** What the filter does to each primer of the sample. *)
Lemma filter_primers_gc_3prime_lookup (gd : GenomeData.t) (k : string) :
  GenomeData.primers (filter_primers_gc_3prime gd) !! k
  = (λ p, if gc_3prime_test p then Primer.set_gc3primevalid false p else p)
    <$> GenomeData.primers gd !! k.
Proof. unfold filter_primers_gc_3prime. simpl. apply lookup_fmap. Qed.

(** The filter looks at nothing but the two sequences: whenever the forward
    3' end is GC-rich by itself the primer is marked. *)
Lemma gc_3prime_forward_marked (gd : GenomeData.t) (k : string) p :
  GenomeData.primers gd !! k = Some p →
  let fseq := PyStr.last_chars 5 (Primer.forward_seq p) in
  2 < PyStr.count "C" fseq + PyStr.count "G" fseq →
  Primer.gc3primevalid
    <$> GenomeData.primers (filter_primers_gc_3prime gd) !! k = Some false.
Proof.
  intros Hk fseq Hgc. rewrite filter_primers_gc_3prime_lookup, Hk. simpl.
  unfold gc_3prime_test. fold fseq.
  destruct (Nat.ltb_spec 2 (PyStr.count "C" fseq + PyStr.count "G" fseq));
    [reflexivity | lia].
Qed.

(** C2, the code at two inputs. The second test of the filter adds the C
    count of the reverse 3' end to the G count of the FORWARD 3' end. A
    primer whose reverse 3' end GCGAT holds three G+C, with a forward end
    free of G, keeps [gc3primevalid = True]; and a primer whose two ends
    each hold at most two G+C (forward GGAAT, reverse CATAT) is marked
    invalid. *)
Theorem gc_3prime_reverse_end_miscounted :
  (∃ p p',
      GenomeData.primers Sample.gc_reverse_rich !! "A_primer_0001" = Some p
      ∧ GenomeData.primers (filter_primers_gc_3prime Sample.gc_reverse_rich)
          !! "A_primer_0001" = Some p'
      ∧ PyStr.last_chars 5 (Primer.reverse_seq p) = "GCGAT"
      ∧ gc_3prime_described p = true
      ∧ Primer.gc3primevalid p' = true)
  ∧ (∃ p p',
      GenomeData.primers Sample.gc_mixed !! "A_primer_0001" = Some p
      ∧ GenomeData.primers (filter_primers_gc_3prime Sample.gc_mixed)
          !! "A_primer_0001" = Some p'
      ∧ PyStr.last_chars 5 (Primer.forward_seq p) = "GGAAT"
      ∧ PyStr.last_chars 5 (Primer.reverse_seq p) = "CATAT"
      ∧ gc_3prime_described p = false
      ∧ Primer.gc3primevalid p = true
      ∧ Primer.gc3primevalid p' = false).
Proof.
  split; eexists _, _; split_and!; try (vm_compute; reflexivity).
Qed.

(** ** The internal-oligo filter *)

Lemma oligo_test_long (p : Primer.t) (o : Primer3.Oligo) :
  Primer.oligo p = Some o →
  2 ≤ String.length (Primer3.seq o) →
  oligo_test p = Ok (oligo_shape_invalid (Primer3.seq o)).
Proof.
  intros Ho Hlen. unfold oligo_test, oligo_shape_invalid. rewrite Ho.
  destruct (PyStr.index (Primer3.seq o) 1) as [c|] eqn:Hc.
  - destruct (PyStr.startswith "G" _), (PyStr.endswith "G" _),
      (1 <? PyStr.count "CC" _)%nat; reflexivity.
  - exfalso. unfold PyStr.index in Hc.
    destruct (Primer3.seq o) as [|a [|b s]]; simpl in *; [lia|lia|discriminate].
Qed.

Lemma oligo_test_raises (p : Primer.t) e :
  oligo_test p = Raise e → e = AttributeError ∨ e = IndexError.
Proof.
  unfold oligo_test. destruct (Primer.oligo p) as [o|]; [|intros [= <-]; by left].
  destruct (PyStr.startswith "G" _); [discriminate|].
  destruct (PyStr.endswith "G" _); [discriminate|].
  destruct (1 <? PyStr.count "CC" _)%nat; [discriminate|].
  destruct (PyStr.index _ 1); [discriminate|]. intros [= <-]. by right.
Qed.

(** C8, counterexample. A sample of two primers, the first without an
    internal oligo and the second with one: the filter raises the attribute
    error of [primer.oligo] and the run stops; no primer is skipped and no
    flag is returned. *)
Lemma oligo_filter_fails_without_oligo :
  (∃ p, GenomeData.primers Sample.oligo_missing !! "A_primer_0001" = Some p
        ∧ Primer.oligo p = None)
  ∧ (∃ p, GenomeData.primers Sample.oligo_missing !! "A_primer_0002" = Some p
          ∧ is_Some (Primer.oligo p))
  ∧ filter_primers_oligo Sample.oligo_missing = Raise AttributeError.
Proof.
  split_and!.
  - eexists. split; vm_compute; reflexivity.
  - eexists. split; [vm_compute; reflexivity|]. eexists. vm_compute. reflexivity.
  - vm_compute. reflexivity.
Qed.

(** C8, as the code has it. The filter has no guard on single primers. If
    some primer of the sample has no internal oligo the run fails with an
    exception (the attribute error of that primer, or the index error of an
    oligo shorter than two bases met before it). If every primer has an
    internal oligo of at least two bases the filter returns, and every
    primer has its [oligovalid] flag set by the rule. *)
Theorem filter_primers_oligo_no_skip (gd : GenomeData.t) :
  ((∃ k p, GenomeData.primers gd !! k = Some p ∧ Primer.oligo p = None) →
   ∃ e, filter_primers_oligo gd = Raise e
        ∧ (e = AttributeError ∨ e = IndexError))
  ∧ (map_Forall (λ _ p, long_oligo p = true) (GenomeData.primers gd) →
     ∃ gd', filter_primers_oligo gd = Ok gd'
            ∧ ∀ k, GenomeData.primers gd' !! k
                   = oligo_checked <$> GenomeData.primers gd !! k).
Proof.
  split.
  - intros (k & p & Hk & Ho).
    destruct (update_values_raise
                (λ primer, invalid ← oligo_test primer;
                           Ok (if invalid : bool
                               then Primer.set_oligovalid false primer
                               else primer))
                (GenomeData.primers gd)) as (k' & p' & e & _ & Hb & Hrun).
    { exists k, p, AttributeError. split; [done|].
      unfold oligo_test. by rewrite Ho. }
    exists e. split.
    + unfold filter_primers_oligo. by rewrite Hrun.
    + destruct (oligo_test p') as [b|e'] eqn:Ht; [discriminate|].
      simpl in Hb. injection Hb as <-. by eapply oligo_test_raises.
  - intros Hall. eexists. split.
    + unfold filter_primers_oligo.
      rewrite (update_values_ok _ oligo_checked); [reflexivity|].
      intros k p Hk. specialize (Hall k p Hk). simpl in Hall.
      unfold long_oligo, oligo_checked in *.
      destruct (Primer.oligo p) as [o|] eqn:Ho; [|discriminate].
      apply Nat.leb_le in Hall. by rewrite (oligo_test_long p o Ho Hall).
    + intros k. simpl. apply lookup_fmap.
Qed.

Lemma filter_primers_oligo_no_skip_witness :
  (∃ e, filter_primers_oligo Sample.oligo_missing = Raise e
        ∧ (e = AttributeError ∨ e = IndexError))
  ∧ (∃ gd', filter_primers_oligo Sample.oligo_present = Ok gd'
            ∧ ∀ k, GenomeData.primers gd' !! k
                   = oligo_checked
                     <$> GenomeData.primers Sample.oligo_present !! k).
Proof.
  split.
  - apply (proj1 (filter_primers_oligo_no_skip Sample.oligo_missing)).
    eexists "A_primer_0001", _. split; vm_compute; reflexivity.
  - apply (proj2 (filter_primers_oligo_no_skip Sample.oligo_present)).
    by_evaluation.
Defined.

(** ** The filter stages of the classifier *)

Lemma elem_of_List_filter {A} (f : A → bool) (l : list A) (x : A) :
  x ∈ List.filter f l ↔ x ∈ l ∧ f x = true.
Proof. rewrite !list_elem_of_In. apply filter_In. Qed.

Lemma List_filter_ext_elem {A} (f g : A → bool) (l : list A) :
  (∀ x, x ∈ l → f x = g x) → List.filter f l = List.filter g l.
Proof.
  intros H. apply filter_ext_in. intros x Hx. apply H.
  by apply list_elem_of_In.
Qed.

Lemma List_filter_none {A} (f : A → bool) (l : list A) :
  (∀ x, x ∈ l → f x = false) → List.filter f l = [].
Proof.
  induction l as [|x l IH]; intros H; [reflexivity|]. simpl.
  rewrite (H x) by constructor. apply IH. intros y Hy. apply H.
  by constructor.
Qed.

Lemma List_filter_twice {A} (f g : A → bool) (l : list A) :
  List.filter g (List.filter f l) = List.filter (λ x, f x && g x) l.
Proof.
  induction l as [|x l IH]; [reflexivity|]. simpl.
  destruct (f x); simpl; [destruct (g x)|]; by rewrite IH.
Qed.

(** A stage that runs only when its switch is on. *)
Lemma optional_stage {A} (active : bool) (f : A → bool) (l : list A) :
  (if active then List.filter f l else l)
  = List.filter (λ x, implb active (f x)) l.
Proof.
  destruct active; simpl; [reflexivity|].
  induction l as [|x l IH]; simpl; by rewrite <- ?IH.
Qed.

(** The four flag stages are one pass with the conjunction of the active
    flags: an AND-mask over the list they receive. *)
Lemma flag_stages_mask (options : Options) (c o b : bool)
    (l : list Primer.t) :
  flag_stages options c o b l = List.filter (flags_pass options c o b) l.
Proof.
  unfold flag_stages. cbv zeta.
  rewrite (optional_stage c), (optional_stage (filtergc3prime options)),
    (optional_stage o), (optional_stage b).
  rewrite !List_filter_twice. apply List_filter_ext_elem. intros p _.
  unfold flags_pass. by rewrite !andb_assoc.
Qed.

Lemma single_product_stage_raise (l : list Primer.t) :
  (∃ p, p ∈ l ∧ unscanned p = true) →
  single_product_stage l = Raise AttributeError.
Proof.
  unfold single_product_stage, unscanned.
  induction l as [|x l IH]; intros (p & Hin & Hp).
  - by apply elem_of_nil in Hin.
  - simpl. destruct (Primer.negative_control_amplimers x) as [n|] eqn:Hx;
      [|reflexivity].
    rewrite bind_Ok. rewrite IH; [reflexivity|].
    apply elem_of_cons in Hin as [->|Hin]; [by rewrite Hx in Hp|by eauto].
Qed.

Lemma single_product_stage_ok (l : list Primer.t) :
  (∀ p, p ∈ l → unscanned p = false) →
  single_product_stage l = Ok (List.filter one_product l).
Proof.
  unfold single_product_stage, unscanned, one_product.
  induction l as [|x l IH]; intros H; [reflexivity|].
  simpl. pose proof (H x ltac:(constructor)) as Hx.
  destruct (Primer.negative_control_amplimers x) as [n|]; [|discriminate].
  rewrite bind_Ok, IH, bind_Ok; [reflexivity|].
  intros p Hp. apply H. by constructor.
Qed.

Lemma unscanned_dichotomy (l : list Primer.t) :
  (∃ p, p ∈ l ∧ unscanned p = true) ∨ (∀ p, p ∈ l → unscanned p = false).
Proof.
  induction l as [|x l [(p & Hin & Hp)|Hall]].
  - right. intros p Hp. by apply elem_of_nil in Hp.
  - left. exists p. split; [by constructor|done].
  - destruct (unscanned x) eqn:Hx.
    + left. exists x. split; [constructor|done].
    + right. intros p [->|Hp]%elem_of_cons; [done|by apply Hall].
Qed.

(** Whatever the stages return went in and passes every active flag. *)
Lemma filter_stages_sound (options : Options) (c o b : bool)
    (l l' : list Primer.t) :
  filter_stages options c o b l = Ok l' →
  ∀ p, p ∈ l' → p ∈ l ∧ flags_pass options c o b p = true.
Proof.
  unfold filter_stages. rewrite flag_stages_mask. intros H p Hp.
  apply elem_of_List_filter.
  destruct (single_product_active options); [|by injection H as <-].
  destruct (unscanned_dichotomy (List.filter (flags_pass options c o b) l))
    as [Hex|Hall].
  - by rewrite single_product_stage_raise in H.
  - rewrite single_product_stage_ok in H by done.
    injection H as <-. by apply elem_of_List_filter in Hp as [Hp _].
Qed.

(** The BLAST stage of the methods: with their [blastfilter] parameter set,
    no primer that failed the screen is returned. *)
Lemma blast_stage_excludes (options : Options) (self : GenomeData.t)
    (count : Z) (c o : bool) (l : list Primer.t) :
  get_primers_amplify_count options self count c o true = Ok l →
  ∀ p, p ∈ l → Primer.blastpass p = true.
Proof.
  intros H p Hp. apply (filter_stages_sound _ _ _ _ _ _ H) in Hp as [_ Hp].
  unfold flags_pass in Hp. rewrite !andb_true_iff in Hp. tauto.
Qed.

(** C1, the code at a failing input. [write_report] hands [blastfilter] to
    the methods as their second positional argument, which is [oligovalid];
    their own [blastfilter] parameter stays [False]. With the BLAST filter
    on, a primer that [parse_blast] marked as failing (its [blastpass] is
    [False]) is still returned by the unique query and by the universal
    query of the report, and is written to the sample's primer file and to
    the universal export. *)
Theorem report_ignores_blastpass :
  (gd ← mark_blast_failure "A_primer_0001" Sample.A_alone;
   unique ← report_unique Sample.plain_options true gd;
   universal ← report_universal Sample.plain_options true [gd] gd;
   report ← write_report Sample.plain_options [gd] true;
   let view := fmap (λ p, (Primer.name p, Primer.blastpass p)) in
   Ok [ view (GenomeData.values gd);
        view unique;
        view universal;
        view (entry_primer
                <$> default [] (eprimer3_output report
                                  !! "out/A_specific_primers.eprimer3"));
        view (universal_export Sample.plain_options report) ])
  = Ok [ [("A_primer_0001", false)];
         [("A_primer_0001", false)];
         [("A_primer_0001", false)];
         [("A_primer_0001", false)];
         [("A_primer_0001", false)] ].
Proof. vm_compute. reflexivity. Qed.

(** ** The classification queries *)

Lemma run_query_stages (options : Options) (self : GenomeData.t) (q : query)
    (c o b : bool) :
  run_query options self q c o b
  = filter_stages options c o b
      (List.filter (base_predicate self q) (GenomeData.values self)).
Proof. destruct q; reflexivity. Qed.

(** Without the single-product stage a query is one pass over the primers
    of the sample: the base test and the active flags, as a conjunction. *)
Lemma run_query_mask (options : Options) (self : GenomeData.t) (q : query)
    (c o b : bool) :
  single_product_active options = false →
  run_query options self q c o b
  = Ok (List.filter
          (λ p, base_predicate self q p && flags_pass options c o b p)
          (GenomeData.values self)).
Proof.
  intros Hsp. rewrite run_query_stages. unfold filter_stages.
  by rewrite Hsp, flag_stages_mask, List_filter_twice.
Qed.

Lemma size_zero_empty (X : gset string) : size X = 0 ↔ X = ∅.
Proof. rewrite size_empty_iff. apply leibniz_equiv_iff. Qed.

(** Under the two conditions on the sample's name, the test of the
    family-unique query on a primer is the test that its amplified organisms
    are the family's members minus the sample's own name. *)
Lemma family_test_minus_self (self : GenomeData.t)
    (family_members : gset string) (p : Primer.t) :
  GenomeData.name self ∈ family_members →
  GenomeData.name self ∉ Primer.amplifies_organism p →
  bool_decide
    (family_members = {[GenomeData.name self]} ∪ Primer.amplifies_organism p)
  = bool_decide
      (Primer.amplifies_organism p
       = family_members ∖ {[GenomeData.name self]}).
Proof.
  intros Hmem Hself. apply bool_decide_ext. split.
  - intros ->. apply set_eq. intros x.
    rewrite elem_of_difference, elem_of_union, elem_of_singleton.
    split; [|tauto]. intros Hx. split; [by right|]. by intros ->.
  - intros ->. apply set_eq. intros x.
    rewrite elem_of_union, elem_of_difference, elem_of_singleton.
    destruct (decide (x = GenomeData.name self)) as [->|]; tauto.
Qed.

(** C3. For a sample whose name is among the family's member names and is
    in none of its own primers' amplified-organism sets, the family-unique
    query starts, before any filter flag is applied, from exactly the
    primers whose amplified organisms are the family's members minus the
    sample's own name; the filter stages then run on that list. *)
Theorem family_unique_is_family_minus_self (options : Options)
    (self : GenomeData.t) (family_members : gset string) (c o b : bool) :
  GenomeData.name self ∈ family_members →
  Forall (λ p, GenomeData.name self ∉ Primer.amplifies_organism p)
    (GenomeData.values self) →
  get_family_unique_primers options self family_members c o b
  = filter_stages options c o b
      (List.filter
         (λ p, bool_decide
                 (Primer.amplifies_organism p
                  = family_members ∖ {[GenomeData.name self]}))
         (GenomeData.values self)).
Proof.
  intros Hmem Hself. unfold get_family_unique_primers. f_equal.
  apply List_filter_ext_elem. intros p Hp.
  rewrite Forall_forall in Hself.
  apply family_test_minus_self; [exact Hmem|by apply Hself].
Qed.

Lemma family_unique_is_family_minus_self_witness :
  GenomeData.name Sample.A_classified ∈ ({["A"; "B"]} : gset string)
  ∧ get_family_unique_primers Sample.plain_options Sample.A_classified
      {["A"; "B"]} false false false
    = filter_stages Sample.plain_options false false false
        (List.filter
           (λ p, bool_decide
                   (Primer.amplifies_organism p
                    = {["A"; "B"]} ∖ {[GenomeData.name Sample.A_classified]}))
           (GenomeData.values Sample.A_classified)).
Proof.
  assert (Hmem : GenomeData.name Sample.A_classified
                 ∈ ({["A"; "B"]} : gset string)).
  { by_evaluation. }
  split; [exact Hmem|].
  apply family_unique_is_family_minus_self; [exact Hmem|by_evaluation].
Defined.

(** C4, counterexample. A collection of one sample: the number of other
    organisms is 0, so the universal query selects the primers that amplify
    nothing. The sample's only primer is returned and written to the
    universal export. *)
Lemma universal_of_single_sample_not_empty :
  List.length [Sample.A_alone] < 2
  ∧ result_map names
      (report_universal Sample.plain_options false
         [Sample.A_alone] Sample.A_alone)
    = Ok ["A_primer_0001"]
  ∧ result_map (λ report, names (universal_export Sample.plain_options report))
      (write_report Sample.plain_options [Sample.A_alone] false)
    = Ok ["A_primer_0001"].
Proof. split_and!; [simpl; lia | vm_compute; reflexivity ..]. Qed.

(** C4, as the code has it. In a collection of exactly one sample the
    universal query of the report is its unique query: it returns the
    primers with no amplified organism that pass the active filters. With
    no sample at all the required count is -1 and no primer of any object
    has it. *)
Theorem universal_of_small_collection (options : Options)
    (blastfilter : bool) (gd0 gd : GenomeData.t) :
  report_universal options blastfilter [gd0] gd
  = report_unique options blastfilter gd
  ∧ report_universal options blastfilter [] gd = Ok [].
Proof.
  split; [reflexivity|].
  unfold report_universal, get_primers_amplify_count.
  rewrite (List_filter_none _ (GenomeData.values gd)).
  - unfold filter_stages. rewrite flag_stages_mask. simpl.
    by destruct (single_product_active options).
  - intros p _. apply Z.eqb_neq. simpl. lia.
Qed.

(** Why the amplified organisms must not hold the sample's own name. A
    sample A whose PrimerSearch outputs hold a comparison with a sequence
    named A (a stray [A_vs_A] file, or a second configuration line of the
    same name): [classify_primers] adds "A" to the amplified organisms of
    A's primer. The family F1 has the single member name A. The
    family-unique query returns the primer, the unique query does not. *)
Lemma single_member_family_differs_from_unique :
  ∃ gd p,
    classify_primers Sample.fs_self [Sample.A_self] = Ok [gd]
    ∧ GenomeData.name gd = "A"
    ∧ GenomeData.values gd = [p]
    ∧ Primer.amplifies_organism p = {["A"]}
    ∧ result_map (λ families, families !! "F1") (build_families [gd])
      = Ok (Some {["A"]})
    ∧ get_family_unique_primers Sample.plain_options gd {["A"]}
        false false false = Ok [p]
    ∧ get_unique_primers Sample.plain_options gd false false false = Ok [].
Proof.
  eexists _, _. split_and!.
  - vm_compute. reflexivity.
  - vm_compute. reflexivity.
  - vm_compute. reflexivity.
  - vm_compute. reflexivity.
  - vm_compute. reflexivity.
  - vm_compute. reflexivity.
  - vm_compute. reflexivity.
Qed.



(** ** The universal export of the report *)

(** One iteration of the report loop leaves the sample's universal primers
    in the loop variable and appends them to the collection. *)
Lemma report_sample_universal (options : Options) (blastfilter : bool)
    (gdlist : list GenomeData.t) (families : gmap string (gset string))
    (gd : GenomeData.t) (st st' : report_state) :
  report_sample options blastfilter gdlist families gd st = Ok st' →
  ∃ u, report_universal options blastfilter gdlist gd = Ok u
       ∧ universal_primers st' = Some u
       ∧ all_universal_primers st' = (all_universal_primers st ++ u)%list.
Proof.
  unfold report_sample. intros H.
  apply bind_Ok_inv in H as (unique_primers & _ & H).
  apply bind_Ok_inv in H as (fams & _ & H).
  apply bind_Ok_inv in H as (fsp & _ & H).
  apply bind_Ok_inv in H as (u & Hu & H).
  injection H as <-. exists u. by split_and!.
Qed.

(** After the loop the variable holds the universal primers of the LAST
    sample only. *)
Lemma report_loop_last (options : Options) (blastfilter : bool)
    (gdlist : list GenomeData.t) (families : gmap string (gset string))
    (earlier : list GenomeData.t) (gd : GenomeData.t)
    (st st' : report_state) :
  for_each (report_sample options blastfilter gdlist families)
    (earlier ++ [gd]) st = Ok st' →
  ∃ u, report_universal options blastfilter gdlist gd = Ok u
       ∧ universal_primers st' = Some u.
Proof.
  rewrite for_each_app. intros H.
  apply bind_Ok_inv in H as (st1 & _ & H). simpl in H.
  apply bind_Ok_inv in H as (st2 & Hgd & H). injection H as <-.
  apply report_sample_universal in Hgd as (u & Hu & Hvar & _). eauto.
Qed.

(** C9, the code at a failing input. Two samples, A then B; the primer of A
    amplifies B and is universal, the primer of B amplifies nothing. The
    summary counts one universal primer for A, and the loop collects it in
    [all_universal_primers]; but the export is written from the loop
    variable [universal_primers], which holds the list of the last sample,
    B: the universal export is empty. *)
Theorem universal_export_is_last_sample_only :
  ∃ gdA gdB pA,
    classify_primers Sample.fs_pairwise Sample.A_and_B = Ok [gdA; gdB]
    ∧ report_universal Sample.plain_options false [gdA; gdB] gdA = Ok [pA]
    ∧ report_universal Sample.plain_options false [gdA; gdB] gdB = Ok []
    ∧ result_map (λ report, row_universal_count <$> summary report)
        (write_report Sample.plain_options [gdA; gdB] false) = Ok [1; 0]
    ∧ result_map
        (λ report, names (universal_export Sample.plain_options report))
        (write_report Sample.plain_options [gdA; gdB] false) = Ok [].
Proof.
  eexists _, _, _. split_and!.
  - vm_compute. reflexivity.
  - vm_compute. reflexivity.
  - vm_compute. reflexivity.
  - vm_compute. reflexivity.
  - vm_compute. reflexivity.
Qed.

(** ** The single-product stage *)

(** Primers come out of [load_primers] without the attribute. *)
Lemma init_primer_unscanned (gd_name : string) (primercount : nat)
    (primer : Primer3.Primers) :
  Primer.negative_control_amplimers (init_primer gd_name primercount primer)
  = None.
Proof. reflexivity. Qed.

(** C10, counterexample. The single-product filter and the 3' GC filter are
    both on. The only primer of the sample amplifies nothing and never had
    [negative_control_amplimers] set; its forward 3' end is GCGCG, so the
    GC stage drops it before the single-product stage compares anything.
    All three queries return a (empty) list, none raises. *)
Lemma unscanned_primer_dropped_before_comparison :
  single_product_active Sample.gc_options = true
  ∧ ∃ p,
      GenomeData.values Sample.A_gc_rich = [p]
      ∧ Primer.negative_control_amplimers p = None
      ∧ Primer.amplifies_organism p = ∅
      ∧ Primer.gc3primevalid p = false
      ∧ run_query Sample.gc_options Sample.A_gc_rich unique
          false false false = Ok []
      ∧ run_query Sample.gc_options Sample.A_gc_rich (family_unique {["A"]})
          false false false = Ok []
      ∧ run_query Sample.gc_options Sample.A_gc_rich (universal 0)
          false false false = Ok [].
Proof.
  split; [reflexivity|]. eexists. split_and!.
  - vm_compute. reflexivity.
  - vm_compute. reflexivity.
  - vm_compute. reflexivity.
  - vm_compute. reflexivity.
  - vm_compute. reflexivity.
  - vm_compute. reflexivity.
  - vm_compute. reflexivity.
Qed.

(** C10, as the code has it. With the single-product filter on, each of the
    three queries raises the attribute error exactly when some primer of
    the sample that passes the query's base test and every active flag
    stage before it has never had [negative_control_amplimers] set; in
    every other case the query returns the primers that pass and have
    exactly one product. *)
Theorem single_product_comparison_partial (options : Options)
    (self : GenomeData.t) (q : query) (c o b : bool) :
  single_product_active options = true →
  (run_query options self q c o b = Raise AttributeError
   ↔ ∃ p, p ∈ GenomeData.values self
          ∧ base_predicate self q p = true
          ∧ flags_pass options c o b p = true
          ∧ Primer.negative_control_amplimers p = None)
  ∧ (run_query options self q c o b = Raise AttributeError
     ∨ run_query options self q c o b
       = Ok (List.filter
               (λ p, base_predicate self q p && flags_pass options c o b p
                     && one_product p)
               (GenomeData.values self))).
Proof.
  intros Hsp. rewrite run_query_stages. unfold filter_stages.
  rewrite Hsp, flag_stages_mask, List_filter_twice.
  set (reach := List.filter _ (GenomeData.values self)).
  assert (Hreach : ∀ p, p ∈ reach ∧ unscanned p = true
                        ↔ p ∈ GenomeData.values self
                          ∧ base_predicate self q p = true
                          ∧ flags_pass options c o b p = true
                          ∧ Primer.negative_control_amplimers p = None).
  { intros p. unfold reach, unscanned.
    rewrite elem_of_List_filter, andb_true_iff.
    destruct (Primer.negative_control_amplimers p); intuition congruence. }
  destruct (unscanned_dichotomy reach) as [Hex|Hall].
  - rewrite (single_product_stage_raise _ Hex). split; [|by left].
    split; [|done]. intros _. destruct Hex as (p & Hp).
    exists p. by apply Hreach.
  - rewrite (single_product_stage_ok _ Hall). split.
    + split; [discriminate|]. intros (p & Hp).
      apply Hreach in Hp as [Hin Hun]. by rewrite (Hall p Hin) in Hun.
    + right. unfold reach. by rewrite List_filter_twice.
Qed.

Lemma single_product_comparison_partial_witness :
  single_product_active Sample.single_product_options = true
  ∧ run_query Sample.single_product_options Sample.A_alone unique
      false false false = Raise AttributeError.
Proof.
  split; [reflexivity|].
  apply (proj1 (single_product_comparison_partial
                  Sample.single_product_options Sample.A_alone unique
                  false false false eq_refl)).
  eexists. split_and!.
  - apply (list_elem_of_lookup_2 _ 0). vm_compute. reflexivity.
  - vm_compute. reflexivity.
  - vm_compute. reflexivity.
  - vm_compute. reflexivity.
Defined.

(** ** Loops that update the primers named by a dictionary *)

Section keyed_loop.
Context {V : Type}.
Context (step : string → V → gmap string Primer.t
                → result (gmap string Primer.t)).
Context (g : V → Primer.t → Primer.t).
Context (needs : V → bool) (ready : V → Prop).

(** A step that returns has found what it needs and has applied [g] to the
    primer it names, and to no other. *)
Hypothesis step_inv : ∀ k v ps ps1,
  step k v ps = Ok ps1 →
  ready v ∧ (needs v = true → is_Some (ps !! k))
  ∧ ∀ k', ps1 !! k' = if decide (k' = k) then g v <$> ps !! k'
                      else ps !! k'.

Hypothesis step_ok : ∀ k v ps,
  ready v → (needs v = true → is_Some (ps !! k)) →
  ∃ ps1, step k v ps = Ok ps1.

Lemma keyed_loop_shape (l : list (string * V))
    (ps ps' : gmap string Primer.t) :
  NoDup l.*1 →
  for_each (λ kv, step kv.1 kv.2) l ps = Ok ps' →
  (∀ k, ps' !! k = match (list_to_map l : gmap string V) !! k with
                   | Some v => g v <$> ps !! k
                   | None => ps !! k
                   end)
  ∧ (∀ k v, (k, v) ∈ l →
            ready v ∧ (needs v = true → is_Some (ps !! k))).
Proof.
  revert ps. induction l as [|[k0 v0] l IH]; intros ps Hnd Hrun.
  - simpl in Hrun. injection Hrun as <-. split; [done|].
    intros k v Hin. by apply elem_of_nil in Hin.
  - apply NoDup_cons in Hnd as [Hk0 Hnd]. rewrite for_each_cons in Hrun.
    apply bind_Ok_inv in Hrun as (ps1 & Hstep & Hrest). simpl in Hstep.
    apply step_inv in Hstep as (Hready & Hneeds & Hps1).
    destruct (IH ps1 Hnd Hrest) as [Hshape Hpre]. split.
    + intros k. rewrite Hshape, Hps1. simpl.
      destruct (decide (k = k0)) as [->|Hne].
      * rewrite (not_elem_of_list_to_map_1 _ k0 Hk0). by simplify_map_eq.
      * by simplify_map_eq.
    + intros k v [[= -> ->]|Hin]%elem_of_cons; [done|].
      destruct (Hpre k v Hin) as [Hr Hn]. split; [done|]. intros Hv.
      specialize (Hn Hv). rewrite Hps1 in Hn.
      destruct (decide (k = k0)); [|done].
      by apply fmap_is_Some in Hn.
Qed.

Lemma keyed_loop_total (l : list (string * V)) (ps : gmap string Primer.t) :
  (∀ k v, (k, v) ∈ l → ready v ∧ (needs v = true → is_Some (ps !! k))) →
  ∃ ps', for_each (λ kv, step kv.1 kv.2) l ps = Ok ps'.
Proof.
  revert ps. induction l as [|[k0 v0] l IH]; intros ps Hpre; [by eexists|].
  destruct (Hpre k0 v0 ltac:(constructor)) as [Hr Hn].
  destruct (step_ok k0 v0 ps Hr Hn) as [ps1 Hstep].
  rewrite for_each_cons. simpl. rewrite Hstep, bind_Ok. apply IH.
  intros k v Hin. destruct (Hpre k v ltac:(by constructor)) as [Hr' Hn'].
  split; [done|]. intros Hv. specialize (Hn' Hv).
  apply step_inv in Hstep as (_ & _ & Hps1). rewrite Hps1.
  destruct (decide (k = k0)); [|done]. by apply fmap_is_Some.
Qed.

(** Running the loop again on its own result changes nothing, when the
    update of a single primer is idempotent. *)
Lemma keyed_loop_idempotent (l : list (string * V))
    (ps ps' : gmap string Primer.t) :
  (∀ v p, g v (g v p) = g v p) →
  NoDup l.*1 →
  for_each (λ kv, step kv.1 kv.2) l ps = Ok ps' →
  for_each (λ kv, step kv.1 kv.2) l ps' = Ok ps'.
Proof.
  intros Hidem Hnd Hrun.
  destruct (keyed_loop_shape l ps ps' Hnd Hrun) as [Hshape Hpre].
  destruct (keyed_loop_total l ps') as [ps'' Hrun'].
  { intros k v Hin. destruct (Hpre k v Hin) as [Hr Hn]. split; [done|].
    intros Hv. specialize (Hn Hv). rewrite Hshape.
    rewrite (elem_of_list_to_map_1 l k v Hnd Hin). by apply fmap_is_Some. }
  rewrite Hrun'. f_equal. apply map_eq. intros k.
  destruct (keyed_loop_shape l ps' ps'' Hnd Hrun') as [Hshape' _].
  rewrite Hshape', Hshape.
  destruct (list_to_map l !! k) as [v|]; [|done].
  destruct (ps !! k) as [p|]; [|done]. simpl. by rewrite Hidem.
Qed.
End keyed_loop.

(** ** The cross-amplification matrix builder *)

(** The loop over the target's families adds every family to the primer
    named [pname]. *)
Lemma family_loop (pname : string) (fams : list string)
    (acc : gmap string Primer.t) (q : Primer.t) :
  acc !! pname = Some q →
  for_each
    (λ family acc,
       match acc !! pname with
       | None => Raise KeyError
       | Some q => Ok (<[pname := Primer.add_family family q]> acc)
       end)
    fams acc
  = Ok (<[pname := foldl (λ q family, Primer.add_family family q) q fams]>
          acc).
Proof.
  revert acc q. induction fams as [|f fams IH]; intros acc q Hq.
  - simpl. by rewrite insert_id.
  - rewrite for_each_cons, Hq, bind_Ok.
    rewrite (IH _ (Primer.add_family f q)) by apply lookup_insert_eq.
    simpl. by rewrite insert_insert_eq.
Qed.

Lemma record_amplification_ok (t : string) (fams : list string)
    (pname : string) (ps : gmap string Primer.t) (p : Primer.t) :
  ps !! pname = Some p →
  record_amplification t (Some fams) pname ps
  = Ok (<[pname := amplified t fams p]> ps).
Proof.
  intros Hp. unfold record_amplification. rewrite Hp.
  rewrite (family_loop pname fams _ (Primer.add_organism t p))
    by apply lookup_insert_eq.
  by rewrite insert_insert_eq.
Qed.

Lemma record_amplification_inv (t : string) (tf : option (list string))
    (pname : string) (ps ps1 : gmap string Primer.t) :
  record_amplification t tf pname ps = Ok ps1 →
  ∃ p fams, ps !! pname = Some p ∧ tf = Some fams
            ∧ ps1 = <[pname := amplified t fams p]> ps.
Proof.
  intros H. destruct (ps !! pname) as [p|] eqn:Hp.
  - destruct tf as [fams|].
    + rewrite (record_amplification_ok t fams pname ps p Hp) in H.
      injection H as <-. by exists p, fams.
    + unfold record_amplification in H. by rewrite Hp in H.
  - unfold record_amplification in H. by rewrite Hp in H.
Qed.

Lemma amplification_step_inv (t : string) (tf : option (list string))
    (k : string) (pd : list PrimerSearch.Amplifier)
    (ps ps1 : gmap string Primer.t) :
  amplification_step t tf k pd ps = Ok ps1 →
  ((0 <? List.length pd) = true → is_Some tf)
  ∧ ((0 <? List.length pd) = true → is_Some (ps !! k))
  ∧ ∀ k', ps1 !! k' = if decide (k' = k) then amplify_if t tf pd <$> ps !! k'
                      else ps !! k'.
Proof.
  unfold amplification_step, amplify_if.
  destruct (0 <? List.length pd) eqn:Hpd.
  - intros (p & fams & Hp & -> & ->)%record_amplification_inv.
    split_and!; [by eexists|by eexists|]. intros k'.
    destruct (decide (k' = k)) as [->|Hne]; by simplify_map_eq.
  - intros [= <-]. split_and!; [done|done|]. intros k'.
    destruct (decide (k' = k)); [|done]. by destruct (ps !! k').
Qed.

Lemma amplification_step_ok (t : string) (tf : option (list string))
    (k : string) (pd : list PrimerSearch.Amplifier)
    (ps : gmap string Primer.t) :
  ((0 <? List.length pd) = true → is_Some tf) →
  ((0 <? List.length pd) = true → is_Some (ps !! k)) →
  ∃ ps1, amplification_step t tf k pd ps = Ok ps1.
Proof.
  unfold amplification_step. destruct (0 <? List.length pd); [|by eexists].
  intros [fams ->] [p Hp]; [done..|].
  rewrite (record_amplification_ok t fams k ps p Hp). by eexists.
Qed.

Lemma control_step_inv (k : string) (pd : list PrimerSearch.Amplifier)
    (ps ps1 : gmap string Primer.t) :
  record_negative_control k pd ps = Ok ps1 →
  True ∧ (true = true → is_Some (ps !! k))
  ∧ ∀ k', ps1 !! k'
          = if decide (k' = k)
            then Primer.set_negative_control_amplimers (List.length pd)
                 <$> ps !! k'
            else ps !! k'.
Proof.
  unfold record_negative_control. destruct (ps !! k) as [p|] eqn:Hp;
    [|discriminate].
  intros [= <-]. split_and!; [done|by eexists|]. intros k'.
  destruct (decide (k' = k)) as [->|Hne]; by simplify_map_eq.
Qed.

Lemma control_step_ok (k : string) (pd : list PrimerSearch.Amplifier)
    (ps : gmap string Primer.t) :
  True → (true = true → is_Some (ps !! k)) →
  ∃ ps1, record_negative_control k pd ps = Ok ps1.
Proof.
  intros _ [p Hp]; [done|]. unfold record_negative_control. rewrite Hp.
  by eexists.
Qed.

(** Adding the families one by one is a union with the set of families. *)
Lemma add_families_union (fams : list string) (q : Primer.t) :
  foldl (λ q family, Primer.add_family family q) q fams
  = Primer.set_amplifies_family
      (list_to_set fams ∪ Primer.amplifies_family q) q.
Proof.
  revert q. induction fams as [|f fams IH]; intros q; simpl.
  - rewrite (left_id_L ∅ (∪)). by destruct q.
  - rewrite IH. unfold Primer.add_family, Primer.set_amplifies_family. simpl.
    f_equal. apply set_eq. intros x.
    rewrite !elem_of_union, elem_of_singleton. tauto.
Qed.

Lemma amplified_sets (t : string) (fams : list string) (p : Primer.t) :
  amplified t fams p
  = Primer.set_amplifies_family
      (list_to_set fams ∪ Primer.amplifies_family p)
      (Primer.set_amplifies_organism
         ({[t]} ∪ Primer.amplifies_organism p) p).
Proof. unfold amplified. by rewrite add_families_union. Qed.

Lemma amplified_idempotent (t : string) (fams : list string)
    (p : Primer.t) :
  amplified t fams (amplified t fams p) = amplified t fams p.
Proof.
  rewrite !amplified_sets.
  unfold Primer.set_amplifies_family, Primer.set_amplifies_organism. simpl.
  f_equal; apply set_eq; intros x; rewrite !elem_of_union; tauto.
Qed.

Lemma amplify_if_idempotent (t : string) (tf : option (list string))
    (pd : list PrimerSearch.Amplifier) (p : Primer.t) :
  amplify_if t tf pd (amplify_if t tf pd p) = amplify_if t tf pd p.
Proof.
  unfold amplify_if. destruct (0 <? List.length pd); [|done].
  apply amplified_idempotent.
Qed.

(** C5. Processing the same PrimerSearch result set a second time, on the
    object the first pass returned, returns that object unchanged: the
    amplified-organism and amplified-family sets of every primer (and every
    other attribute) are what they were after the first pass. *)
Theorem classify_file_idempotent
    (fs : gmap string PrimerSearch.OutputRecord)
    (gddict : gmap string GenomeData.t) (filename : string)
    (gd gd1 : GenomeData.t) :
  classify_file fs gddict filename gd = Ok gd1 →
  classify_file fs gddict filename gd1 = Ok gd1.
Proof.
  unfold classify_file, for_items.
  destruct (gddict !! targetname_of filename) as [target|].
  - intros H. apply bind_Ok_inv in H as (psdata & Hread & H).
    apply bind_Ok_inv in H as (ps & Hloop & H). injection H as <-.
    rewrite Hread, bind_Ok. simpl.
    eapply (keyed_loop_idempotent _ _ _ _
              (amplification_step_inv _ _) (amplification_step_ok _ _))
      in Hloop;
      [|apply amplify_if_idempotent|apply NoDup_fst_map_to_list].
    by rewrite Hloop.
  - destruct (PyStr.contains "negative_control" filename);
      [|by intros [= <-]].
    intros H. apply bind_Ok_inv in H as (psdata & Hread & H).
    apply bind_Ok_inv in H as (ps & Hloop & H). injection H as <-.
    rewrite Hread, bind_Ok. simpl.
    eapply (keyed_loop_idempotent _ _ _ _ control_step_inv control_step_ok)
      in Hloop; [|done|apply NoDup_fst_map_to_list].
    by rewrite Hloop.
Qed.

Lemma classify_file_idempotent_witness :
  ∃ gd1,
    classify_file Sample.fs_pairwise (build_gddict Sample.A_and_B)
      "data/A_vs_B.primersearch" Sample.A_query = Ok gd1
    ∧ classify_file Sample.fs_pairwise (build_gddict Sample.A_and_B)
        "data/A_vs_B.primersearch" gd1 = Ok gd1
    ∧ Primer.amplifies_organism <$> GenomeData.values gd1 = [{["B"]}].
Proof.
  eexists. split; [vm_compute; reflexivity|]. split.
  - apply (classify_file_idempotent Sample.fs_pairwise
             (build_gddict Sample.A_and_B) "data/A_vs_B.primersearch"
             Sample.A_query).
    vm_compute. reflexivity.
  - vm_compute. reflexivity.
Defined.

Lemma count_products_sets
    (amplifiers : gmap string (list PrimerSearch.Amplifier)) (k : string)
    (p : Primer.t) :
  Primer.amplifies_organism (count_products amplifiers k p)
  = Primer.amplifies_organism p
  ∧ Primer.amplifies_family (count_products amplifiers k p)
    = Primer.amplifies_family p.
Proof. unfold count_products. by destruct (amplifiers !! k). Qed.

(** C7. A result set whose target name is not a key of [gddict]. If the
    pass returns, no primer's amplified-organism or amplified-family set
    has changed; when the file is the negative-control one (its name holds
    "negative_control") the returned object is the old one with, for each
    primer the output names, [negative_control_amplimers] set to the number
    of amplimers reported for it, and nothing else written; otherwise the
    object is returned as it was. The pass does return: always for a file
    that is not the negative-control one, and for the negative-control one
    whenever it can be read and names primers of the sample only. *)
Theorem unknown_target_only_counts
    (fs : gmap string PrimerSearch.OutputRecord)
    (gddict : gmap string GenomeData.t) (filename : string)
    (gd : GenomeData.t) :
  gddict !! targetname_of filename = None →
  (∀ gd', classify_file fs gddict filename gd = Ok gd' →
     (∀ k, Primer.amplifies_organism <$> GenomeData.primers gd' !! k
           = Primer.amplifies_organism <$> GenomeData.primers gd !! k
           ∧ Primer.amplifies_family <$> GenomeData.primers gd' !! k
             = Primer.amplifies_family <$> GenomeData.primers gd !! k)
     ∧ (if PyStr.contains "negative_control" filename
        then ∃ psdata, fs !! filename = Some psdata
                       ∧ gd' = with_control_counts psdata gd
        else gd' = gd))
  ∧ (PyStr.contains "negative_control" filename = false →
     classify_file fs gddict filename gd = Ok gd)
  ∧ (∀ psdata,
       PyStr.contains "negative_control" filename = true →
       fs !! filename = Some psdata →
       (∀ k, is_Some (PrimerSearch.amplifiers psdata !! k) →
             is_Some (GenomeData.primers gd !! k)) →
       classify_file fs gddict filename gd
       = Ok (with_control_counts psdata gd)).
Proof.
  intros Hunknown.
  assert (Hshape : ∀ psdata ps,
            for_each (λ kv, record_negative_control kv.1 kv.2)
              (map_to_list (PrimerSearch.amplifiers psdata))
              (GenomeData.primers gd) = Ok ps →
            GenomeData.set_primers ps gd = with_control_counts psdata gd).
  { intros psdata ps Hloop. unfold with_control_counts. f_equal.
    apply (keyed_loop_shape _ _ _ _ control_step_inv) in Hloop as [Hshape _];
      [|apply NoDup_fst_map_to_list].
    apply map_eq. intros k.
    rewrite Hshape, list_to_map_to_list, map_lookup_imap.
    unfold count_products.
    destruct (GenomeData.primers gd !! k) as [p|],
      (PrimerSearch.amplifiers psdata !! k); done. }
  unfold classify_file, for_items. rewrite Hunknown. split_and!.
  - intros gd' Hrun.
    destruct (PyStr.contains "negative_control" filename).
    + apply bind_Ok_inv in Hrun as (psdata & Hread & Hrun).
      apply bind_Ok_inv in Hrun as (ps & Hloop & Hrun). injection Hrun as <-.
      rewrite (Hshape _ _ Hloop). split.
      * intros k. unfold with_control_counts. simpl.
        rewrite map_lookup_imap.
        destruct (GenomeData.primers gd !! k) as [p|]; [|done]. simpl.
        destruct (count_products_sets (PrimerSearch.amplifiers psdata) k p)
          as [-> ->]. done.
      * exists psdata. split; [|done]. unfold read_primersearch in Hread.
        destruct (fs !! filename); [|done]. by injection Hread as ->.
    + injection Hrun as <-. done.
  - by intros ->.
  - intros psdata -> Hfile Hnames. unfold read_primersearch.
    rewrite Hfile, bind_Ok.
    destruct (keyed_loop_total _ _ _ _ control_step_inv control_step_ok
                (map_to_list (PrimerSearch.amplifiers psdata))
                (GenomeData.primers gd)) as [ps Hloop].
    { intros k v Hin. split; [done|]. intros _. apply Hnames.
      apply elem_of_map_to_list in Hin. by eexists. }
    rewrite Hloop, bind_Ok. f_equal. by apply Hshape.
Qed.

Lemma unknown_target_only_counts_witness :
  build_gddict [Sample.A_control]
    !! targetname_of "data/A_negative_control.primersearch" = None
  ∧ ∃ psdata,
      Sample.fs_control !! "data/A_negative_control.primersearch"
      = Some psdata
      ∧ classify_file Sample.fs_control (build_gddict [Sample.A_control])
          "data/A_negative_control.primersearch" Sample.A_control
        = Ok (with_control_counts psdata Sample.A_control)
      ∧ (λ p, (Primer.name p, Primer.negative_control_amplimers p))
        <$> GenomeData.values (with_control_counts psdata Sample.A_control)
        = [("A_primer_0001", Some 2); ("A_primer_0002", Some 0)].
Proof.
  assert (Hunknown :
            build_gddict [Sample.A_control]
              !! targetname_of "data/A_negative_control.primersearch"
            = None) by (vm_compute; reflexivity).
  split; [exact Hunknown|]. eexists. split; [vm_compute; reflexivity|].
  split.
  - apply (unknown_target_only_counts Sample.fs_control
             (build_gddict [Sample.A_control])
             "data/A_negative_control.primersearch" Sample.A_control
             Hunknown).
    + vm_compute. reflexivity.
    + vm_compute. reflexivity.
    + intros k Hk.
      assert (Hdom : k ∈ dom (GenomeData.primers Sample.A_control)).
      { apply elem_of_dom in Hk. revert Hk. apply elem_of_subseteq.
        by_evaluation. }
      by apply elem_of_dom in Hdom.
  - vm_compute. reflexivity.
Defined.

(** ** What a result set for a known target does *)

(** For a target of the collection, a pass that returns has added the
    target's name and families to every primer reported with at least one
    amplimer, and has left every other primer alone. *)
Lemma known_target_shape (fs : gmap string PrimerSearch.OutputRecord)
    (gddict : gmap string GenomeData.t) (filename : string)
    (gd gd' target : GenomeData.t) :
  gddict !! targetname_of filename = Some target →
  classify_file fs gddict filename gd = Ok gd' →
  ∃ psdata,
    fs !! filename = Some psdata
    ∧ ∀ k, GenomeData.primers gd' !! k
           = match PrimerSearch.amplifiers psdata !! k with
             | Some pdata =>
                 amplify_if (targetname_of filename)
                   (GenomeData.families target) pdata
                 <$> GenomeData.primers gd !! k
             | None => GenomeData.primers gd !! k
             end.
Proof.
  intros Htarget. unfold classify_file, for_items. rewrite Htarget.
  intros H. apply bind_Ok_inv in H as (psdata & Hread & H).
  apply bind_Ok_inv in H as (ps & Hloop & H). injection H as <-.
  exists psdata. split.
  - unfold read_primersearch in Hread.
    destruct (fs !! filename); [|done]. by injection Hread as ->.
  - intros k. simpl.
    apply (keyed_loop_shape _ _ _ _ (amplification_step_inv _ _))
      in Hloop as [Hshape _]; [|apply NoDup_fst_map_to_list].
    by rewrite Hshape, list_to_map_to_list.
Qed.

(** The pass returns when the file can be read, every primer it reports
    as amplifying is a primer of the sample, and the target has a list of
    families. *)
Lemma known_target_returns (fs : gmap string PrimerSearch.OutputRecord)
    (gddict : gmap string GenomeData.t) (filename : string)
    (gd target : GenomeData.t) (psdata : PrimerSearch.OutputRecord) :
  gddict !! targetname_of filename = Some target →
  fs !! filename = Some psdata →
  (∀ k pdata, PrimerSearch.amplifiers psdata !! k = Some pdata →
              (0 <? List.length pdata) = true →
              is_Some (GenomeData.primers gd !! k)
              ∧ is_Some (GenomeData.families target)) →
  ∃ gd', classify_file fs gddict filename gd = Ok gd'.
Proof.
  intros Htarget Hfile Hpre. unfold classify_file, for_items.
  rewrite Htarget. unfold read_primersearch. rewrite Hfile, bind_Ok.
  destruct (keyed_loop_total _ _ _ _
              (amplification_step_inv (targetname_of filename)
                 (GenomeData.families target))
              (amplification_step_ok _ _)
              (map_to_list (PrimerSearch.amplifiers psdata))
              (GenomeData.primers gd)) as [ps Hloop].
  { intros k v Hin%elem_of_map_to_list.
    split; intros Hv; by destruct (Hpre k v Hin Hv). }
  rewrite Hloop, bind_Ok. by eexists.
Qed.

(** ** What the report's queries test *)

(** The flag that [write_report] switches with its [blastfilter] argument
    is [oligovalid]. *)
Lemma report_blastfilter_tests_oligovalid (options : Options)
    (gd : GenomeData.t) (l : list Primer.t) :
  report_unique options true gd = Ok l →
  ∀ p, p ∈ l → Primer.oligovalid p = true.
Proof.
  unfold report_unique, get_unique_primers, get_primers_amplify_count.
  intros H p Hp. apply (filter_stages_sound _ _ _ _ _ _ H) in Hp as [_ Hp].
  unfold flags_pass in Hp. rewrite !andb_true_iff in Hp.
  destruct Hp as [[_ Hp] _]. exact Hp.
Qed.

(** ** The family dictionary of the report *)

(** Adding a sample to the families it lists. *)
Lemma add_members_lookup (n : string) (fams : list string)
    (acc : gmap string (gset string)) (f x : string) :
  x ∈ default ∅
        (foldl (λ acc family,
                  <[family := {[n]} ∪ default ∅ (acc !! family)]> acc)
           acc fams !! f)
  ↔ (f ∈ fams ∧ x = n) ∨ x ∈ default ∅ (acc !! f).
Proof.
  revert acc. induction fams as [|f0 fams IH]; intros acc; simpl.
  - rewrite elem_of_nil. tauto.
  - rewrite IH, elem_of_cons. destruct (decide (f = f0)) as [->|Hne].
    + rewrite lookup_insert_eq. simpl.
      rewrite elem_of_union, elem_of_singleton. tauto.
    + rewrite lookup_insert_ne by done. tauto.
Qed.

Lemma build_families_loop (gdlist : list GenomeData.t)
    (acc families : gmap string (gset string)) (f x : string) :
  for_each
    (λ gd families,
       match GenomeData.families gd with
       | None => Raise TypeError
       | Some fams =>
           Ok (foldl
                 (λ acc family,
                    <[family := {[GenomeData.name gd]}
                                ∪ default ∅ (acc !! family)]> acc)
                 families fams)
       end)
    gdlist acc = Ok families →
  x ∈ default ∅ (families !! f)
  ↔ x ∈ default ∅ (acc !! f)
    ∨ ∃ gd fams, gd ∈ gdlist ∧ GenomeData.families gd = Some fams
                 ∧ f ∈ fams ∧ GenomeData.name gd = x.
Proof.
  revert acc. induction gdlist as [|gd gdlist IH]; intros acc Hrun.
  - simpl in Hrun. injection Hrun as <-. split; [by left|].
    intros [Hx|(gd & fams & Hin & _)]; [done|]. by apply elem_of_nil in Hin.
  - rewrite for_each_cons in Hrun.
    apply bind_Ok_inv in Hrun as (acc1 & Hstep & Hrest).
    destruct (GenomeData.families gd) as [fams0|] eqn:Hfams; [|done].
    injection Hstep as <-. rewrite (IH _ Hrest), add_members_lookup.
    split.
    + intros [[[Hf ->]|Hx]|(gd' & fams & Hin & Hrest')].
      * right. exists gd, fams0. split_and!; [constructor|done..].
      * by left.
      * right. exists gd', fams. split; [by constructor|done].
    + intros [Hx|(gd' & fams & [->|Hin]%elem_of_cons & Hf' & Hf & Hn)].
      * left. by right.
      * left. left. rewrite Hfams in Hf'. injection Hf' as ->. done.
      * right. exists gd', fams. done.
Qed.

(** The members recorded for a family are the names of the samples that
    list the family. *)
Lemma build_families_members (gdlist : list GenomeData.t)
    (families : gmap string (gset string)) (f x : string) :
  build_families gdlist = Ok families →
  x ∈ default ∅ (families !! f)
  ↔ ∃ gd fams, gd ∈ gdlist ∧ GenomeData.families gd = Some fams
               ∧ f ∈ fams ∧ GenomeData.name gd = x.
Proof.
  intros H. rewrite (build_families_loop gdlist ∅ families f x H).
  rewrite lookup_empty. simpl. rewrite elem_of_empty. tauto.
Qed.

(** The family-unique query as the report makes it: for a sample of the
    collection, one of its families, and no primer that amplifies a sequence
    of the sample's own name, the query starts from the primers that amplify
    exactly the other members of the family. *)
Lemma report_family_unique_minus_self (options : Options)
    (blastfilter : bool) (gdlist : list GenomeData.t)
    (families : gmap string (gset string)) (gd : GenomeData.t)
    (fams : list string) (family : string) :
  build_families gdlist = Ok families →
  gd ∈ gdlist →
  GenomeData.families gd = Some fams →
  family ∈ fams →
  Forall (λ p, GenomeData.name gd ∉ Primer.amplifies_organism p)
    (GenomeData.values gd) →
  report_family_unique options blastfilter families gd family
  = filter_stages options (negb (nocds options)) blastfilter false
      (List.filter
         (λ p, bool_decide
                 (Primer.amplifies_organism p
                  = default ∅ (families !! family)
                    ∖ {[GenomeData.name gd]}))
         (GenomeData.values gd)).
Proof.
  intros Hfam Hgd Hfams Hfamily Hself.
  unfold report_family_unique, get_family_unique_primers. f_equal.
  apply List_filter_ext_elem. intros p Hp. rewrite Forall_forall in Hself.
  apply family_test_minus_self; [|by apply Hself].
  apply (build_families_members gdlist families family _ Hfam).
  by exists gd, fams.
Qed.

(** * Further properties of the code *)

(** ** The filters, applied twice *)

(** The change of the 3' GC filter to one primer. *)
Lemma gc_step_idempotent (p : Primer.t) :
  let step := λ p, if gc_3prime_test p
                   then Primer.set_gc3primevalid false p else p in
  step (step p) = step p.
Proof.
  simpl. destruct (gc_3prime_test p) eqn:Ht; [|by rewrite Ht].
  by destruct (gc_3prime_test (Primer.set_gc3primevalid false p)).
Qed.

(** X1. The 3' GC filter is idempotent: running it on its own result
    changes nothing. *)
Theorem filter_primers_gc_3prime_idempotent (gd : GenomeData.t) :
  filter_primers_gc_3prime (filter_primers_gc_3prime gd)
  = filter_primers_gc_3prime gd.
Proof.
  unfold filter_primers_gc_3prime, GenomeData.set_primers. simpl. f_equal.
  apply map_eq. intros k. rewrite !lookup_fmap.
  destruct (GenomeData.primers gd !! k) as [p|]; simpl; [|done].
  f_equal. apply gc_step_idempotent.
Qed.

(** X2. The 3' GC filter keeps the primers of the sample and everything
    they carry; the only change it can make is to turn [gc3primevalid]
    from [True] to [False]. It never validates a primer. *)
Theorem filter_primers_gc_3prime_only_invalidates (gd : GenomeData.t)
    (k : string) :
  match GenomeData.primers (filter_primers_gc_3prime gd) !! k,
        GenomeData.primers gd !! k with
  | Some p', Some p =>
      p' = Primer.set_gc3primevalid (Primer.gc3primevalid p') p
      ∧ (Primer.gc3primevalid p' = true → Primer.gc3primevalid p = true)
  | None, None => True
  | _, _ => False
  end.
Proof.
  rewrite filter_primers_gc_3prime_lookup.
  destruct (GenomeData.primers gd !! k) as [p|]; simpl; [|done].
  destruct (gc_3prime_test p); simpl.
  - split; [done|discriminate].
  - split; [by destruct p|done].
Qed.

(** A run of [update_values] that returns has applied the body to every
    value. *)
Lemma update_values_inv {V} (body : V → result V)
    (d d' : gmap string V) :
  update_values body d = Ok d' →
  ∀ k, match d !! k with
       | Some v => ∃ v', body v = Ok v' ∧ d' !! k = Some v'
       | None => d' !! k = None
       end.
Proof.
  intros Hrun.
  assert (Hall : ∀ k v, d !! k = Some v → ∃ v', body v = Ok v').
  { intros k v Hk. destruct (body v) as [v'|e] eqn:Hb; [by eexists|].
    destruct (update_values_raise body d) as (k' & v' & e' & _ & _ & Hr);
      [by exists k, v, e|]. by rewrite Hr in Hrun. }
  set (g := λ v, match body v with Ok v' => v' | Raise _ => v end).
  rewrite (update_values_ok body g) in Hrun.
  - injection Hrun as <-. intros k. rewrite lookup_fmap.
    destruct (d !! k) as [v|] eqn:Hk; simpl; [|done].
    destruct (Hall k v Hk) as [v' Hv]. exists v'. split; [done|].
    unfold g. by rewrite Hv.
  - intros k v Hk. destruct (Hall k v Hk) as [v' Hv]. unfold g.
    by rewrite Hv.
Qed.

(** The change of the internal-oligo filter to one primer, done again. *)
Lemma oligo_step_idempotent (p p' : Primer.t) :
  (invalid ← oligo_test p;
   Ok (if invalid : bool then Primer.set_oligovalid false p else p))
  = Ok p' →
  (invalid ← oligo_test p';
   Ok (if invalid : bool then Primer.set_oligovalid false p' else p'))
  = Ok p'.
Proof.
  intros H. apply bind_Ok_inv in H as (b & Ht & H). injection H as <-.
  assert (Ht' : oligo_test (if b then Primer.set_oligovalid false p else p)
                = Ok b) by (by destruct b).
  rewrite Ht', bind_Ok. by destruct b.
Qed.

(** X3. The internal-oligo filter is idempotent: when it returns, running
    it on the object it returned returns that object again. *)
Theorem filter_primers_oligo_idempotent (gd gd' : GenomeData.t) :
  filter_primers_oligo gd = Ok gd' → filter_primers_oligo gd' = Ok gd'.
Proof.
  unfold filter_primers_oligo. intros H.
  apply bind_Ok_inv in H as (ps & Hps & H). injection H as <-. simpl.
  pose proof (update_values_inv _ _ _ Hps) as Hinv.
  rewrite (update_values_ok _ id).
  - by rewrite map_fmap_id.
  - intros k p' Hk. specialize (Hinv k). rewrite Hk in Hinv.
    destruct (GenomeData.primers gd !! k) as [p|]; [|done].
    destruct Hinv as (v' & Hv & [= ->]).
    by apply (oligo_step_idempotent p).
Qed.

Lemma filter_primers_oligo_idempotent_witness :
  ∃ gd', filter_primers_oligo Sample.oligo_present = Ok gd'
         ∧ filter_primers_oligo gd' = Ok gd'.
Proof.
  eexists. split; [vm_compute; reflexivity|].
  apply (filter_primers_oligo_idempotent Sample.oligo_present).
  vm_compute. reflexivity.
Defined.

(** ** What the matrix builder keeps *)

Lemma same_payload_refl (p : Primer.t) : same_payload p p.
Proof. unfold same_payload. by split_and!. Qed.

Lemma same_payload_trans (p p' p'' : Primer.t) :
  same_payload p p' → same_payload p' p'' → same_payload p p''.
Proof. unfold same_payload. intros H H'. split_and!; intuition congruence. Qed.

Lemma extends_by_refl (T : gset string) (p : Primer.t) : extends_by T p p.
Proof.
  unfold extends_by. split_and!; [apply same_payload_refl|done| |done].
  apply union_subseteq_r.
Qed.

Lemma extends_by_trans (T1 T2 : gset string) (p p' p'' : Primer.t) :
  extends_by T1 p p' → extends_by T2 p' p'' → extends_by (T1 ∪ T2) p p''.
Proof.
  intros (Hs & Ha & Hb & Hf) (Hs' & Ha' & Hb' & Hf').
  split_and!; [by eapply same_payload_trans|by etrans| |by etrans].
  intros x Hx. apply Hb' in Hx. apply elem_of_union in Hx as [Hx|Hx].
  - apply elem_of_union. left. apply elem_of_union. by right.
  - apply Hb in Hx. apply elem_of_union in Hx as [Hx|Hx].
    + apply elem_of_union. left. apply elem_of_union. by left.
    + apply elem_of_union. by right.
Qed.

Lemma extends_by_mono (T T' : gset string) (p p' : Primer.t) :
  T ⊆ T' → extends_by T p p' → extends_by T' p p'.
Proof.
  intros HT (Hs & Ha & Hb & Hf). split_and!; [done..| |done].
  intros x Hx. apply Hb in Hx. apply elem_of_union in Hx as [Hx|Hx];
    apply elem_of_union; [left; by apply HT|by right].
Qed.

Lemma amplified_extends (t : string) (fams : list string) (p : Primer.t) :
  extends_by {[t]} p (amplified t fams p).
Proof.
  rewrite amplified_sets. unfold extends_by, same_payload. simpl.
  split_and!; try done; try apply union_subseteq_r.
Qed.

Lemma counted_extends (T : gset string) (n : nat) (p : Primer.t) :
  extends_by T p (Primer.set_negative_control_amplimers n p).
Proof.
  unfold extends_by, same_payload. simpl.
  split_and!; try done. apply union_subseteq_r.
Qed.

(** One result file: the object keeps everything but its primers, and every
    primer is extended by at most the file's target name. *)
Lemma classify_file_effect (fs : gmap string PrimerSearch.OutputRecord)
    (gddict : gmap string GenomeData.t) (filename : string)
    (gd gd' : GenomeData.t) :
  classify_file fs gddict filename gd = Ok gd' →
  gd' = GenomeData.set_primers (GenomeData.primers gd') gd
  ∧ ∀ k, option_Forall2 (extends_by {[targetname_of filename]})
           (GenomeData.primers gd !! k) (GenomeData.primers gd' !! k).
Proof.
  intros Hrun. destruct (gddict !! targetname_of filename) as [target|] eqn:Ht.
  - destruct (known_target_shape _ _ _ _ _ _ Ht Hrun) as (psdata & _ & Hshape).
    split.
    + unfold classify_file in Hrun. rewrite Ht in Hrun.
      apply bind_Ok_inv in Hrun as (? & _ & Hrun).
      apply bind_Ok_inv in Hrun as (ps & _ & Hrun). by injection Hrun as <-.
    + intros k. rewrite Hshape.
      destruct (GenomeData.primers gd !! k) as [p|];
        destruct (PrimerSearch.amplifiers psdata !! k) as [pd|]; simpl;
        constructor; [|apply extends_by_refl].
      unfold amplify_if. destruct (0 <? List.length pd);
        [apply amplified_extends|apply extends_by_refl].
  - unfold classify_file, for_items in Hrun. rewrite Ht in Hrun.
    destruct (PyStr.contains "negative_control" filename).
    + apply bind_Ok_inv in Hrun as (psdata & _ & Hrun).
      apply bind_Ok_inv in Hrun as (ps & Hloop & Hrun).
      injection Hrun as <-. split; [done|]. intros k. simpl.
      apply (keyed_loop_shape _ _ _ _ control_step_inv) in Hloop
        as [Hshape _]; [|apply NoDup_fst_map_to_list].
      rewrite Hshape.
      destruct (GenomeData.primers gd !! k) as [p|];
        destruct (list_to_map _ !! k) as [pd|]; simpl;
        constructor; [apply counted_extends|apply extends_by_refl].
    + injection Hrun as <-. split; [by destruct gd|]. intros k.
      destruct (GenomeData.primers gd !! k); constructor.
      apply extends_by_refl.
Qed.

(** All result files of one sample. *)
Lemma classify_files_effect (fs : gmap string PrimerSearch.OutputRecord)
    (gddict : gmap string GenomeData.t) (files : list string)
    (gd gd' : GenomeData.t) :
  for_each (classify_file fs gddict) files gd = Ok gd' →
  gd' = GenomeData.set_primers (GenomeData.primers gd') gd
  ∧ ∀ k, option_Forall2 (extends_by (list_to_set (targetname_of <$> files)))
           (GenomeData.primers gd !! k) (GenomeData.primers gd' !! k).
Proof.
  revert gd. induction files as [|f files IH]; intros gd Hrun.
  - simpl in Hrun. injection Hrun as <-. split; [by destruct gd|].
    intros k. destruct (GenomeData.primers gd !! k); constructor.
    apply extends_by_refl.
  - rewrite for_each_cons in Hrun.
    apply bind_Ok_inv in Hrun as (gd1 & Hf & Hrest).
    apply classify_file_effect in Hf as [Heq1 Hk1].
    apply IH in Hrest as [Heq Hk]. split.
    + rewrite Heq, Heq1. reflexivity.
    + intros k. specialize (Hk1 k). specialize (Hk k).
      destruct Hk1 as [p p1 H1|]; inversion Hk as [p1' p' H2|]; subst;
        constructor.
      rewrite fmap_cons, list_to_set_cons. by eapply extends_by_trans.
Qed.

Lemma update_each_Forall2 {A} (R : A → A → Prop) (body : A → result A)
    (l l' : list A) :
  (∀ x x', x ∈ l → body x = Ok x' → R x x') →
  update_each body l = Ok l' → Forall2 R l l'.
Proof.
  revert l'. induction l as [|x l IH]; intros l' HR Hrun; simpl in Hrun.
  - injection Hrun as <-. constructor.
  - apply bind_Ok_inv in Hrun as (x' & Hx & Hrun).
    apply bind_Ok_inv in Hrun as (r & Hr & Hrun). injection Hrun as <-.
    constructor; [apply HR; [constructor|done]|].
    apply IH; [|done]. intros y y' Hy. apply HR. by constructor.
Qed.

(** The whole run. *)
Lemma classify_primers_effect (fs : gmap string PrimerSearch.OutputRecord)
    (gdlist gdlist' : list GenomeData.t) :
  classify_primers fs gdlist = Ok gdlist' →
  Forall2 classified_from gdlist gdlist'.
Proof.
  unfold classify_primers. apply update_each_Forall2.
  intros gd gd' _ Hrun. by apply classify_files_effect in Hrun.
Qed.

(** X4. [classify_primers] returns the samples it was given, in order,
    each with its name, families, file names and result files unchanged
    and with the same primer names; on every primer all attributes other
    than the two amplification sets and the negative-control count are
    what they were (the filter flags in particular). *)
Theorem classify_primers_keeps_samples
    (fs : gmap string PrimerSearch.OutputRecord)
    (gdlist gdlist' : list GenomeData.t) :
  classify_primers fs gdlist = Ok gdlist' →
  Forall2
    (λ gd gd',
       GenomeData.name gd' = GenomeData.name gd
       ∧ GenomeData.families gd' = GenomeData.families gd
       ∧ GenomeData.seqfilename gd' = GenomeData.seqfilename gd
       ∧ GenomeData.primersearch_output gd'
         = GenomeData.primersearch_output gd
       ∧ dom (GenomeData.primers gd') = dom (GenomeData.primers gd)
       ∧ ∀ k p p', GenomeData.primers gd !! k = Some p →
                   GenomeData.primers gd' !! k = Some p' →
                   same_payload p p')
    gdlist gdlist'.
Proof.
  intros Hrun. apply classify_primers_effect in Hrun.
  eapply Forall2_impl; [exact Hrun|]. intros gd gd' [Heq Hk].
  split_and!; try (rewrite Heq; reflexivity).
  - apply set_eq. intros k. rewrite !elem_of_dom.
    destruct (Hk k) as [p p' _|]; split; intros [? ?]; by eauto.
  - intros k p p' Hp Hp'. specialize (Hk k). rewrite Hp, Hp' in Hk.
    inversion Hk as [? ? [Hs _]|]. done.
Qed.

Lemma classify_primers_keeps_samples_witness :
  ∃ gdlist',
    classify_primers Sample.fs_pairwise Sample.A_and_B = Ok gdlist'
    ∧ Forall2
        (λ gd gd',
           GenomeData.name gd' = GenomeData.name gd
           ∧ GenomeData.families gd' = GenomeData.families gd
           ∧ GenomeData.seqfilename gd' = GenomeData.seqfilename gd
           ∧ GenomeData.primersearch_output gd'
             = GenomeData.primersearch_output gd
           ∧ dom (GenomeData.primers gd') = dom (GenomeData.primers gd)
           ∧ ∀ k p p', GenomeData.primers gd !! k = Some p →
                       GenomeData.primers gd' !! k = Some p' →
                       same_payload p p')
        Sample.A_and_B gdlist'.
Proof.
  eexists. split; [vm_compute; reflexivity|].
  apply (classify_primers_keeps_samples Sample.fs_pairwise).
  vm_compute. reflexivity.
Defined.

(** X5. [classify_primers] only ever adds to the amplification sets: on
    every primer the amplified organisms and families it had are still
    there afterwards, and every organism name that was added is a target
    name decoded from one of the sample's own result files. *)
Theorem classify_primers_sets_grow
    (fs : gmap string PrimerSearch.OutputRecord)
    (gdlist gdlist' : list GenomeData.t) :
  classify_primers fs gdlist = Ok gdlist' →
  Forall2
    (λ gd gd',
       ∀ k p p', GenomeData.primers gd !! k = Some p →
                 GenomeData.primers gd' !! k = Some p' →
                 Primer.amplifies_organism p ⊆ Primer.amplifies_organism p'
                 ∧ Primer.amplifies_family p ⊆ Primer.amplifies_family p'
                 ∧ ∀ x, x ∈ Primer.amplifies_organism p' →
                        x ∈ Primer.amplifies_organism p
                        ∨ ∃ f, f ∈ GenomeData.primersearch_output gd
                               ∧ targetname_of f = x)
    gdlist gdlist'.
Proof.
  intros Hrun. apply classify_primers_effect in Hrun.
  eapply Forall2_impl; [exact Hrun|]. intros gd gd' [_ Hk] k p p' Hp Hp'.
  specialize (Hk k). rewrite Hp, Hp' in Hk.
  inversion Hk as [? ? (_ & Ha & Hb & Hf)|]. split_and!; [done..|].
  intros t Ht. apply Hb in Ht. apply elem_of_union in Ht as [Ht|Ht];
    [|by left].
  right. unfold decoded_targets in Ht. apply elem_of_list_to_set in Ht.
  apply list_elem_of_fmap in Ht as (f & -> & Hf'). by exists f.
Qed.

Lemma classify_primers_sets_grow_witness :
  ∃ gdlist',
    classify_primers Sample.fs_pairwise Sample.A_and_B = Ok gdlist'
    ∧ Forall2
        (λ gd gd',
           ∀ k p p', GenomeData.primers gd !! k = Some p →
                     GenomeData.primers gd' !! k = Some p' →
                     Primer.amplifies_organism p
                     ⊆ Primer.amplifies_organism p'
                     ∧ Primer.amplifies_family p ⊆ Primer.amplifies_family p'
                     ∧ ∀ x, x ∈ Primer.amplifies_organism p' →
                            x ∈ Primer.amplifies_organism p
                            ∨ ∃ f, f ∈ GenomeData.primersearch_output gd
                                   ∧ targetname_of f = x)
        Sample.A_and_B gdlist'.
Proof.
  eexists. split; [vm_compute; reflexivity|].
  apply (classify_primers_sets_grow Sample.fs_pairwise).
  vm_compute. reflexivity.
Defined.

(** ** Result files that name a primer the sample does not have *)

Section keyed_loop_missing.
Context {V : Type}.
Context (step : string → V → gmap string Primer.t
                → result (gmap string Primer.t)).
Context (needs : V → bool) (err : exn).

(** A step that returns keeps the set of primer names. *)
Hypothesis step_keeps : ∀ k v ps ps1 k',
  step k v ps = Ok ps1 → ps !! k' = None → ps1 !! k' = None.

Hypothesis step_raises : ∀ k v ps e, step k v ps = Raise e → e = err.

Hypothesis step_missing : ∀ k v ps,
  needs v = true → ps !! k = None → step k v ps = Raise err.

Lemma keyed_loop_missing (l : list (string * V))
    (ps : gmap string Primer.t) :
  (∃ k v, (k, v) ∈ l ∧ needs v = true ∧ ps !! k = None) →
  for_each (λ kv, step kv.1 kv.2) l ps = Raise err.
Proof.
  revert ps. induction l as [|[k0 v0] l IH]; intros ps (k & v & Hin & Hv & Hk).
  - by apply elem_of_nil in Hin.
  - rewrite for_each_cons. simpl.
    destruct (step k0 v0 ps) as [ps1|e] eqn:Hstep.
    + rewrite bind_Ok. apply IH. exists k, v.
      apply elem_of_cons in Hin as [[= -> ->]|Hin].
      * by rewrite (step_missing _ _ _ Hv Hk) in Hstep.
      * split_and!; [done..|]. by eapply step_keeps.
    + rewrite bind_Raise. f_equal. by eapply step_raises.
Qed.
End keyed_loop_missing.

(** One result file. A file for a target of the collection (one that has
    a list of families) that reports at least one amplimer for a primer
    name the query sample does not hold raises a key error, whatever else
    the file reports; so does a negative-control file that names such a
    primer, with or without amplimers. *)
Lemma classify_file_missing_primer
    (fs : gmap string PrimerSearch.OutputRecord)
    (gddict : gmap string GenomeData.t) (filename : string)
    (gd : GenomeData.t) (psdata : PrimerSearch.OutputRecord)
    (k : string) (pdata : list PrimerSearch.Amplifier) :
  fs !! filename = Some psdata →
  PrimerSearch.amplifiers psdata !! k = Some pdata →
  GenomeData.primers gd !! k = None →
  (∀ target,
     gddict !! targetname_of filename = Some target →
     is_Some (GenomeData.families target) → pdata ≠ [] →
     classify_file fs gddict filename gd = Raise KeyError)
  ∧ (gddict !! targetname_of filename = None →
     PyStr.contains "negative_control" filename = true →
     classify_file fs gddict filename gd = Raise KeyError).
Proof.
  intros Hfile Hk Hmissing. unfold classify_file, for_items, read_primersearch.
  rewrite Hfile. split; [intros target Ht|intros Ht]; rewrite Ht.
  - intros [fams Hfams] Hpd. rewrite bind_Ok, Hfams.
    rewrite (keyed_loop_missing
               (amplification_step (targetname_of filename) (Some fams))
               (λ pd, 0 <? List.length pd) KeyError); [done| | | |].
    + intros k1 v ps ps1 k' Hstep Hnone.
      apply amplification_step_inv in Hstep as (_ & _ & ->).
      destruct (decide (k' = k1)); by rewrite Hnone.
    + intros k1 v ps e. unfold amplification_step.
      destruct (0 <? List.length v); [|done].
      destruct (ps !! k1) as [p|] eqn:Hp.
      * by rewrite (record_amplification_ok _ _ _ _ _ Hp).
      * unfold record_amplification. rewrite Hp. by intros [= <-].
    + intros k1 v ps Hv Hnone. unfold amplification_step.
      rewrite Hv. unfold record_amplification. by rewrite Hnone.
    + exists k, pdata. split_and!; [by apply elem_of_map_to_list| |done].
      destruct pdata; [done|reflexivity].
  - intros ->. rewrite bind_Ok.
    rewrite (keyed_loop_missing record_negative_control (λ _, true) KeyError);
      [done| | | |].
    + intros k1 v ps ps1 k' Hstep Hnone.
      apply control_step_inv in Hstep as (_ & _ & ->).
      destruct (decide (k' = k1)); by rewrite Hnone.
    + intros k1 v ps e. unfold record_negative_control.
      destruct (ps !! k1); [done|]. by intros [= <-].
    + intros k1 v ps _ Hnone. unfold record_negative_control.
      by rewrite Hnone.
    + exists k, pdata. split_and!; [by apply elem_of_map_to_list|done..].
Qed.

(** ** The three queries against each other *)

Lemma run_query_base (options : Options) (self : GenomeData.t) (q : query)
    (c o b : bool) (l : list Primer.t) (p : Primer.t) :
  run_query options self q c o b = Ok l → p ∈ l →
  p ∈ GenomeData.values self ∧ base_predicate self q p = true.
Proof.
  rewrite run_query_stages. intros H Hp.
  apply (filter_stages_sound _ _ _ _ _ _ H) in Hp as [Hp _].
  by apply elem_of_List_filter in Hp.
Qed.

(** X7. Whatever the filter switches of the two calls, a primer returned by
    the unique query of a sample is returned neither by its universal query
    for a non-zero number of other organisms, nor by its family-unique query
    for a family whose member names are not just the sample's own name. *)
Theorem unique_excludes_other_queries (options : Options)
    (self : GenomeData.t) (q : query) (c o b c' o' b' : bool)
    (l1 l2 : list Primer.t) :
  match q with
  | unique => False
  | family_unique family_members =>
      family_members ≠ {[GenomeData.name self]}
  | universal other_org_count => other_org_count ≠ 0%Z
  end →
  run_query options self unique c o b = Ok l1 →
  run_query options self q c' o' b' = Ok l2 →
  ∀ p, p ∈ l1 → p ∉ l2.
Proof.
  intros Hq H1 H2 p Hp1 Hp2.
  apply (run_query_base _ _ _ _ _ _ _ _ H1) in Hp1 as [_ Hp1].
  apply (run_query_base _ _ _ _ _ _ _ _ H2) in Hp2 as [_ Hp2].
  unfold base_predicate in Hp1. apply Z.eqb_eq in Hp1.
  assert (Hempty : Primer.amplifies_organism p = ∅)
    by (apply size_zero_empty; lia).
  destruct q as [|family_members|other_org_count];
    unfold base_predicate in Hp2; [done| |].
  - apply bool_decide_eq_true in Hp2. apply Hq. rewrite Hp2, Hempty.
    by rewrite (right_id_L ∅ (∪)).
  - apply Z.eqb_eq in Hp2. apply Hq. rewrite Hp2, Hempty, size_empty. done.
Qed.

Lemma unique_excludes_other_queries_witness :
  ∃ l1 l2,
    run_query Sample.plain_options Sample.A_two_classified unique
      false false false = Ok l1
    ∧ run_query Sample.plain_options Sample.A_two_classified (universal 1)
        false false false = Ok l2
    ∧ names l1 = ["A_primer_0002"]
    ∧ names l2 = ["A_primer_0001"]
    ∧ ∀ p, p ∈ l1 → p ∉ l2.
Proof.
  eexists _, _. split; [vm_compute; reflexivity|].
  split; [vm_compute; reflexivity|].
  split; [vm_compute; reflexivity|].
  split; [vm_compute; reflexivity|].
  apply (unique_excludes_other_queries Sample.plain_options
           Sample.A_two_classified (universal 1)
           false false false false false false).
  - simpl. lia.
  - vm_compute. reflexivity.
  - vm_compute. reflexivity.
Defined.

(** ** When the report writer gives up *)

Lemma build_families_none (gdlist : list GenomeData.t) :
  (∃ gd, gd ∈ gdlist ∧ GenomeData.families gd = None) →
  build_families gdlist = Raise TypeError.
Proof.
  unfold build_families. generalize (∅ : gmap string (gset string)).
  induction gdlist as [|gd gdlist IH]; intros acc (gd0 & Hin & Hnone).
  - by apply elem_of_nil in Hin.
  - rewrite for_each_cons.
    destruct (GenomeData.families gd) as [fams|] eqn:Hf; [|done].
    rewrite bind_Ok. apply IH. exists gd0. split; [|done].
    apply elem_of_cons in Hin as [->|Hin]; [congruence|done].
Qed.

(** X8. [write_report] raises a type error as soon as one sample of the
    collection has no list of families (the configuration gave ['-'] in the
    family column), and a name error on an empty collection, where the
    variable [universal_primers] of the loop is unbound at the universal
    export. *)
Theorem write_report_gives_up (options : Options)
    (gdlist : list GenomeData.t) (blastfilter : bool) :
  ((∃ gd, gd ∈ gdlist ∧ GenomeData.families gd = None) →
   write_report options gdlist blastfilter = Raise TypeError)
  ∧ (gdlist = [] →
     write_report options gdlist blastfilter = Raise NameError).
Proof.
  split.
  - intros H. unfold write_report. by rewrite (build_families_none _ H).
  - intros ->. reflexivity.
Qed.

Lemma write_report_gives_up_witness :
  write_report Sample.plain_options [Sample.A_alone; Fixture.no_families]
    false = Raise TypeError
  ∧ write_report Sample.plain_options [] false = Raise NameError.
Proof.
  split.
  - apply (proj1 (write_report_gives_up Sample.plain_options
                    [Sample.A_alone; Fixture.no_families] false)).
    exists Fixture.no_families. split; [|reflexivity].
    apply list_elem_of_further, list_elem_of_here.
  - by apply (proj2 (write_report_gives_up Sample.plain_options [] false)).
Defined.

(** ** Strings *)

Lemma str_app_cons (c : ascii) (a b : string) :
  String c a ++ b = String c (a ++ b).
Proof. reflexivity. Qed.

Lemma str_app_nil_l (b : string) : "" ++ b = b.
Proof. reflexivity. Qed.

Lemma str_app_nil_r (s : string) : s ++ "" = s.
Proof.
  induction s as [|c s IH]; [done|]. by rewrite str_app_cons, IH.
Qed.

Lemma str_app_assoc (a b c : string) : (a ++ b) ++ c = a ++ (b ++ c).
Proof.
  induction a as [|x a IH]; [done|]. by rewrite !str_app_cons, IH.
Qed.

Lemma str_length_app (a b : string) :
  String.length (a ++ b) = String.length a + String.length b.
Proof.
  induction a as [|x a IH]; [done|]. rewrite str_app_cons. simpl.
  by rewrite IH.
Qed.

Lemma str_drop_app_length (k : nat) (a b : string) :
  PyStr.drop (String.length a + k) (a ++ b) = PyStr.drop k b.
Proof.
  induction a as [|x a IH]; [done|]. rewrite str_app_cons. exact IH.
Qed.

Lemma str_take_app_length (a b : string) :
  PyStr.take (String.length a) (a ++ b) = a.
Proof.
  induction a as [|x a IH]; [by destruct b|]. rewrite str_app_cons. simpl.
  by rewrite IH.
Qed.

Lemma str_drop_0 (s : string) : PyStr.drop 0 s = s.
Proof. by destruct s. Qed.

(** The last [n] characters of a string are those of any suffix that is at
    least [n] long. *)
Lemma last_chars_app (n : nat) (a b : string) :
  n ≤ String.length b → PyStr.last_chars n (a ++ b) = PyStr.last_chars n b.
Proof.
  intros Hn. unfold PyStr.last_chars. rewrite str_length_app.
  replace (String.length a + String.length b - n)
    with (String.length a + (String.length b - n)) by lia.
  apply str_drop_app_length.
Qed.

(** A joined path ends with its second component. *)
Lemma join_suffix (a b : string) : ∃ x, OsPath.join a b = x ++ b.
Proof.
  unfold OsPath.join. destruct (PyStr.startswith "/" b); [by exists ""|].
  destruct (_ || _); [by exists a|]. exists (a ++ "/").
  by rewrite str_app_assoc.
Qed.

(** No family gives its primer file the name of the universal export. *)
Lemma family_file_not_universal (options : Options) (family : string) :
  OsPath.join (outdir options)
    (family ++ "_family-specific_primers.eprimer3")
  ≠ universal_filename options.
Proof.
  unfold universal_filename. intros Heq.
  destruct (join_suffix (outdir options)
              (family ++ "_family-specific_primers.eprimer3")) as [x Hx].
  destruct (join_suffix (outdir options) "universal_primers.eprimer3")
    as [y Hy].
  rewrite Hx, Hy in Heq. rewrite <- str_app_assoc in Heq.
  apply (f_equal (PyStr.last_chars 18)) in Heq.
  rewrite !last_chars_app in Heq by (simpl; lia). discriminate.
Qed.

(** ** The tables and files of the report *)

Lemma entries_primers (primers : list Primer.t) (sourcefilename : string) :
  entry_primer
  <$> imap (λ i p, {| entry_number := S i; entry_primer := p;
                      entry_source := sourcefilename |}) primers
  = primers.
Proof.
  rewrite fmap_imap. apply list_eq. intros i.
  rewrite list_lookup_imap. by destruct (primers !! i).
Qed.

Lemma report_sample_row (options : Options) (blastfilter : bool)
    (gdlist : list GenomeData.t) (families : gmap string (gset string))
    (gd : GenomeData.t) (st st' : report_state) :
  report_sample options blastfilter gdlist families gd st = Ok st' →
  ∃ row, rows st' = (rows st ++ [row])%list
         ∧ summarises options blastfilter gdlist gd row.
Proof.
  unfold report_sample. intros H.
  apply bind_Ok_inv in H as (unique_primers & Hu & H).
  apply bind_Ok_inv in H as (fams & _ & H).
  apply bind_Ok_inv in H as (fsp & _ & H).
  apply bind_Ok_inv in H as (universal & Hv & H).
  injection H as <-. eexists. split; [reflexivity|].
  split; [reflexivity|]. exists unique_primers, universal. by split_and!.
Qed.

Lemma report_loop_rows (options : Options) (blastfilter : bool)
    (gdlist : list GenomeData.t) (families : gmap string (gset string))
    (l : list GenomeData.t) (st st' : report_state) :
  for_each (report_sample options blastfilter gdlist families) l st
  = Ok st' →
  ∃ new, rows st' = (rows st ++ new)%list
         ∧ Forall2 (summarises options blastfilter gdlist) l new.
Proof.
  revert st. induction l as [|gd l IH]; intros st H.
  - simpl in H. injection H as <-. exists []. by rewrite app_nil_r.
  - rewrite for_each_cons in H. apply bind_Ok_inv in H as (st1 & Hgd & H).
    apply report_sample_row in Hgd as (row & Hrows & Hrow).
    apply IH in H as (new & Hnew & Hall). exists (row :: new). split.
    + rewrite Hnew, Hrows. by rewrite <- app_assoc.
    + by constructor.
Qed.

(** X9. When [write_report] returns, the summary table has one row per
    sample, in the order of the collection; each row carries the sample's
    name and the numbers of primers that its unique and universal queries
    return. *)
Theorem write_report_summary (options : Options)
    (gdlist : list GenomeData.t) (blastfilter : bool) (report : Report) :
  write_report options gdlist blastfilter = Ok report →
  Forall2 (summarises options blastfilter gdlist) gdlist (summary report).
Proof.
  unfold write_report. intros H.
  apply bind_Ok_inv in H as (families & _ & H).
  apply bind_Ok_inv in H as (st & Hloop & H).
  apply bind_Ok_inv in H as (universal & _ & H). injection H as <-. simpl.
  apply report_loop_rows in Hloop as (new & Hrows & Hall).
  by rewrite Hrows.
Qed.

Lemma write_report_summary_witness :
  ∃ report,
    write_report Sample.plain_options Sample.classified false = Ok report
    ∧ Forall2 (summarises Sample.plain_options false Sample.classified)
        Sample.classified (summary report).
Proof.
  destruct (write_report Sample.plain_options Sample.classified false)
    as [report|e] eqn:Hrun; [|by vm_compute in Hrun].
  exists report. split; [reflexivity|].
  by apply write_report_summary.
Defined.

(** Writing the family files leaves the universal export alone. *)
Lemma family_files_keep_universal (options : Options)
    (items : list (string * list Primer.t)) (files : eprimer3_files) :
  foldl
    (λ acc fp,
       write_eprimer3 fp.2
         (OsPath.join (outdir options)
            (fp.1 ++ "_family-specific_primers.eprimer3"))
         "" false acc)
    files items !! universal_filename options
  = files !! universal_filename options.
Proof.
  revert files. induction items as [|[family primers] items IH];
    intros files; [done|].
  simpl. rewrite IH. unfold write_eprimer3.
  apply lookup_insert_ne. apply family_file_not_universal.
Qed.

(** X10. When [write_report] returns, the universal export lists the
    universal primers of the last sample of the collection, and of no
    other sample. *)
Theorem universal_export_of_last_sample (options : Options)
    (earlier : list GenomeData.t) (gd : GenomeData.t) (blastfilter : bool)
    (report : Report) :
  write_report options (earlier ++ [gd]) blastfilter = Ok report →
  report_universal options blastfilter (earlier ++ [gd]) gd
  = Ok (universal_export options report).
Proof.
  unfold write_report. intros H.
  apply bind_Ok_inv in H as (families & _ & H).
  apply bind_Ok_inv in H as (st & Hloop & H).
  apply bind_Ok_inv in H as (universal & Hvar & H). injection H as <-.
  apply report_loop_last in Hloop as (u & Hu & Hst).
  rewrite Hst in Hvar. injection Hvar as ->. rewrite Hu. f_equal.
  unfold universal_export. simpl. rewrite family_files_keep_universal.
  unfold write_eprimer3 at 1. rewrite lookup_insert_eq. simpl.
  by rewrite entries_primers.
Qed.

Lemma universal_export_of_last_sample_witness :
  ∃ report,
    write_report Sample.plain_options
      ([Fixture.A_mutual] ++ [Fixture.B_mutual]) false = Ok report
    ∧ report_universal Sample.plain_options false
        ([Fixture.A_mutual] ++ [Fixture.B_mutual]) Fixture.B_mutual
      = Ok (universal_export Sample.plain_options report)
    ∧ names (universal_export Sample.plain_options report)
      = ["B_primer_0001"]
    ∧ result_map names
        (report_universal Sample.plain_options false
           ([Fixture.A_mutual] ++ [Fixture.B_mutual]) Fixture.A_mutual)
      = Ok ["A_primer_0001"].
Proof.
  destruct (write_report Sample.plain_options
              ([Fixture.A_mutual] ++ [Fixture.B_mutual]) false)
    as [report|e] eqn:Hrun; [|by vm_compute in Hrun].
  exists report. split; [reflexivity|].
  pose proof (universal_export_of_last_sample Sample.plain_options
                [Fixture.A_mutual] Fixture.B_mutual false report Hrun)
    as Hlast.
  split; [exact Hlast|]. split; [|vm_compute; reflexivity].
  assert (Hb : result_map names
                 (report_universal Sample.plain_options false
                    ([Fixture.A_mutual] ++ [Fixture.B_mutual])
                    Fixture.B_mutual)
               = Ok ["B_primer_0001"]) by (vm_compute; reflexivity).
  rewrite Hlast in Hb. by injection Hb.
Defined.

(** ** Searching and splitting strings *)

Lemma str_take_drop (k : nat) (s : string) :
  PyStr.take k s ++ PyStr.drop k s = s.
Proof.
  revert k. induction s as [|c s IH]; intros [|k]; simpl; try done.
  by rewrite str_app_cons, IH.
Qed.

Lemma startswith_app (pre s : string) : PyStr.startswith pre (pre ++ s) = true.
Proof.
  induction pre as [|c pre IH]; [done|]. rewrite str_app_cons. simpl.
  by rewrite Ascii.eqb_refl.
Qed.

(** A string that starts with [pre ++ more] starts with [pre]. *)
Lemma startswith_shorter (pre more s : string) :
  PyStr.startswith (pre ++ more) s = true → PyStr.startswith pre s = true.
Proof.
  revert s. induction pre as [|c pre IH]; intros s; [done|].
  rewrite str_app_cons. destruct s as [|a s]; simpl; [done|].
  destruct (Ascii.eqb c a); [apply IH|done].
Qed.

Lemma contains_shorter (pre more s : string) :
  PyStr.contains pre s = false → PyStr.contains (pre ++ more) s = false.
Proof.
  induction s as [|a s IH]; simpl.
  - rewrite !orb_false_r. intros H.
    destruct (PyStr.startswith (pre ++ more) "") eqn:Hs; [|done].
    by rewrite (startswith_shorter _ _ _ Hs) in H.
  - intros [H1 H2]%orb_false_elim. rewrite (IH H2), orb_false_r.
    destruct (PyStr.startswith (pre ++ more) (String a s)) eqn:Hs; [|done].
    by rewrite (startswith_shorter _ _ _ Hs) in H1.
Qed.

Lemma contains_char_cons (c a : ascii) (s : string) :
  PyStr.contains (String c "") (String a s)
  = Ascii.eqb c a || PyStr.contains (String c "") s.
Proof. simpl. by destruct (Ascii.eqb c a). Qed.

Lemma contains_char_app (c : ascii) (a b : string) :
  PyStr.contains (String c "") (a ++ b)
  = PyStr.contains (String c "") a || PyStr.contains (String c "") b.
Proof.
  induction a as [|x a IH]; [done|].
  rewrite str_app_cons, !contains_char_cons, IH. by rewrite orb_assoc.
Qed.

Lemma rfind_char_app (c : ascii) (a b : string) :
  PyStr.rfind_char c (a ++ b)
  = match PyStr.rfind_char c b with
    | Some i => Some (String.length a + i)
    | None => PyStr.rfind_char c a
    end.
Proof.
  induction a as [|x a IH];
    [rewrite str_app_nil_l; by destruct (PyStr.rfind_char c b)|].
  rewrite str_app_cons. simpl. rewrite IH.
  by destruct (PyStr.rfind_char c b).
Qed.

Lemma rfind_char_absent (c : ascii) (s : string) :
  PyStr.contains (String c "") s = false → PyStr.rfind_char c s = None.
Proof.
  induction s as [|a s IH]; [done|]. rewrite contains_char_cons.
  intros [Hc Hs]%orb_false_elim. simpl. rewrite (IH Hs).
  by rewrite Ascii.eqb_sym, Hc.
Qed.

Lemma all_char_app (c : ascii) (a b : string) :
  PyStr.all_char c (a ++ b) = PyStr.all_char c a && PyStr.all_char c b.
Proof.
  induction a as [|x a IH]; [done|]. rewrite str_app_cons. simpl.
  by rewrite IH, andb_assoc.
Qed.

Lemma rev_onto_app (acc s : string) :
  PyStr.rev_onto acc s = PyStr.rev_onto "" s ++ acc.
Proof.
  revert acc. induction s as [|c s IH]; intros acc; [done|]. simpl.
  rewrite (IH (String c acc)), (IH (String c "")).
  by rewrite str_app_assoc.
Qed.

(** The piece under construction, given what has been read of it. *)
Lemma rev_onto_snoc (cur : string) (c : ascii) :
  PyStr.rev_onto "" (String c cur) = PyStr.rev_onto "" cur ++ String c "".
Proof. simpl. apply rev_onto_app. Qed.

(** Skipping the rest of a separator that has just matched. *)
Lemma split_from_skip (sep w cur s : string) :
  PyStr.split_from sep (String.length w) cur (w ++ s)
  = PyStr.split_from sep 0 cur s.
Proof.
  induction w as [|c w IH]; [done|]. rewrite str_app_cons. exact IH.
Qed.

(** A string in which the separator does not occur is a single piece. *)
Lemma split_from_absent (sep cur s : string) :
  PyStr.contains sep s = false →
  PyStr.split_from sep 0 cur s = [PyStr.rev_onto "" cur ++ s].
Proof.
  revert cur. induction s as [|c s IH]; intros cur H.
  - simpl. by rewrite str_app_nil_r.
  - simpl in H. apply orb_false_elim in H as [H1 H2].
    change (PyStr.split_from sep 0 cur (String c s))
      with (if PyStr.startswith sep (String c s)
            then PyStr.rev_onto "" cur
                 :: PyStr.split_from sep (String.length sep - 1) "" s
            else PyStr.split_from sep 0 (String c cur) s).
    rewrite H1, (IH _ H2), rev_onto_snoc, str_app_assoc. done.
Qed.

(** Up to the first match of the separator. *)
Lemma split_from_first (sep' : string) (c0 : ascii) (q t cur : string) :
  let sep := String c0 sep' in
  no_match_within sep q (sep ++ t) = true →
  PyStr.split_from sep 0 cur (q ++ sep ++ t)
  = (PyStr.rev_onto "" cur ++ q) :: PyStr.split_from sep 0 "" t.
Proof.
  intros sep. revert cur. induction q as [|c q IH]; intros cur H.
  - rewrite str_app_nil_l, str_app_nil_r. unfold sep at 2.
    rewrite str_app_cons.
    change (PyStr.split_from sep 0 cur (String c0 (sep' ++ t)))
      with (if PyStr.startswith sep (String c0 (sep' ++ t))
            then PyStr.rev_onto "" cur
                 :: PyStr.split_from sep (String.length sep - 1) ""
                      (sep' ++ t)
            else PyStr.split_from sep 0 (String c0 cur) (sep' ++ t)).
    rewrite <- str_app_cons. fold sep. rewrite startswith_app.
    f_equal.
    replace (String.length sep - 1) with (String.length sep')
      by (unfold sep; simpl; lia).
    apply split_from_skip.
  - change (no_match_within sep (String c q) (sep ++ t))
      with (negb (PyStr.startswith sep (String c q ++ sep ++ t))
            && no_match_within sep q (sep ++ t)) in H.
    apply andb_true_iff in H as [H1 H2].
    apply negb_true_iff in H1. rewrite str_app_cons.
    change (PyStr.split_from sep 0 cur (String c (q ++ sep ++ t)))
      with (if PyStr.startswith sep (String c (q ++ sep ++ t))
            then PyStr.rev_onto "" cur
                 :: PyStr.split_from sep (String.length sep - 1) ""
                      (q ++ sep ++ t)
            else PyStr.split_from sep 0 (String c cur) (q ++ sep ++ t)).
    rewrite <- str_app_cons, H1, (IH _ H2), rev_onto_snoc, str_app_assoc.
    done.
Qed.

(** [q.split(sep)] of [q + sep + t] when the first match is the one
    between [q] and [t]. *)
Lemma split_first (sep' : string) (c0 : ascii) (q t : string) :
  let sep := String c0 sep' in
  no_match_within sep q (sep ++ t) = true →
  PyStr.split sep (q ++ sep ++ t) = q :: PyStr.split sep t.
Proof.
  intros sep H. subst sep. unfold PyStr.split.
  by rewrite split_from_first.
Qed.

Lemma split_absent (sep s : string) :
  PyStr.contains sep s = false → PyStr.split sep s = [s].
Proof. intros H. unfold PyStr.split. by rewrite split_from_absent. Qed.

Lemma startswith_cons (a b : ascii) (pre s : string) :
  PyStr.startswith (String a pre) (String b s)
  = if Ascii.eqb a b then PyStr.startswith pre s else false.
Proof. reflexivity. Qed.

Lemma startswith_nil (s : string) : PyStr.startswith "" s = true.
Proof. by destruct s. Qed.

Lemma startswith_cons_nil (a : ascii) (pre : string) :
  PyStr.startswith (String a pre) "" = false.
Proof. reflexivity. Qed.

(** Unfold [startswith] on strings whose first characters are known, then
    do the case analysis on the comparisons with the unknown characters. *)
Ltac startswith_cases :=
  rewrite ?str_app_cons, ?str_app_nil_l,
    ?startswith_cons, ?startswith_nil, ?startswith_cons_nil;
  repeat match goal with
         | |- context [Ascii.eqb ?a ?b] =>
             is_var b; destruct (Ascii.eqb a b)
         end;
  try done.

(** ["_vs_"] does not match across the end of a name that holds no
    ["_vs"]. *)
Lemma vs_no_straddle (c : ascii) (q t : string) :
  PyStr.startswith "_vs" (String c q) = false →
  PyStr.startswith "_vs_" (String c q ++ "_vs_" ++ t) = false.
Proof.
  destruct q as [|c2 [|c3 q]]; startswith_cases.
Qed.

Lemma vs_first_match (q t : string) :
  PyStr.contains "_vs" q = false →
  no_match_within "_vs_" q ("_vs_" ++ t) = true.
Proof.
  induction q as [|c q IH]; [done|]. intros H.
  change (PyStr.contains "_vs" (String c q))
    with (PyStr.startswith "_vs" (String c q) || PyStr.contains "_vs" q) in H.
  apply orb_false_elim in H as [H1 H2].
  change (no_match_within "_vs_" (String c q) ("_vs_" ++ t))
    with (negb (PyStr.startswith "_vs_" (String c q ++ "_vs_" ++ t))
          && no_match_within "_vs_" q ("_vs_" ++ t)).
  by rewrite (vs_no_straddle _ _ _ H1), (IH H2).
Qed.

(** ** From a result file name back to the target *)

Lemma endswith_slash (a : string) :
  PyStr.endswith "/" a = true → ∃ a', a = a' ++ "/".
Proof.
  unfold PyStr.endswith. destruct (_ <=? _); [|done].
  intros H%String.eqb_eq. exists (PyStr.take (String.length a - 1) a).
  transitivity (PyStr.take (String.length a - 1) a
                ++ PyStr.drop (String.length a - 1) a).
  - symmetry. apply str_take_drop.
  - f_equal. exact H.
Qed.

(** A joined path is its second component, or ends with a slash and the
    second component. *)
Lemma join_cases (a b : string) :
  PyStr.startswith "/" b = false →
  OsPath.join a b = b ∨ ∃ x, OsPath.join a b = x ++ "/" ++ b.
Proof.
  intros Hb. unfold OsPath.join. rewrite Hb.
  destruct (String.eqb_spec a "") as [->|Ha]; [by left|]. simpl.
  destruct (PyStr.endswith "/" a) eqn:He.
  - apply endswith_slash in He as [a' ->]. right. exists a'.
    by rewrite str_app_assoc.
  - right. by exists a.
Qed.

(** [os.path.split(os.path.join(a, b))[-1]] is [b] when [b] holds no
    slash. *)
Lemma split_join_tail (a b : string) :
  PyStr.contains "/" b = false → (OsPath.split (OsPath.join a b)).2 = b.
Proof.
  intros Hb. pose proof (rfind_char_absent _ _ Hb) as Hr.
  assert (Hs : PyStr.startswith "/" b = false).
  { destruct b; [done|]. simpl in Hb. by apply orb_false_elim in Hb as [? _]. }
  unfold OsPath.split. simpl.
  destruct (join_cases a b Hs) as [->|[x ->]].
  - rewrite Hr. apply str_drop_0.
  - rewrite rfind_char_app.
    change (PyStr.rfind_char "/" ("/" ++ b))
      with (match PyStr.rfind_char "/" b with
            | Some i => Some (S i)
            | None => Some 0
            end).
    rewrite Hr, <- str_app_assoc.
    replace (S (String.length x + 0)) with (String.length (x ++ "/") + 0)
      by (rewrite str_length_app; simpl; lia).
    rewrite str_drop_app_length. apply str_drop_0.
Qed.

(** [os.path.splitext] of a file name without directory that ends with
    the extension [.primersearch]. *)
Lemma splitext_primersearch (stem : string) :
  PyStr.contains "/" stem = false →
  PyStr.all_char "." stem = false →
  OsPath.splitext (stem ++ ".primersearch") = (stem, ".primersearch").
Proof.
  intros Hslash Hdots. unfold OsPath.splitext.
  assert (Hr : PyStr.rfind_char "/" (stem ++ ".primersearch") = None).
  { apply rfind_char_absent. rewrite contains_char_app, Hslash. done. }
  rewrite Hr, rfind_char_app.
  change (PyStr.rfind_char "." ".primersearch") with (Some 0).
  unfold OsPath.nondot_between. simpl.
  rewrite Nat.sub_0_r, str_drop_app_length, Nat.add_0_r.
  rewrite str_take_app_length, Hdots. done.
Qed.

(** The target that [classify_primers] reads from the name of a result file
    written by [primersearch], for names without slash and without
    ["_vs"]. *)
Lemma targetname_of_pairwise (outdir query target : string) :
  plain_name query = true → plain_name target = true →
  targetname_of (OsPath.join outdir (pairwise_name query target)) = target.
Proof.
  unfold plain_name. rewrite !andb_true_iff, !negb_true_iff.
  intros [Hq1 Hq2] [Ht1 Ht2]. unfold targetname_of, pairwise_name.
  rewrite split_join_tail.
  2:{ rewrite !contains_char_app, Hq1, Ht1. done. }
  rewrite <- !str_app_assoc, splitext_primersearch.
  - rewrite !str_app_assoc. simpl fst.
    rewrite (split_first "vs_" "_" query target)
      by (by apply vs_first_match).
    rewrite split_absent by (by apply (contains_shorter "_vs" "_")).
    done.
  - rewrite !contains_char_app, Hq1, Ht1. done.
  - rewrite !all_char_app. by rewrite andb_false_r.
Qed.

(** ** The all-against-all naming and the matrix builder *)

Lemma map_raising_Forall2 {A B} (body : A → result B) (l : list A)
    (l' : list B) :
  map_raising body l = Ok l' ↔ Forall2 (λ x y, body x = Ok y) l l'.
Proof.
  revert l'. induction l as [|x l IH]; intros l'; simpl.
  - split; [by intros [= <-]|by intros ->%Forall2_nil_inv_l].
  - split.
    + intros Hrun. apply bind_Ok_inv in Hrun as (y & Hy & Hrun).
      apply bind_Ok_inv in Hrun as (ys & Hys & Hrun). injection Hrun as <-.
      constructor; [done|by apply IH].
    + intros (y & ys & Hy & Hys & ->)%Forall2_cons_inv_l.
      apply IH in Hys. by rewrite Hy, bind_Ok, Hys, bind_Ok.
Qed.

(** The entries of a list other than the one at position [i], read off the
    enumerated list. *)
Lemma others_imap {A} (i k : nat) (l : list A) :
  snd <$> List.filter (λ jt : nat * A, negb (i =? jt.1))
            (imap (λ j x, (k + j, x)) l)
  = if i <? k then l else delete (i - k) l.
Proof.
  revert k. induction l as [|x l IH]; intros k.
  - simpl. by destruct (i <? k).
  - rewrite imap_cons.
    rewrite (imap_ext _ (λ j x, (S k + j, x)) l)
      by (intros; simpl; f_equal; lia).
    simpl List.filter. rewrite Nat.add_0_r.
    change (imap (λ j x0, (S (k + j), x0)) l)
      with (imap (λ j x0, (S k + j, x0)) l).
    destruct (Nat.eqb_spec i k) as [->|Hne]; simpl negb; cbv iota.
    + rewrite IH. rewrite (proj2 (Nat.ltb_lt k (S k))) by lia.
      rewrite Nat.ltb_irrefl, Nat.sub_diag. done.
    + rewrite fmap_cons, IH. simpl snd.
      destruct (Nat.ltb_spec i k) as [Hlt|Hge].
      * by rewrite (proj2 (Nat.ltb_lt i (S k))) by lia.
      * rewrite (proj2 (Nat.ltb_ge i (S k))) by lia.
        replace (i - k) with (S (i - S k)) by lia. done.
Qed.

Lemma others_enumerated {A} (i : nat) (l : list A) :
  snd <$> List.filter (λ jt : nat * A, negb (i =? jt.1)) (imap pair l)
  = delete i l.
Proof.
  pose proof (others_imap i 0 l) as H. rewrite Nat.sub_0_r in H. exact H.
Qed.

Lemma pairwise_step_pair (i j : nat) (query_gd t : GenomeData.t)
    (acc : list string) :
  pairwise_step i query_gd (j, t) acc
  = if i =? j then Ok acc
    else seqfile_dir query_gd
         ≫= λ outdir,
              Ok (acc ++ [OsPath.join outdir
                            (pairwise_name (GenomeData.name query_gd)
                               (GenomeData.name t))])%list.
Proof. reflexivity. Qed.

(** The inner loop of [primersearch] when the directory of the query's
    sequence file is known. *)
Lemma pairwise_loop_ok (i : nat) (query_gd : GenomeData.t) (outdir : string)
    (l : list (nat * GenomeData.t)) (acc : list string) :
  seqfile_dir query_gd = Ok outdir →
  for_each (pairwise_step i query_gd) l acc
  = Ok (acc ++ ((λ jt : nat * GenomeData.t,
                   OsPath.join outdir
                     (pairwise_name (GenomeData.name query_gd)
                        (GenomeData.name jt.2)))
                <$> List.filter (λ jt, negb (i =? jt.1)) l))%list.
Proof.
  intros Hdir. revert acc. induction l as [|[j t] l IH]; intros acc.
  - simpl. by rewrite app_nil_r.
  - rewrite for_each_cons, pairwise_step_pair. simpl List.filter.
    simpl fst. destruct (i =? j); simpl negb; cbv iota.
    + rewrite bind_Ok. apply IH.
    + rewrite Hdir, !bind_Ok, IH, fmap_cons, <- app_assoc. done.
Qed.

(** Without a sequence file name the loop fails at the first target other
    than the query. *)
Lemma pairwise_loop_raise (i : nat) (query_gd : GenomeData.t) (e : exn)
    (l : list (nat * GenomeData.t)) (acc : list string) :
  seqfile_dir query_gd = Raise e →
  for_each (pairwise_step i query_gd) l acc
  = match List.filter (λ jt : nat * GenomeData.t, negb (i =? jt.1)) l with
    | [] => Ok acc
    | _ :: _ => Raise e
    end.
Proof.
  intros Hdir. revert acc. induction l as [|[j t] l IH]; intros acc; [done|].
  rewrite for_each_cons, pairwise_step_pair. simpl List.filter.
  simpl fst. destruct (i =? j); simpl negb; cbv iota.
  - rewrite bind_Ok. apply IH.
  - by rewrite Hdir.
Qed.

(** The output files that [primersearch] gives the query at position [i]:
    one for each other sample, in the order of the list. *)
Lemma pairwise_outputs_shape (gdlist : list GenomeData.t) (i : nat)
    (query_gd : GenomeData.t) (outputs : list string) :
  pairwise_outputs gdlist i query_gd = Ok outputs →
  ∃ outdir,
    outputs
    = (λ t, OsPath.join outdir
              (pairwise_name (GenomeData.name query_gd) (GenomeData.name t)))
      <$> delete i gdlist.
Proof.
  unfold pairwise_outputs. intros Hrun.
  destruct (seqfile_dir query_gd) as [outdir|e] eqn:Hdir.
  - rewrite (pairwise_loop_ok _ _ _ _ _ Hdir) in Hrun. injection Hrun as <-.
    exists outdir. rewrite <- (others_enumerated i gdlist).
    rewrite <- list_fmap_compose. done.
  - rewrite (pairwise_loop_raise _ _ _ _ _ Hdir) in Hrun.
    pose proof (others_enumerated i gdlist) as Ho.
    destruct (List.filter _ (imap pair gdlist)); [|discriminate].
    injection Hrun as <-. exists "". by rewrite <- Ho.
Qed.

Lemma primersearch_lookup (gdlist gdlist' : list GenomeData.t) (i : nat)
    (gd' : GenomeData.t) :
  primersearch_outputs gdlist = Ok gdlist' →
  gdlist' !! i = Some gd' →
  ∃ gd outdir,
    gdlist !! i = Some gd
    ∧ gd' = set_primersearch_output
              ((λ t, OsPath.join outdir
                       (pairwise_name (GenomeData.name gd)
                          (GenomeData.name t)))
               <$> delete i gdlist) gd.
Proof.
  unfold primersearch_outputs. intros Hrun%map_raising_Forall2 Hi.
  destruct (Forall2_lookup_r _ _ _ _ _ Hrun Hi) as ([j gd] & Hj & Hbody).
  rewrite list_lookup_imap in Hj.
  destruct (gdlist !! i) as [gd0|] eqn:Hgd; [|done].
  injection Hj as <- <-. simpl in Hbody.
  apply bind_Ok_inv in Hbody as (outputs & Hout & Hbody).
  injection Hbody as <-.
  apply pairwise_outputs_shape in Hout as [outdir ->]. by exists gd0, outdir.
Qed.

Lemma decode_pairwise (outdir query : string) (targets : list GenomeData.t) :
  plain_name query = true →
  Forall (λ gd, plain_name (GenomeData.name gd) = true) targets →
  targetname_of
    <$> ((λ t, OsPath.join outdir (pairwise_name query (GenomeData.name t)))
         <$> targets)
  = GenomeData.name <$> targets.
Proof.
  intros Hq Ht. rewrite <- list_fmap_compose. apply Forall_fmap_ext.
  eapply Forall_impl; [exact Ht|]. intros t Hp. simpl.
  by apply targetname_of_pairwise.
Qed.

Lemma Forall_delete_plain {A} (P : A → Prop) (i : nat) (l : list A) :
  Forall P l → Forall P (delete i l).
Proof.
  intros H. rewrite delete_take_drop. apply Forall_app.
  split; [by apply Forall_take|by apply Forall_drop].
Qed.

(** With one decoded name per other sample and distinct names, a sample's
    own name is not decoded from its files. *)
Lemma NoDup_not_in_delete {A} (l : list A) (i : nat) (x : A) :
  NoDup l → l !! i = Some x → x ∉ delete i l.
Proof.
  intros Hnd Hi [j Hj]%list_elem_of_lookup.
  destruct (decide (j < i)) as [Hlt|Hge].
  - rewrite list_lookup_delete_lt in Hj by done.
    pose proof (NoDup_lookup _ _ _ _ Hnd Hi Hj). lia.
  - rewrite list_lookup_delete_ge in Hj by lia.
    pose proof (NoDup_lookup _ _ _ _ Hnd Hi Hj). lia.
Qed.

Lemma map_raising_total {A B} (body : A → result B) (l : list A) :
  (∀ x, x ∈ l → ∃ y, body x = Ok y) → ∃ l', map_raising body l = Ok l'.
Proof.
  induction l as [|x l IH]; intros Hbody; [by eexists|].
  destruct (Hbody x) as [y Hy]; [constructor|].
  destruct IH as [l' Hl']; [intros z Hz; apply Hbody; by constructor|].
  exists (y :: l'). simpl. by rewrite Hy, bind_Ok, Hl', bind_Ok.
Qed.

Lemma primersearch_total (gdlist : list GenomeData.t) :
  Forall (λ gd, is_Some (GenomeData.seqfilename gd)) gdlist →
  ∃ gdlist', primersearch_outputs gdlist = Ok gdlist'.
Proof.
  intros Hseq. apply map_raising_total. intros [i gd] Hin.
  apply list_elem_of_lookup in Hin as [j Hj].
  rewrite list_lookup_imap in Hj.
  destruct (gdlist !! j) as [gd0|] eqn:Hgd; [|done]. injection Hj as <- <-.
  rewrite Forall_lookup in Hseq. destruct (Hseq _ _ Hgd) as [f Hf].
  simpl fst. simpl snd. unfold pairwise_outputs.
  rewrite (pairwise_loop_ok _ _ (OsPath.split f).1).
  - rewrite bind_Ok. by eexists.
  - unfold seqfile_dir. by rewrite Hf.
Qed.

(** How [primersearch] ends. *)
Lemma primersearch_returns (sge : bool)
    (gdlist searched : list GenomeData.t) :
  primersearch sge gdlist = Ok searched ↔
  sge = false ∧ primersearch_outputs gdlist = Ok searched.
Proof.
  unfold primersearch. split.
  - intros H. apply bind_Ok_inv in H as (l & Hl & H).
    destruct sge; [discriminate|]. by injection H as <-.
  - intros [-> ->]. reflexivity.
Qed.

(** X11. The file names that [primersearch] chooses and the target names
    that [classify_primers] reads back from them agree. For samples that
    all have a sequence file and whose names hold no slash and no ["_vs"]:
    run without [sge], [primersearch] returns the samples in order, each
    with one result file per other sample, and the targets decoded from the
    files of the sample at position [i] are the names of the other samples,
    in the order of the list; run with [sge], it stops with the name error
    of [sge_run]. *)
Theorem primersearch_targets_decode (gdlist : list GenomeData.t) :
  Forall (λ gd, plain_name (GenomeData.name gd) = true) gdlist →
  Forall (λ gd, is_Some (GenomeData.seqfilename gd)) gdlist →
  (∃ gdlist',
     primersearch false gdlist = Ok gdlist'
     ∧ GenomeData.name <$> gdlist' = GenomeData.name <$> gdlist
     ∧ ∀ i gd', gdlist' !! i = Some gd' →
         targetname_of <$> GenomeData.primersearch_output gd'
         = GenomeData.name <$> delete i gdlist)
  ∧ primersearch true gdlist = Raise NameError.
Proof.
  intros Hplain Hseq. destruct (primersearch_total _ Hseq) as [gdlist' Hrun].
  split; [|unfold primersearch; by rewrite Hrun].
  exists gdlist'. split_and!; [by apply primersearch_returns| |].
  - apply list_eq. intros i. rewrite !list_lookup_fmap.
    destruct (gdlist' !! i) as [gd'|] eqn:Hi.
    + destruct (primersearch_lookup _ _ _ _ Hrun Hi) as (gd & d & -> & ->).
      done.
    + apply map_raising_Forall2, Forall2_length in Hrun.
      rewrite length_imap in Hrun. apply lookup_ge_None in Hi.
      rewrite (proj2 (lookup_ge_None gdlist i)) by lia. done.
  - intros i gd' Hi.
    destruct (primersearch_lookup _ _ _ _ Hrun Hi) as (gd & d & Hgd & ->).
    simpl. apply decode_pairwise.
    + rewrite Forall_lookup in Hplain. by eapply Hplain.
    + by apply Forall_delete_plain.
Qed.

Lemma primersearch_targets_decode_witness :
  (∃ gdlist',
     primersearch false Fixture.unscreened = Ok gdlist'
     ∧ GenomeData.name <$> gdlist' = GenomeData.name <$> Fixture.unscreened
     ∧ ∀ i gd', gdlist' !! i = Some gd' →
         targetname_of <$> GenomeData.primersearch_output gd'
         = GenomeData.name <$> delete i Fixture.unscreened)
  ∧ primersearch true Fixture.unscreened = Raise NameError.
Proof.
  apply (primersearch_targets_decode Fixture.unscreened).
  - repeat constructor.
  - repeat constructor; by eexists.
Defined.

(** X12. The all-against-all run never makes a primer amplify its own
    sample. For samples with distinct names that hold no slash and no
    ["_vs"], whose primers do not list their own sample to begin with (as
    after [load_primers]), the objects that [classify_primers] returns for
    the result files chosen by [primersearch] hold no primer with the name
    of its own sample among its amplified organisms. *)
Theorem pipeline_never_self_amplifies
    (fs : gmap string PrimerSearch.OutputRecord) (sge : bool)
    (gdlist searched classified : list GenomeData.t) :
  Forall (λ gd, plain_name (GenomeData.name gd) = true) gdlist →
  NoDup (GenomeData.name <$> gdlist) →
  Forall (λ gd, ∀ k p, GenomeData.primers gd !! k = Some p →
                       GenomeData.name gd ∉ Primer.amplifies_organism p)
    gdlist →
  primersearch sge gdlist = Ok searched →
  classify_primers fs searched = Ok classified →
  Forall (λ gd, ∀ k p, GenomeData.primers gd !! k = Some p →
                       GenomeData.name gd ∉ Primer.amplifies_organism p)
    classified.
Proof.
  intros Hplain Hnd Hclean [_ Hsearch]%primersearch_returns Hclass.
  apply classify_primers_effect in Hclass.
  apply Forall_lookup. intros i gd2 Hi k p2 Hp2.
  destruct (Forall2_lookup_r _ _ _ _ _ Hclass Hi) as (gd1 & Hi1 & Heq & Hk).
  destruct (primersearch_lookup _ _ _ _ Hsearch Hi1) as (gd & d & Hgd & ->).
  specialize (Hk k). rewrite Hp2 in Hk.
  inversion Hk as [p p' (_ & _ & Hup & _) Hp Heq'|]; subst p'.
  symmetry in Hp. simpl in Hp.
  rewrite Heq. simpl. intros Hself. apply Hup in Hself.
  apply elem_of_union in Hself as [Hself|Hself].
  - unfold decoded_targets in Hself. simpl in Hself.
    rewrite decode_pairwise in Hself.
    + apply elem_of_list_to_set in Hself. rewrite list_fmap_delete in Hself.
      revert Hself. apply NoDup_not_in_delete; [done|].
      by rewrite list_lookup_fmap, Hgd.
    + rewrite Forall_lookup in Hplain. by eapply Hplain.
    + by apply Forall_delete_plain.
  - rewrite Forall_lookup in Hclean. by eapply Hclean.
Qed.

Lemma pipeline_never_self_amplifies_witness :
  ∃ searched classified,
    primersearch false Fixture.unscreened = Ok searched
    ∧ classify_primers Sample.fs_pairwise searched = Ok classified
    ∧ Forall (λ gd, ∀ k p, GenomeData.primers gd !! k = Some p →
                           GenomeData.name gd ∉ Primer.amplifies_organism p)
        classified.
Proof.
  eexists. eexists. split; [vm_compute; reflexivity|].
  split; [vm_compute; reflexivity|].
  eapply (pipeline_never_self_amplifies Sample.fs_pairwise false
            Fixture.unscreened).
  - repeat constructor.
  - by_evaluation.
  - repeat constructor.
    + change (map_Forall
                (λ _ p, GenomeData.name Sample.A_alone
                        ∉ Primer.amplifies_organism p)
                (GenomeData.primers Sample.A_alone)).
      by_evaluation.
    + change (map_Forall
                (λ _ p, GenomeData.name Fixture.B_alone
                        ∉ Primer.amplifies_organism p)
                (GenomeData.primers Fixture.B_alone)).
      by_evaluation.
  - vm_compute. reflexivity.
  - vm_compute. reflexivity.
Defined.

(** ** The negative-control run *)

Lemma map_raising_raise {A B} (body : A → result B) (e : exn)
    (l : list A) :
  Forall (λ x, ∀ e', body x = Raise e' → e' = e) l →
  Exists (λ x, ∃ e', body x = Raise e') l →
  map_raising body l = Raise e.
Proof.
  induction l as [|x l IH]; intros Hall Hex; [by apply Exists_nil in Hex|].
  apply Forall_cons in Hall as [Hx Hall]. simpl.
  destruct (body x) as [y|e'] eqn:Hb.
  - rewrite bind_Ok. rewrite IH; [done..|].
    apply Exists_cons in Hex as [[e' He']|Hex]; [congruence|done].
  - by rewrite (Hx e' eq_refl).
Qed.

(** X13. [find_negative_target_products] never returns. When every sample
    has a sequence file name, the loop over the samples completes and the
    function stops with the type error of [multiprocessing_run(clines,
    cpus)], a call with two arguments of a function that has one parameter,
    or, when [sge] is set, with the name error of [sge_run], which is
    defined nowhere; when some sample has no sequence file name it stops
    in the loop, with the attribute error of [os.path.split(None)]. *)
Theorem find_negative_target_products_never_returns (sge : bool)
    (gdlist : list GenomeData.t) :
  (∀ controlled, find_negative_target_products sge gdlist ≠ Ok controlled)
  ∧ (Forall (λ gd, is_Some (GenomeData.seqfilename gd)) gdlist →
     find_negative_target_products sge gdlist
     = Raise (if sge then NameError else TypeError))
  ∧ (Exists (λ gd, GenomeData.seqfilename gd = None) gdlist →
     find_negative_target_products sge gdlist = Raise AttributeError).
Proof.
  unfold find_negative_target_products. split_and!.
  - intros controlled H. by apply bind_Ok_inv in H as (l & _ & H).
  - intros Hseq.
    destruct (map_raising_total
                (λ query_gd,
                   outdir ← seqfile_dir query_gd;
                   Ok (set_primersearch_output
                         [OsPath.join outdir
                            (control_name (GenomeData.name query_gd))]
                         query_gd))
                gdlist) as [l Hl]; [|by rewrite Hl].
    intros gd Hin. rewrite Forall_forall in Hseq.
    destruct (Hseq gd Hin) as [f Hf]. unfold seqfile_dir. rewrite Hf.
    by eexists.
  - intros Hex. rewrite (map_raising_raise _ AttributeError); [done| |].
    + apply Forall_forall. intros gd _ e'. unfold seqfile_dir.
      destruct (GenomeData.seqfilename gd); [done|]. by intros [= <-].
    + eapply Exists_impl; [exact Hex|]. intros gd Hnone.
      unfold seqfile_dir. rewrite Hnone. by eexists.
Qed.

Lemma find_negative_target_products_never_returns_witness :
  find_negative_target_products false Fixture.unscreened = Raise TypeError
  ∧ find_negative_target_products true Fixture.unscreened = Raise NameError
  ∧ find_negative_target_products false
      [Sample.A_alone; Fixture.no_sequence]
    = Raise AttributeError.
Proof.
  split_and!.
  - apply (proj1 (proj2 (find_negative_target_products_never_returns
                           false Fixture.unscreened))).
    repeat constructor; by eexists.
  - apply (proj1 (proj2 (find_negative_target_products_never_returns
                           true Fixture.unscreened))).
    repeat constructor; by eexists.
  - apply (proj2 (proj2 (find_negative_target_products_never_returns
                           false [Sample.A_alone; Fixture.no_sequence]))).
    apply Exists_cons_tl, Exists_cons_hd. reflexivity.
Defined.

(** ** Reusing the result files of an earlier run *)

Lemma startswith_trans (a b c : string) :
  PyStr.startswith a b = true → PyStr.startswith b c = true →
  PyStr.startswith a c = true.
Proof.
  revert b c. induction a as [|x a IH]; intros b c; [done|].
  destruct b as [|y b]; [done|]. destruct c as [|z c]; [done|].
  rewrite !startswith_cons.
  destruct (Ascii.eqb_spec x y) as [->|]; [|done].
  destruct (Ascii.eqb_spec y z) as [->|]; [|done]. apply IH.
Qed.

Lemma load_existing_lookup (listdir : string → result (list string))
    (gdlist loaded : list GenomeData.t) (i : nat) (gd' : GenomeData.t) :
  load_existing_primersearch_results listdir gdlist = Ok loaded →
  loaded !! i = Some gd' →
  ∃ gd filedir entries,
    gdlist !! i = Some gd
    ∧ seqfile_dir gd = Ok filedir
    ∧ listdir filedir = Ok entries
    ∧ gd' = set_primersearch_output
              ((λ filename, OsPath.join filedir filename)
               <$> List.filter
                     (λ f, String.eqb (OsPath.splitext f).2 ".primersearch"
                           && PyStr.startswith (GenomeData.name gd) f)
                     entries)
              gd.
Proof.
  unfold load_existing_primersearch_results.
  intros Hrun%map_raising_Forall2 Hi.
  destruct (Forall2_lookup_r _ _ _ _ _ Hrun Hi) as (gd & Hgd & Hbody).
  simpl in Hbody.
  apply bind_Ok_inv in Hbody as (filedir & Hdir & Hbody).
  apply bind_Ok_inv in Hbody as (entries & Hentries & Hbody).
  injection Hbody as <-. by exists gd, filedir, entries.
Qed.

(** X14. [load_existing_primersearch_results] finds again what the two
    PrimerSearch runs write. For a sample whose name holds no slash, every
    entry of the directory of its sequence file that is named as
    [primersearch] names the result against some target (whose name holds no
    slash either), and the entry named as [find_negative_target_products]
    names the negative-control result, is among the result files the sample
    is given, joined to the directory. *)
Theorem load_existing_finds_written_files
    (listdir : string → result (list string))
    (gdlist loaded : list GenomeData.t) (i : nat) (gd gd' : GenomeData.t)
    (filedir : string) (entries : list string) :
  load_existing_primersearch_results listdir gdlist = Ok loaded →
  gdlist !! i = Some gd → loaded !! i = Some gd' →
  seqfile_dir gd = Ok filedir → listdir filedir = Ok entries →
  PyStr.contains "/" (GenomeData.name gd) = false →
  (∀ target,
     PyStr.contains "/" target = false →
     pairwise_name (GenomeData.name gd) target ∈ entries →
     OsPath.join filedir (pairwise_name (GenomeData.name gd) target)
     ∈ GenomeData.primersearch_output gd')
  ∧ (control_name (GenomeData.name gd) ∈ entries →
     OsPath.join filedir (control_name (GenomeData.name gd))
     ∈ GenomeData.primersearch_output gd').
Proof.
  intros Hrun Hi Hi' Hdir Hentries Hslash.
  destruct (load_existing_lookup _ _ _ _ _ Hrun Hi')
    as (gd0 & d & es & Hgd0 & Hd & Hes & ->).
  rewrite Hi in Hgd0. injection Hgd0 as <-.
  rewrite Hdir in Hd. injection Hd as <-.
  rewrite Hentries in Hes. injection Hes as <-. simpl.
  split.
  - intros target Ht Hin. apply list_elem_of_fmap_2.
    apply elem_of_List_filter. split; [done|].
    apply andb_true_iff. split.
    + unfold pairwise_name. rewrite <- !str_app_assoc.
      rewrite splitext_primersearch.
      * done.
      * rewrite !contains_char_app, Hslash, Ht. done.
      * rewrite !all_char_app. by rewrite andb_false_r.
    + apply startswith_app.
  - intros Hin. apply list_elem_of_fmap_2.
    apply elem_of_List_filter. split; [done|].
    apply andb_true_iff. split.
    + unfold control_name.
      change "_negative_control.primersearch"
        with ("_negative_control" ++ ".primersearch").
      rewrite <- str_app_assoc, splitext_primersearch.
      * done.
      * rewrite contains_char_app, Hslash. done.
      * rewrite all_char_app. by rewrite andb_false_r.
    + apply startswith_app.
Qed.

Lemma load_existing_finds_written_files_witness :
  ∃ gd',
    Fixture.reloaded !! 0 = Some gd'
    ∧ OsPath.join "data" (pairwise_name "A" "AB")
      ∈ GenomeData.primersearch_output gd'
    ∧ OsPath.join "data" (control_name "A")
      ∈ GenomeData.primersearch_output gd'.
Proof.
  eexists. split; [vm_compute; reflexivity|].
  assert (H := load_existing_finds_written_files Fixture.listdir
                 Fixture.prefixed Fixture.reloaded 0 Sample.A_alone _
                 "data"
                 ["A.fas"; "AB.fas"; "A_vs_AB.primersearch";
                  "AB_vs_A.primersearch"; "A_negative_control.primersearch";
                  "notes.txt"]
                 eq_refl eq_refl eq_refl eq_refl eq_refl eq_refl).
  split.
  - apply (proj1 H "AB"); [reflexivity|by_evaluation].
  - apply (proj2 H). by_evaluation.
Defined.

(** X15. [load_existing_primersearch_results] selects files by name
    prefix, so a sample whose name is the beginning of another sample's
    name is given the other's result files as well: when the two sequence
    files lie in the same directory, every result file of the sample with
    the longer name is also one of the sample with the shorter name. *)
Theorem load_existing_prefix_clash
    (listdir : string → result (list string))
    (gdlist loaded : list GenomeData.t) (i j : nat)
    (short long short' long' : GenomeData.t) :
  load_existing_primersearch_results listdir gdlist = Ok loaded →
  gdlist !! i = Some short → gdlist !! j = Some long →
  loaded !! i = Some short' → loaded !! j = Some long' →
  seqfile_dir short = seqfile_dir long →
  PyStr.startswith (GenomeData.name short) (GenomeData.name long) = true →
  GenomeData.primersearch_output long'
  ⊆ GenomeData.primersearch_output short'.
Proof.
  intros Hrun Hi Hj Hi' Hj' Hsame Hprefix.
  destruct (load_existing_lookup _ _ _ _ _ Hrun Hi')
    as (gd1 & d1 & es1 & Hgd1 & Hd1 & Hes1 & ->).
  destruct (load_existing_lookup _ _ _ _ _ Hrun Hj')
    as (gd2 & d2 & es2 & Hgd2 & Hd2 & Hes2 & ->).
  rewrite Hi in Hgd1. injection Hgd1 as <-.
  rewrite Hj in Hgd2. injection Hgd2 as <-.
  rewrite Hsame, Hd2 in Hd1. injection Hd1 as <-.
  rewrite Hes2 in Hes1. injection Hes1 as <-. simpl.
  intros f (e & -> & He)%list_elem_of_fmap_1.
  apply list_elem_of_fmap_2.
  apply elem_of_List_filter in He as [Hin Htest].
  apply elem_of_List_filter. split; [done|].
  apply andb_true_iff in Htest as [Hext Hstart].
  apply andb_true_iff. split; [done|]. by eapply startswith_trans.
Qed.

Lemma load_existing_prefix_clash_witness :
  ∃ short' long',
    Fixture.reloaded !! 0 = Some short'
    ∧ Fixture.reloaded !! 1 = Some long'
    ∧ GenomeData.primersearch_output long' = ["data/AB_vs_A.primersearch"]
    ∧ GenomeData.primersearch_output long'
      ⊆ GenomeData.primersearch_output short'.
Proof.
  eexists. eexists. split; [vm_compute; reflexivity|].
  split; [vm_compute; reflexivity|]. split; [vm_compute; reflexivity|].
  apply (load_existing_prefix_clash Fixture.listdir Fixture.prefixed
           Fixture.reloaded 0 1 Sample.A_alone Fixture.AB_alone).
  - vm_compute. reflexivity.
  - reflexivity.
  - reflexivity.
  - vm_compute. reflexivity.
  - vm_compute. reflexivity.
  - vm_compute. reflexivity.
  - vm_compute. reflexivity.
Defined.

(** ** Cleaning up *)

Lemma rfind_char_drop (c : ascii) (s : string) (i : nat) :
  PyStr.rfind_char c s = Some i →
  PyStr.startswith (String c "") (PyStr.drop i s) = true.
Proof.
  revert i. induction s as [|a s IH]; intros i; [done|]. simpl.
  destruct (PyStr.rfind_char c s) as [j|].
  - intros [= <-]. by apply IH.
  - destruct (Ascii.eqb_spec a c) as [->|]; [|done]. intros [= <-].
    simpl. by rewrite Ascii.eqb_refl.
Qed.

(** The extension that [os.path.splitext] returns is empty or starts with
    a dot. *)
Lemma splitext_ext_shape (p : string) :
  (OsPath.splitext p).2 = ""
  ∨ PyStr.startswith "." (OsPath.splitext p).2 = true.
Proof.
  unfold OsPath.splitext.
  destruct (PyStr.rfind_char "." p) as [dot_index|] eqn:Hdot; [|by left].
  destruct (_ && _); [|by left]. right. by apply rfind_char_drop.
Qed.

(** X16. [clean_output] never deletes a file because of the entry
    ['primers'] of its extension list: an extension as [os.path.splitext]
    returns it is empty or starts with a dot. The files selected from a
    directory listing are those with extension [.eprimer3], [.prodigalout],
    [.primersearch] or [.xml]; a file with extension [.primers] (the
    PrimerSearch input that [write_primers] writes by default) is never
    among them. *)
Theorem clean_output_keeps_primers_files (entries : list string)
    (f : string) :
  (f ∈ clean_selection entries
   ↔ f ∈ entries
     ∧ (OsPath.splitext f).2
       ∈ [".eprimer3"; ".prodigalout"; ".primersearch"; ".xml"])
  ∧ ((OsPath.splitext f).2 = ".primers" → f ∉ clean_selection entries).
Proof.
  assert (Hiff : f ∈ clean_selection entries
                 ↔ f ∈ entries
                   ∧ (OsPath.splitext f).2
                     ∈ [".eprimer3"; ".prodigalout"; ".primersearch";
                        ".xml"]).
  { unfold clean_selection. rewrite elem_of_List_filter.
    rewrite bool_decide_eq_true. unfold cleaned_extensions.
    rewrite !elem_of_cons.
    destruct (splitext_ext_shape f) as [Hext|Hext].
    - rewrite Hext. split; intros [? H]; (split; [done|]).
      + destruct H as [H|[H|H]]; [by left|done|by right].
      + destruct H as [H|H]; [by left|by right; right].
    - split; intros [? H]; (split; [done|]).
      + destruct H as [H|[H|H]]; [by left| |by right].
        by rewrite H in Hext.
      + destruct H as [H|H]; [by left|by right; right]. }
  split; [exact Hiff|].
  intros Hext [_ Hin]%Hiff. rewrite Hext in Hin.
  repeat (apply elem_of_cons in Hin as [Hin|Hin]; [discriminate|]).
  by apply elem_of_nil in Hin.
Qed.

Lemma clean_output_keeps_primers_files_witness :
  ("A.primers" ∉ clean_selection Fixture.run_directory)
  ∧ clean_targets Sample.A_alone Fixture.run_directory
    = Ok ["data/A.eprimer3"; "data/A_vs_B.primersearch";
          "data/A_BLAST_output.xml"].
Proof.
  split.
  - apply (proj2 (clean_output_keeps_primers_files Fixture.run_directory
                    "A.primers")).
    vm_compute. reflexivity.
  - vm_compute. reflexivity.
Defined.

(** ** The names used by the BLAST screen *)

Lemma split_from_nonempty (sep : string) (skip : nat) (cur s : string) :
  PyStr.split_from sep skip cur s ≠ [].
Proof.
  revert skip cur. induction s as [|c s IH]; intros skip cur; [done|].
  simpl. destruct skip; [|apply IH].
  destruct (PyStr.startswith sep (String c s)); [done|apply IH].
Qed.

Lemma split_from_char (c a : ascii) (cur s : string) :
  PyStr.split_from (String c "") 0 cur (String a s)
  = if Ascii.eqb c a
    then PyStr.rev_onto "" cur :: PyStr.split_from (String c "") 0 "" s
    else PyStr.split_from (String c "") 0 (String a cur) s.
Proof.
  change (PyStr.split_from (String c "") 0 cur (String a s))
    with (if PyStr.startswith (String c "") (String a s)
          then PyStr.rev_onto "" cur
               :: PyStr.split_from (String c "") 0 "" s
          else PyStr.split_from (String c "") 0 (String a cur) s).
  rewrite startswith_cons, startswith_nil. by destruct (Ascii.eqb c a).
Qed.

Lemma str_join_cons (sep x : string) (l : list string) :
  l ≠ [] → str_join sep (x :: l) = x ++ sep ++ str_join sep l.
Proof. by destruct l. Qed.

Lemma removelast_cons {A} (x : A) (l : list A) :
  l ≠ [] → removelast (x :: l) = x :: removelast l.
Proof. by destruct l. Qed.

(** Joining the pieces of a split at a single character gives the string
    back. *)
Lemma join_split_char (c : ascii) (cur s : string) :
  str_join (String c "") (PyStr.split_from (String c "") 0 cur s)
  = PyStr.rev_onto "" cur ++ s.
Proof.
  revert cur. induction s as [|a s IH]; intros cur.
  - simpl. by rewrite str_app_nil_r.
  - rewrite split_from_char. destruct (Ascii.eqb_spec c a) as [->|Hne].
    + rewrite str_join_cons by apply split_from_nonempty.
      rewrite IH. done.
    + rewrite IH, rev_onto_snoc, str_app_assoc. done.
Qed.

(** Dropping the last piece drops what follows the last separator. *)
Lemma removelast_split_char (c : ascii) (cur n suffix : string) :
  PyStr.contains (String c "") suffix = false →
  removelast (PyStr.split_from (String c "") 0 cur
                (n ++ String c "" ++ suffix))
  = PyStr.split_from (String c "") 0 cur n.
Proof.
  intros Hs. revert cur. induction n as [|a n IH]; intros cur.
  - rewrite str_app_nil_l, str_app_cons, str_app_nil_l, split_from_char.
    rewrite Ascii.eqb_refl, (split_from_absent _ _ _ Hs). done.
  - rewrite str_app_cons, !split_from_char.
    destruct (Ascii.eqb c a); [|apply IH].
    rewrite removelast_cons by apply split_from_nonempty. by rewrite IH.
Qed.

(** X17. The primer name that [process_blastxml] reads back from a BLAST
    query identifier is the name under which [build_blast_input] wrote the
    sequence: for every primer name, dropping the last ['_']-separated piece
    of [name + '_' + suffix] gives [name] back when the suffix holds no
    underscore, as for the two identifiers [name + '_forward'] and
    [name + '_reverse']. *)
Theorem blast_query_round_trip (name suffix : string) :
  PyStr.contains "_" suffix = false →
  blast_query_primer (name ++ "_" ++ suffix) = name
  ∧ blast_query_primer (blast_query_ids name).1 = name
  ∧ blast_query_primer (blast_query_ids name).2 = name.
Proof.
  assert (H : ∀ sfx, PyStr.contains "_" sfx = false →
                     blast_query_primer (name ++ "_" ++ sfx) = name).
  { intros sfx Hs. unfold blast_query_primer, PyStr.split.
    rewrite (removelast_split_char "_" "" name sfx Hs).
    apply (join_split_char "_" "" name). }
  intros Hs. split_and!; [by apply H|apply (H "forward")|apply (H "reverse")];
    reflexivity.
Qed.

Lemma blast_query_round_trip_witness :
  blast_query_primer ("A_primer_0001" ++ "_" ++ "forward <unknown>")
  = "A_primer_0001"
  ∧ blast_query_primer (blast_query_ids "A_primer_0001").1 = "A_primer_0001"
  ∧ blast_query_primer (blast_query_ids "A_primer_0001").2 = "A_primer_0001".
Proof.
  apply (blast_query_round_trip "A_primer_0001" "forward <unknown>").
  reflexivity.
Defined.

(** ["_primer_"] does not match across the end of a name that holds no
    ["_primer"]. *)
Lemma primer_no_straddle (c : ascii) (q t : string) :
  PyStr.startswith "_primer" (String c q) = false →
  PyStr.startswith "_primer_" (String c q ++ "_primer_" ++ t) = false.
Proof.
  destruct q as [|c2 [|c3 [|c4 [|c5 [|c6 [|c7 q]]]]]]; startswith_cases.
Qed.

Lemma primer_first_match (q t : string) :
  PyStr.contains "_primer" q = false →
  no_match_within "_primer_" q ("_primer_" ++ t) = true.
Proof.
  induction q as [|c q IH]; [done|]. intros H.
  change (PyStr.contains "_primer" (String c q))
    with (PyStr.startswith "_primer" (String c q)
          || PyStr.contains "_primer" q) in H.
  apply orb_false_elim in H as [H1 H2].
  change (no_match_within "_primer_" (String c q) ("_primer_" ++ t))
    with (negb (PyStr.startswith "_primer_" (String c q ++ "_primer_" ++ t))
          && no_match_within "_primer_" q ("_primer_" ++ t)).
  by rewrite (primer_no_straddle _ _ _ H1), (IH H2).
Qed.

(** The owner that [parse_blast] reads from a primer name made by
    [load_primers]. *)
Lemma blast_owner_of_loaded (gd_name rest : string) :
  PyStr.contains "_primer" gd_name = false →
  blast_owner (gd_name ++ "_primer_" ++ rest) = gd_name.
Proof.
  intros H. unfold blast_owner.
  rewrite (split_first "primer_" "_" gd_name rest)
    by (by apply primer_first_match).
  done.
Qed.

Lemma list_find_NoDup (gdlist : list GenomeData.t) (i : nat)
    (gd : GenomeData.t) :
  NoDup (GenomeData.name <$> gdlist) → gdlist !! i = Some gd →
  list_find (λ gd', GenomeData.name gd' = GenomeData.name gd) gdlist
  = Some (i, gd).
Proof.
  intros Hnd Hi. apply list_find_Some. split_and!; [done..|].
  intros j gd' Hj Hlt Hname.
  assert (i = j); [|lia].
  eapply (NoDup_lookup _ _ _ _ Hnd); rewrite list_lookup_fmap.
  - by rewrite Hi.
  - rewrite Hj. simpl. by rewrite Hname.
Qed.

(** X18. [parse_blast] finds the sample of a primer from the primer's name.
    In a collection of distinct sample names, for a sample whose name holds
    no ["_primer"] and a primer it holds under a name made by
    [load_primers] (the sample name, ["_primer_"] and the number): the
    loop body returns the collection with [blastpass] set to [False] on
    that primer of that sample, and nothing else changed. *)
Theorem parse_blast_marks_owner (gdlist : list GenomeData.t) (i : nat)
    (gd : GenomeData.t) (primercount : nat) (p : Primer.t) :
  let name := GenomeData.name gd ++ "_primer_" ++ format_04d primercount in
  NoDup (GenomeData.name <$> gdlist) →
  gdlist !! i = Some gd →
  PyStr.contains "_primer" (GenomeData.name gd) = false →
  GenomeData.primers gd !! name = Some p →
  parse_blast_mark name gdlist
  = Ok (<[i := GenomeData.set_primers
                 (<[name := Primer.set_blastpass false p]>
                    (GenomeData.primers gd)) gd]> gdlist).
Proof.
  intros name Hnd Hi Hplain Hp. subst name. unfold parse_blast_mark.
  rewrite blast_owner_of_loaded by done.
  rewrite (list_find_NoDup _ _ _ Hnd Hi).
  unfold mark_blast_failure. rewrite Hp. done.
Qed.

Lemma parse_blast_marks_owner_witness :
  ∃ p,
    GenomeData.primers Fixture.B_alone !! "B_primer_0001" = Some p
    ∧ parse_blast_mark "B_primer_0001" Fixture.unscreened
      = Ok (<[1 := GenomeData.set_primers
                     (<["B_primer_0001" := Primer.set_blastpass false p]>
                        (GenomeData.primers Fixture.B_alone))
                     Fixture.B_alone]> Fixture.unscreened).
Proof.
  eexists. split; [vm_compute; reflexivity|].
  apply (parse_blast_marks_owner Fixture.unscreened 1 Fixture.B_alone 1).
  - by_evaluation.
  - reflexivity.
  - reflexivity.
  - vm_compute. reflexivity.
Defined.

(** ** Loading primers *)








(** ** The primer files of the report *)

Lemma str_app_inv_head (a b c : string) : a ++ b = a ++ c → b = c.
Proof.
  induction a as [|x a IH]; [done|]. rewrite !str_app_cons.
  intros [= H]. by apply IH.
Qed.

Lemma str_app_inv_tail (a b c : string) : a ++ c = b ++ c → a = b.
Proof.
  revert b. induction a as [|x a IH]; intros [|y b] H.
  - done.
  - apply (f_equal String.length) in H.
    rewrite str_app_nil_l, str_length_app in H. simpl in H. lia.
  - apply (f_equal String.length) in H.
    rewrite str_app_nil_l, str_length_app in H. simpl in H. lia.
  - rewrite !str_app_cons in H. injection H as -> H. f_equal. by apply IH.
Qed.

Lemma join_inj (a b b' : string) :
  PyStr.startswith "/" b = false → PyStr.startswith "/" b' = false →
  OsPath.join a b = OsPath.join a b' → b = b'.
Proof.
  intros Hb Hb'. unfold OsPath.join. rewrite Hb, Hb'.
  destruct (_ || _).
  - apply str_app_inv_head.
  - intros H%str_app_inv_head. by apply str_app_inv_head in H.
Qed.

Lemma contains_startswith (sub s : string) :
  PyStr.contains sub s = false → PyStr.startswith sub s = false.
Proof. destruct s; simpl; by intros [H _]%orb_false_elim. Qed.

Lemma startswith_slash_app (n sfx : string) :
  PyStr.startswith "/" n = false → PyStr.startswith "/" sfx = false →
  PyStr.startswith "/" (n ++ sfx) = false.
Proof. destruct n; [by rewrite str_app_nil_l|by rewrite str_app_cons]. Qed.

(** Two samples are given the same file only when they have the same
    name. *)
Lemma specific_filename_inj (options : Options) (n n' : string) :
  PyStr.startswith "/" n = false → PyStr.startswith "/" n' = false →
  specific_filename options n = specific_filename options n' → n = n'.
Proof.
  intros Hn Hn' H. unfold specific_filename in H.
  apply join_inj in H; [|by apply startswith_slash_app..].
  by apply str_app_inv_tail in H.
Qed.

Lemma family_filename_inj (options : Options) (f f' : string) :
  PyStr.startswith "/" f = false → PyStr.startswith "/" f' = false →
  family_filename options f = family_filename options f' → f = f'.
Proof.
  intros Hf Hf' H. unfold family_filename in H.
  apply join_inj in H; [|by apply startswith_slash_app..].
  by apply str_app_inv_tail in H.
Qed.

(** No sample is given the file of a family, or the universal export. *)
Lemma specific_not_family (options : Options) (n f : string) :
  specific_filename options n ≠ family_filename options f.
Proof.
  unfold specific_filename, family_filename. intros Heq.
  destruct (join_suffix (outdir options)
              (n ++ "_specific_primers.eprimer3")) as [x Hx].
  destruct (join_suffix (outdir options)
              (f ++ "_family-specific_primers.eprimer3")) as [y Hy].
  rewrite Hx, Hy in Heq. rewrite <- !str_app_assoc in Heq.
  apply (f_equal (PyStr.last_chars 26)) in Heq.
  rewrite !last_chars_app in Heq by (simpl; lia). discriminate.
Qed.

Lemma specific_not_universal (options : Options) (n : string) :
  specific_filename options n ≠ universal_filename options.
Proof.
  unfold specific_filename, universal_filename. intros Heq.
  destruct (join_suffix (outdir options)
              (n ++ "_specific_primers.eprimer3")) as [x Hx].
  destruct (join_suffix (outdir options) "universal_primers.eprimer3")
    as [y Hy].
  rewrite Hx, Hy in Heq. rewrite <- str_app_assoc in Heq.
  apply (f_equal (PyStr.last_chars 18)) in Heq.
  rewrite !last_chars_app in Heq by (simpl; lia). discriminate.
Qed.

(** One iteration of the report loop writes the file of the sample. *)
Lemma report_sample_files (options : Options) (blastfilter : bool)
    (gdlist : list GenomeData.t) (families : gmap string (gset string))
    (gd : GenomeData.t) (st st' : report_state) :
  report_sample options blastfilter gdlist families gd st = Ok st' →
  ∃ unique_primers,
    report_unique options blastfilter gd = Ok unique_primers
    ∧ files st'
      = <[specific_filename options (GenomeData.name gd) :=
            eprimer3_entries unique_primers
              (str_of_filename (GenomeData.seqfilename gd))]> (files st).
Proof.
  unfold report_sample. intros H.
  apply bind_Ok_inv in H as (unique_primers & Hu & H).
  apply bind_Ok_inv in H as (fams & _ & H).
  apply bind_Ok_inv in H as (fsp & _ & H).
  apply bind_Ok_inv in H as (universal & _ & H).
  injection H as <-. by exists unique_primers.
Qed.

Lemma report_loop_files_other (options : Options) (blastfilter : bool)
    (gdlist : list GenomeData.t) (families : gmap string (gset string))
    (l : list GenomeData.t) (st st' : report_state) (k : string) :
  for_each (report_sample options blastfilter gdlist families) l st
  = Ok st' →
  (∀ gd, gd ∈ l → specific_filename options (GenomeData.name gd) ≠ k) →
  files st' !! k = files st !! k.
Proof.
  revert st. induction l as [|gd l IH]; intros st H Hk.
  - simpl in H. by injection H as <-.
  - rewrite for_each_cons in H. apply bind_Ok_inv in H as (st1 & Hgd & H).
    apply report_sample_files in Hgd as (u & _ & Hfiles).
    rewrite (IH _ H) by (intros gd' Hin; apply Hk; by constructor).
    rewrite Hfiles. apply lookup_insert_ne. apply Hk. constructor.
Qed.

Lemma report_loop_files (options : Options) (blastfilter : bool)
    (gdlist : list GenomeData.t) (families : gmap string (gset string))
    (l : list GenomeData.t) (st st' : report_state) (gd : GenomeData.t) :
  for_each (report_sample options blastfilter gdlist families) l st
  = Ok st' →
  NoDup (GenomeData.name <$> l) →
  Forall (λ gd, PyStr.startswith "/" (GenomeData.name gd) = false) l →
  gd ∈ l →
  ∃ unique_primers,
    report_unique options blastfilter gd = Ok unique_primers
    ∧ files st' !! specific_filename options (GenomeData.name gd)
      = Some (eprimer3_entries unique_primers
                (str_of_filename (GenomeData.seqfilename gd))).
Proof.
  revert st. induction l as [|gd0 l IH]; intros st H Hnd Hslash Hin.
  - by apply elem_of_nil in Hin.
  - rewrite for_each_cons in H. apply bind_Ok_inv in H as (st1 & Hgd & H).
    rewrite fmap_cons in Hnd. apply NoDup_cons in Hnd as [Hfresh Hnd].
    apply Forall_cons in Hslash as [Hslash0 Hslash].
    destruct (decide (GenomeData.name gd = GenomeData.name gd0)) as [Hn|Hn].
    + apply elem_of_cons in Hin as [->|Hin].
      * apply report_sample_files in Hgd as (u & Hu & Hfiles).
        exists u. split; [done|].
        rewrite (report_loop_files_other _ _ _ _ _ _ _ _ H).
        -- rewrite Hfiles. apply lookup_insert_eq.
        -- intros gd' Hin' Heq. apply Hfresh.
           rewrite Forall_forall in Hslash.
           apply specific_filename_inj in Heq; [|by apply Hslash|done].
           rewrite <- Heq. by apply list_elem_of_fmap_2.
      * exfalso. apply Hfresh. rewrite <- Hn. by apply list_elem_of_fmap_2.
    + apply elem_of_cons in Hin as [->|Hin]; [done|]. by apply (IH st1).
Qed.

(** Writing the family files leaves every other file alone. *)
Lemma family_files_keep_other (options : Options)
    (items : list (string * list Primer.t)) (files : eprimer3_files)
    (k : string) :
  (∀ f, family_filename options f ≠ k) →
  foldl
    (λ acc fp,
       write_eprimer3 fp.2
         (OsPath.join (outdir options)
            (fp.1 ++ "_family-specific_primers.eprimer3"))
         "" false acc)
    files items !! k
  = files !! k.
Proof.
  intros Hk. revert files. induction items as [|[family primers] items IH];
    intros files; [done|].
  simpl. rewrite IH. unfold write_eprimer3.
  apply lookup_insert_ne. apply Hk.
Qed.

(** X20. The primer file of each sample. Files are told apart by the
    path handed to [open]; for sample names without a slash these are
    distinct entries of the output directory. When [write_report] returns
    for samples with distinct names, none of which holds a slash, the last
    write to the path of a sample's primer file is the one made for that
    sample: it lists the primers that the unique query of the report
    returns for the sample, numbered from 1 in the order of the query, with
    the sample's sequence file as source. Neither the write for another
    sample, nor one for a family file, nor the universal export goes to
    that path. *)
Theorem write_report_sample_files (options : Options)
    (gdlist : list GenomeData.t) (blastfilter : bool) (report : Report)
    (gd : GenomeData.t) :
  write_report options gdlist blastfilter = Ok report →
  NoDup (GenomeData.name <$> gdlist) →
  Forall (λ gd, PyStr.contains "/" (GenomeData.name gd) = false) gdlist →
  gd ∈ gdlist →
  ∃ unique_primers,
    report_unique options blastfilter gd = Ok unique_primers
    ∧ eprimer3_output report
      !! specific_filename options (GenomeData.name gd)
      = Some (eprimer3_entries unique_primers
                (str_of_filename (GenomeData.seqfilename gd))).
Proof.
  unfold write_report. intros H Hnd Hslash Hin.
  apply (Forall_impl _ (λ gd, PyStr.startswith "/" (GenomeData.name gd)
                              = false)) in Hslash;
    [|intros g; apply contains_startswith].
  apply bind_Ok_inv in H as (families & _ & H).
  apply bind_Ok_inv in H as (st & Hloop & H).
  apply bind_Ok_inv in H as (universal & _ & H). injection H as <-. simpl.
  destruct (report_loop_files _ _ _ _ _ _ _ gd Hloop Hnd Hslash Hin)
    as (u & Hu & Hfile).
  exists u. split; [done|].
  rewrite family_files_keep_other
    by (intros f Heq; by apply (specific_not_family options
                                  (GenomeData.name gd) f)).
  unfold write_eprimer3 at 1.
  rewrite lookup_insert_ne by (apply not_eq_sym, specific_not_universal).
  exact Hfile.
Qed.

Lemma write_report_sample_files_witness :
  ∃ report unique_primers,
    write_report Sample.plain_options Sample.classified false = Ok report
    ∧ report_unique Sample.plain_options false Fixture.B_classified
      = Ok unique_primers
    ∧ eprimer3_output report !! "out/B_specific_primers.eprimer3"
      = Some (eprimer3_entries unique_primers "data/B.fas")
    ∧ names unique_primers = ["B_primer_0001"].
Proof.
  destruct (write_report Sample.plain_options Sample.classified false)
    as [report|e] eqn:Hrun; [|by vm_compute in Hrun].
  destruct (write_report_sample_files Sample.plain_options
              Sample.classified false report Fixture.B_classified Hrun)
    as (u & Hu & Hfile).
  - by_evaluation.
  - by_evaluation.
  - apply list_elem_of_lookup. exists 1. vm_compute. reflexivity.
  - exists report, u. split; [reflexivity|]. split; [exact Hu|].
    split; [exact Hfile|].
    assert (Hb : result_map names
                   (report_unique Sample.plain_options false
                      Fixture.B_classified)
                 = Ok ["B_primer_0001"]) by (vm_compute; reflexivity).
    rewrite Hu in Hb. by injection Hb.
Defined.

(** ** The family files of the report *)

Lemma count_occ_pos_elem (fams : list string) (f : string) :
  0 < count_occ string_dec fams f ↔ f ∈ fams.
Proof. rewrite list_elem_of_In. symmetry. apply count_occ_In. Qed.

(** The loop of [write_report] over the families of one sample. *)
Lemma family_pool_loop (options : Options) (blastfilter : bool)
    (families : gmap string (gset string)) (gd : GenomeData.t)
    (fams : list string) (acc acc' : gmap string (list Primer.t))
    (f : string) :
  for_each
    (λ family acc,
       fup ← report_family_unique options blastfilter families gd family;
       Ok (<[family := (default [] (acc !! family) ++ fup)%list]> acc))
    fams acc = Ok acc' →
  match count_occ string_dec fams f with
  | 0 => acc' !! f = acc !! f
  | S n =>
      ∃ fup,
        report_family_unique options blastfilter families gd f = Ok fup
        ∧ acc' !! f
          = Some (default [] (acc !! f) ++ concat (replicate (S n) fup))%list
  end.
Proof.
  revert acc. induction fams as [|f0 fams IH]; intros acc H.
  - simpl in H. by injection H as <-.
  - rewrite for_each_cons in H. apply bind_Ok_inv in H as (acc1 & Hstep & H).
    apply bind_Ok_inv in Hstep as (fup0 & Hfup0 & Hstep).
    injection Hstep as <-. specialize (IH _ H). simpl count_occ.
    destruct (string_dec f0 f) as [->|Hne].
    + rewrite lookup_insert_eq in IH. simpl in IH.
      destruct (count_occ string_dec fams f) as [|n].
      * exists fup0. split; [done|]. rewrite IH. simpl.
        by rewrite app_nil_r.
      * destruct IH as (fup & Hfup & ->). exists fup. split; [done|].
        rewrite Hfup0 in Hfup. injection Hfup as ->.
        by rewrite <- app_assoc.
    + rewrite lookup_insert_ne in IH by done. exact IH.
Qed.

(** One iteration of the report loop adds the contribution of the sample
    to the primers collected for a family. *)
Lemma report_sample_pool (options : Options) (blastfilter : bool)
    (gdlist : list GenomeData.t) (families : gmap string (gset string))
    (gd : GenomeData.t) (st st' : report_state) (f : string) :
  report_sample options blastfilter gdlist families gd st = Ok st' →
  ∃ c,
    family_contribution options blastfilter families f gd c
    ∧ default [] (family_specific_primers st' !! f)
      = (default [] (family_specific_primers st !! f) ++ c)%list
    ∧ (is_Some (family_specific_primers st' !! f)
       ↔ is_Some (family_specific_primers st !! f)
         ∨ ∃ fams, GenomeData.families gd = Some fams ∧ f ∈ fams).
Proof.
  unfold report_sample. intros H.
  apply bind_Ok_inv in H as (unique_primers & _ & H).
  apply bind_Ok_inv in H as (fams & Hfams & H).
  apply bind_Ok_inv in H as (fsp & Hloop & H).
  apply bind_Ok_inv in H as (universal & _ & H).
  injection H as <-. simpl.
  destruct (GenomeData.families gd) as [fams'|] eqn:Hf; [|done].
  injection Hfams as ->.
  apply (family_pool_loop _ _ _ _ _ _ _ f) in Hloop.
  pose proof (count_occ_pos_elem fams f) as Hpos.
  destruct (count_occ string_dec fams f) as [|n] eqn:Hcount.
  - exists []. split_and!.
    + exists fams. split; [done|]. by rewrite Hcount.
    + by rewrite Hloop, app_nil_r.
    + rewrite Hloop. split; [by left|]. intros [H|(fams' & [= <-] & Hin)];
        [done|]. apply Hpos in Hin. lia.
  - destruct Hloop as (fup & Hfup & Hfsp).
    exists (concat (replicate (S n) fup)). split_and!.
    + exists fams. split; [done|]. rewrite Hcount. exists fup. by split.
    + by rewrite Hfsp.
    + rewrite Hfsp. split; [|by eexists]. intros _. right. exists fams.
      split; [done|]. apply Hpos. lia.
Qed.

Lemma report_loop_pool (options : Options) (blastfilter : bool)
    (gdlist : list GenomeData.t) (families : gmap string (gset string))
    (l : list GenomeData.t) (st st' : report_state) (f : string) :
  for_each (report_sample options blastfilter gdlist families) l st
  = Ok st' →
  ∃ contributions,
    Forall2 (family_contribution options blastfilter families f)
      l contributions
    ∧ default [] (family_specific_primers st' !! f)
      = (default [] (family_specific_primers st !! f)
         ++ concat contributions)%list
    ∧ (is_Some (family_specific_primers st' !! f)
       ↔ is_Some (family_specific_primers st !! f)
         ∨ ∃ gd fams, gd ∈ l ∧ GenomeData.families gd = Some fams
                      ∧ f ∈ fams).
Proof.
  revert st. induction l as [|gd l IH]; intros st H.
  - simpl in H. injection H as <-. exists []. split_and!; [done| |].
    + by rewrite app_nil_r.
    + split; [by left|]. intros [H|(gd & fams & Hin & _)]; [done|].
      by apply elem_of_nil in Hin.
  - rewrite for_each_cons in H. apply bind_Ok_inv in H as (st1 & Hgd & H).
    apply (report_sample_pool _ _ _ _ _ _ _ f) in Hgd as (c & Hc & Hst1 & Hk1).
    apply IH in H as (cs & Hcs & Hst' & Hk).
    exists (c :: cs). split_and!.
    + by constructor.
    + rewrite Hst', Hst1. simpl. by rewrite <- app_assoc.
    + rewrite Hk, Hk1. split.
      * intros [[H|(fams & Hf & Hin)]|(gd' & fams & Hin & Hf & Hfin)].
        -- by left.
        -- right. exists gd, fams. split_and!; [constructor|done..].
        -- right. exists gd', fams. split_and!; [by constructor|done..].
      * intros [H|(gd' & fams & Hin & Hf & Hfin)]; [by left; left|].
        apply elem_of_cons in Hin as [->|Hin].
        -- left. right. by exists fams.
        -- right. by exists gd', fams.
Qed.

(** Each family file holds the primers collected for its family, when no
    two families share a file. *)
Lemma family_files_written (options : Options)
    (items : list (string * list Primer.t)) (files : eprimer3_files)
    (f : string) (primers : list Primer.t) :
  NoDup items.*1 →
  (f, primers) ∈ items →
  (∀ f' ps, (f', ps) ∈ items →
            family_filename options f' = family_filename options f →
            f' = f) →
  foldl
    (λ acc fp,
       write_eprimer3 fp.2
         (OsPath.join (outdir options)
            (fp.1 ++ "_family-specific_primers.eprimer3"))
         "" false acc)
    files items !! family_filename options f
  = Some (eprimer3_entries primers "").
Proof.
  revert files. induction items as [|[f0 p0] items IH];
    intros files Hnd Hin Hinj.
  - by apply elem_of_nil in Hin.
  - rewrite fmap_cons in Hnd. apply NoDup_cons in Hnd as [Hfresh Hnd].
    simpl foldl.
    apply elem_of_cons in Hin as [[= <- <-]|Htail].
    2:{ apply IH; [done..|]. intros f' ps Hin'. apply (Hinj f' ps).
        by constructor. }
    + clear IH.
      assert (Hkeep : ∀ fs : eprimer3_files,
                foldl
                  (λ acc fp,
                     write_eprimer3 fp.2
                       (OsPath.join (outdir options)
                          (fp.1 ++ "_family-specific_primers.eprimer3"))
                       "" false acc)
                  fs items !! family_filename options f
                = fs !! family_filename options f).
      { revert Hfresh Hinj. clear. induction items as [|[f1 p1] items IH];
          intros Hfresh Hinj fs; [done|].
        simpl foldl. rewrite IH.
        - unfold write_eprimer3. apply lookup_insert_ne. intros Heq.
          apply Hfresh. simpl.
          rewrite (Hinj f1 p1) at 1;
            [constructor|apply list_elem_of_further; constructor|done].
        - intros Hin. apply Hfresh. simpl. by constructor.
        - intros f' ps Hin. apply (Hinj f' ps).
          apply elem_of_cons in Hin as [->|Hin]; [constructor|].
          by do 2 constructor. }
      rewrite Hkeep. unfold write_eprimer3. apply lookup_insert_eq.
Qed.

(** X21. The primer file of each family. Files are told apart by the
    path handed to [open]; for family names without a slash these are
    distinct entries of the output directory. When [write_report] returns
    and no family name holds a slash, the last write to the path of the
    file of a family listed by some sample holds the primers collected for
    that family: sample after sample in the order of the collection, what
    the family-unique query of the report returns for the sample, once for
    each time the sample lists the family; samples that do not list the
    family contribute nothing. The primers are numbered from 1 through the
    whole file. *)
Theorem write_report_family_files (options : Options)
    (gdlist : list GenomeData.t) (blastfilter : bool) (report : Report)
    (family : string) :
  write_report options gdlist blastfilter = Ok report →
  (∀ gd fams f, gd ∈ gdlist → GenomeData.families gd = Some fams →
                f ∈ fams → PyStr.contains "/" f = false) →
  (∃ gd fams, gd ∈ gdlist ∧ GenomeData.families gd = Some fams
              ∧ family ∈ fams) →
  ∃ families contributions,
    build_families gdlist = Ok families
    ∧ Forall2 (family_contribution options blastfilter families family)
        gdlist contributions
    ∧ eprimer3_output report !! family_filename options family
      = Some (eprimer3_entries (concat contributions) "").
Proof.
  unfold write_report. intros H Hslash Hmember.
  apply bind_Ok_inv in H as (families & Hfam & H).
  apply bind_Ok_inv in H as (st & Hloop & H).
  apply bind_Ok_inv in H as (universal & _ & H). injection H as <-. simpl.
  destruct (report_loop_pool _ _ _ _ _ _ _ family Hloop)
    as (cs & Hcs & Hpool & Hkey).
  exists families, cs. split_and!; [done..|].
  assert (Hsome : is_Some (family_specific_primers st !! family))
    by (apply Hkey; by right).
  destruct Hsome as [primers Hprimers].
  rewrite Hprimers in Hpool.
  change (family_specific_primers report_start)
    with (∅ : gmap string (list Primer.t)) in Hpool.
  rewrite lookup_empty in Hpool. simpl in Hpool. rewrite <- Hpool.
  apply family_files_written.
  - apply NoDup_fst_map_to_list.
  - by apply elem_of_map_to_list.
  - intros f' ps Hin Heq. apply elem_of_map_to_list in Hin.
    destruct (report_loop_pool _ _ _ _ _ _ _ f' Hloop) as (_ & _ & _ & Hk').
    assert (Hs : is_Some (family_specific_primers st !! f'))
      by (exists ps; exact Hin).
    destruct (proj1 Hk' Hs)
      as [[? H]|(gd' & fams' & Hgd' & Hf' & Hin')];
      [by vm_compute in H|].
    destruct Hmember as (gd & fams & Hgd & Hf & Hfin).
    apply (family_filename_inj options f' family); [| |exact Heq].
    + exact (contains_startswith _ _ (Hslash gd' fams' f' Hgd' Hf' Hin')).
    + exact (contains_startswith _ _ (Hslash gd fams family Hgd Hf Hfin)).
Qed.

Lemma write_report_family_files_witness :
  ∃ report families contributions,
    write_report Sample.plain_options Fixture.mutual false = Ok report
    ∧ build_families Fixture.mutual = Ok families
    ∧ Forall2 (family_contribution Sample.plain_options false families "F1")
        Fixture.mutual contributions
    ∧ eprimer3_output report !! "out/F1_family-specific_primers.eprimer3"
      = Some (eprimer3_entries (concat contributions) "")
    ∧ names (concat contributions) = ["A_primer_0001"; "B_primer_0001"].
Proof.
  destruct (write_report Sample.plain_options Fixture.mutual false)
    as [report|e] eqn:Hrun; [|by vm_compute in Hrun].
  destruct (write_report_family_files Sample.plain_options
              Fixture.mutual false report "F1" Hrun)
    as (families & cs & Hfam & Hcs & Hfile).
  - intros gd fams f Hin Hfams Hf.
    assert (Hall : Forall (λ gd, GenomeData.families gd = Some ["F1"])
                     Fixture.mutual) by by_evaluation.
    rewrite Forall_forall in Hall. rewrite (Hall gd Hin) in Hfams.
    injection Hfams as <-. apply list_elem_of_singleton in Hf as ->.
    reflexivity.
  - exists Fixture.B_mutual, ["F1"]. split_and!.
    + apply list_elem_of_lookup. exists 1. vm_compute. reflexivity.
    + reflexivity.
    + constructor.
  - exists report, families, cs. split; [reflexivity|].
    split; [exact Hfam|]. split; [exact Hcs|]. split; [exact Hfile|].
    assert (Hw : result_map
                   (λ r, names
                           (entry_primer
                            <$> default []
                                  (eprimer3_output r
                                   !! family_filename Sample.plain_options
                                        "F1")))
                   (write_report Sample.plain_options Fixture.mutual false)
                 = Ok ["A_primer_0001"; "B_primer_0001"])
      by (vm_compute; reflexivity).
    rewrite Hrun in Hw. simpl in Hw. rewrite Hfile in Hw. simpl in Hw.
    unfold eprimer3_entries in Hw. rewrite entries_primers in Hw.
    by injection Hw.
Defined.

(** ** The configuration file *)

Lemma lines_from_cons (cur : string) (after_cr : bool) (c : ascii)
    (rest : string) :
  Config.lines_from cur after_cr (String c rest)
  = if Ascii.eqb c "010" then
      if after_cr then Config.lines_from "" false rest
      else PyStr.rev_onto "" (String "010" cur)
           :: Config.lines_from "" false rest
    else if Ascii.eqb c "013" then
      PyStr.rev_onto "" (String "010" cur) :: Config.lines_from "" true rest
    else Config.lines_from (String c cur) false rest.
Proof. reflexivity. Qed.

Lemma no_eol_cons (c : ascii) (s : string) :
  Config.no_eol (String c s) = true →
  Ascii.eqb c "010" = false ∧ Ascii.eqb c "013" = false
  ∧ Config.no_eol s = true.
Proof.
  unfold Config.no_eol, Config.nl. rewrite !contains_char_cons.
  rewrite !negb_orb, !andb_true_iff, !negb_true_iff.
  rewrite (Ascii.eqb_sym c "010"), (Ascii.eqb_sym c "013"). tauto.
Qed.

Lemma no_eol_app (a b : string) :
  Config.no_eol (a ++ b) = Config.no_eol a && Config.no_eol b.
Proof.
  unfold Config.no_eol, Config.nl. rewrite !contains_char_app.
  destruct (PyStr.contains _ a), (PyStr.contains _ b),
    (PyStr.contains _ a), (PyStr.contains _ b); reflexivity.
Qed.

(** A line without line end, followed by a line feed, is read as one
    line. *)
Lemma lines_from_line (a cur rest : string) :
  Config.no_eol a = true →
  Config.lines_from cur false (a ++ Config.nl ++ rest)
  = (PyStr.rev_onto "" cur ++ a ++ Config.nl)
    :: Config.lines_from "" false rest.
Proof.
  revert cur. induction a as [|c a IH]; intros cur Ha.
  - rewrite !str_app_nil_l. unfold Config.nl at 1.
    rewrite str_app_cons, str_app_nil_l, lines_from_cons.
    change (Ascii.eqb "010" "010") with true. cbv iota.
    by rewrite rev_onto_snoc.
  - apply no_eol_cons in Ha as (Hnl & Hcr & Ha).
    rewrite str_app_cons, lines_from_cons, Hnl, Hcr, (IH _ Ha).
    by rewrite rev_onto_snoc, !str_app_assoc.
Qed.

Lemma file_lines_line (a rest : string) :
  Config.no_eol a = true →
  Config.file_lines (a ++ Config.nl ++ rest)
  = (a ++ Config.nl) :: Config.file_lines rest.
Proof. intros Ha. unfold Config.file_lines. by rewrite lines_from_line. Qed.

(** Lines joined by line feeds are read back one by one. *)
Lemma file_lines_join (ls : list string) (rest : string) :
  ls ≠ [] → Forall (λ l, Config.no_eol l = true) ls →
  Config.file_lines (str_join Config.nl ls ++ Config.nl ++ rest)
  = (((λ l, (l ++ Config.nl)%string) <$> ls)
     ++ Config.file_lines rest)%list.
Proof.
  induction ls as [|l ls IH]; [done|]. intros _ Hall.
  apply Forall_cons in Hall as [Hl Hall]. destruct ls as [|l' ls].
  - simpl str_join. by rewrite file_lines_line.
  - rewrite str_join_cons by done. rewrite !str_app_assoc.
    rewrite (file_lines_line l) by done. rewrite IH by done. done.
Qed.

Lemma file_lines_rows (row : string → string) (fs : list string) :
  Forall (λ f, Config.no_eol (row f) = true) fs →
  Config.file_lines
    (foldr (λ f text, row f ++ Config.nl ++ text) "" fs)
  = (λ f, row f ++ Config.nl) <$> fs.
Proof.
  induction fs as [|f fs IH]; intros Hall; [done|].
  apply Forall_cons in Hall as [Hf Hall]. simpl foldr.
  rewrite (file_lines_line _ _ Hf), IH by done. done.
Qed.

Lemma lstrip_length (s : string) :
  String.length (Config.lstrip s) ≤ String.length s.
Proof.
  induction s as [|c s IH]; [done|]. simpl.
  destruct (Config.is_space c); simpl; lia.
Qed.

Lemma rstrip_length (s : string) :
  String.length (Config.rstrip s) ≤ String.length s.
Proof.
  induction s as [|c s IH]; [done|]. simpl.
  destruct (Config.rstrip s); [destruct (Config.is_space c)|];
    simpl in *; lia.
Qed.

(** A string that [strip] leaves as it is starts with no white space. *)
Lemma strip_fixed_lstrip (s : string) :
  Config.strip s = s → Config.lstrip s = s.
Proof.
  destruct s as [|c s]; [done|]. intros H. simpl.
  destruct (Config.is_space c) eqn:Hc; [|done]. exfalso.
  apply (f_equal String.length) in H. unfold Config.strip in H.
  simpl in H. rewrite Hc in H.
  pose proof (rstrip_length (Config.lstrip s)).
  pose proof (lstrip_length s). lia.
Qed.

Lemma strip_fixed_rstrip (s : string) :
  Config.strip s = s → Config.rstrip s = s.
Proof.
  intros H. pose proof (strip_fixed_lstrip s H) as Hl.
  unfold Config.strip in H. by rewrite Hl in H.
Qed.

Lemma lstrip_app (s t : string) :
  s ≠ "" → Config.lstrip s = s → Config.lstrip (s ++ t) = s ++ t.
Proof.
  destruct s as [|c s]; [done|]. intros _ H. rewrite str_app_cons.
  simpl in *. destruct (Config.is_space c); [|done]. exfalso.
  apply (f_equal String.length) in H. pose proof (lstrip_length s).
  simpl in H. lia.
Qed.

Lemma rstrip_app (a b : string) :
  Config.rstrip b ≠ "" → Config.rstrip (a ++ b) = a ++ Config.rstrip b.
Proof.
  intros Hb. induction a as [|c a IH]; [done|].
  rewrite !str_app_cons. simpl. rewrite IH.
  destruct (a ++ Config.rstrip b) eqn:Hab; [|done].
  destruct a; [|discriminate]. by rewrite str_app_nil_l in Hab.
Qed.

(** A line that starts with a column free of white space at its ends and
    ends with a dash is stripped of its line feed and nothing else. *)
Lemma strip_line (s z : string) :
  s ≠ "" → Config.strip s = s →
  Config.strip (s ++ z ++ "-" ++ Config.nl) = s ++ z ++ "-"
  ∧ Config.strip (s ++ z ++ "-") = s ++ z ++ "-".
Proof.
  intros Hs Hfix. pose proof (strip_fixed_lstrip s Hfix) as Hl.
  unfold Config.strip. rewrite !lstrip_app by done.
  rewrite <- !str_app_assoc. split.
  - rewrite (str_app_assoc (s ++ z)). by rewrite rstrip_app.
  - by rewrite rstrip_app.
Qed.

(** Splitting at a character cuts at its first occurrence. *)
Lemma split_char_first (c : ascii) (a rest : string) :
  PyStr.contains (String c "") a = false →
  PyStr.split (String c "") (a ++ String c "" ++ rest)
  = a :: PyStr.split (String c "") rest.
Proof.
  intros Ha. unfold PyStr.split.
  assert (H : ∀ cur,
            PyStr.split_from (String c "") 0 cur (a ++ String c "" ++ rest)
            = (PyStr.rev_onto "" cur ++ a)
              :: PyStr.split_from (String c "") 0 "" rest);
    [|by rewrite H].
  induction a as [|x a IH]; intros cur.
  - rewrite str_app_nil_l, str_app_cons, str_app_nil_l, split_from_char.
    by rewrite Ascii.eqb_refl, str_app_nil_r.
  - rewrite contains_char_cons in Ha.
    apply orb_false_elim in Ha as [Hx Ha].
    rewrite str_app_cons, split_from_char, Hx, (IH Ha).
    by rewrite rev_onto_snoc, str_app_assoc.
Qed.

Lemma plain_field_inv (s : string) :
  Config.plain_field s = true →
  s ≠ "" ∧ Config.strip s = s
  ∧ PyStr.contains Config.tab s = false ∧ Config.no_eol s = true.
Proof.
  unfold Config.plain_field.
  rewrite !andb_true_iff, !negb_true_iff.
  intros [[[Hne Hstrip] Htab] Heol].
  apply String.eqb_neq in Hne. apply String.eqb_eq in Hstrip. done.
Qed.

(** The columns read back from a line written by [write_config_file]. *)
Lemma fields_of_row (filename : string) :
  Config.plain_file filename = true →
  Config.strip (Config.config_row filename ++ Config.nl)
  = Config.config_row filename
  ∧ Config.fields (Config.config_row filename)
    = [Config.fstem filename; Config.fstem filename; filename;
       "-"; "-"; "-"].
Proof.
  unfold Config.plain_file. rewrite !andb_true_iff.
  intros [[Hf Hstem] _].
  apply plain_field_inv in Hf as (Hf1 & Hf2 & Hf3 & _).
  apply plain_field_inv in Hstem as (Hs1 & Hs2 & Hs3 & _).
  set (stem := Config.fstem filename) in *.
  assert (Hrow : Config.config_row filename
                 = stem ++ (Config.tab ++ stem ++ Config.tab ++ filename
                            ++ Config.tab ++ "-" ++ Config.tab ++ "-"
                            ++ Config.tab) ++ "-").
  { unfold Config.config_row. fold stem. simpl str_join.
    by rewrite !str_app_assoc. }
  split.
  - rewrite Hrow.
    rewrite (str_app_assoc stem), (str_app_assoc _ "-" Config.nl).
    apply (strip_line stem _ Hs1 Hs2).
  - unfold Config.fields.
    rewrite Hrow at 1.
    rewrite (proj2 (strip_line stem _ Hs1 Hs2)).
    rewrite !str_app_assoc. unfold Config.tab in *.
    rewrite (split_char_first "009" stem) by done.
    rewrite (split_char_first "009" stem) by done.
    rewrite (split_char_first "009" filename) by done.
    rewrite (split_char_first "009" "-") by done.
    rewrite (split_char_first "009" "-") by done.
    rewrite split_absent by done.
    rewrite !fmap_cons, Hs2, Hf2. simpl List.filter.
    apply String.eqb_neq in Hs1, Hf1. rewrite Hs1, Hf1. done.
Qed.

Lemma List_filter_all {A} (f : A → bool) (l : list A) :
  Forall (λ x, f x = true) l → List.filter f l = l.
Proof.
  induction 1 as [|x l Hx _ IH]; [done|]. simpl. by rewrite Hx, IH.
Qed.

Lemma List_filter_nothing {A} (f : A → bool) (l : list A) :
  Forall (λ x, f x = false) l → List.filter f l = [].
Proof. induction 1 as [|x l Hx _ IH]; [done|]. simpl. by rewrite Hx. Qed.

Lemma List_filter_skip {A} (f : A → bool) (x : A) (l : list A) :
  f x = false → List.filter f (x :: l) = List.filter f l.
Proof. intros H. simpl. by rewrite H. Qed.

Lemma startswith_char_app (c : ascii) (s t : string) :
  s ≠ "" →
  PyStr.startswith (String c "") (s ++ t) = PyStr.startswith (String c "") s.
Proof.
  destruct s as [|x s]; [done|]. intros _.
  by rewrite str_app_cons, !startswith_cons, !startswith_nil.
Qed.

(** One goal for each element of a list given by its elements. *)
Ltac Forall_each :=
  repeat match goal with
         | |- Forall _ (_ :: _) => constructor
         | |- Forall _ [] => constructor
         end.

Lemma header_lines_no_eol (asctime : string) :
  Config.no_eol asctime = true →
  Forall (λ l, Config.no_eol l = true) (Config.header_lines asctime).
Proof.
  intros Ha. unfold Config.header_lines. Forall_each; try reflexivity.
  by rewrite no_eol_app, Ha.
Qed.

(** Every line of the header is a comment for [create_gd_from_config]. *)
Lemma header_lines_skipped (asctime : string) :
  List.filter
    (λ l, negb (String.eqb (Config.strip l) "")
          && negb (PyStr.startswith "#" l))
    ((λ l, l ++ Config.nl) <$> Config.header_lines asctime)
  = [].
Proof.
  apply List_filter_nothing. unfold Config.header_lines.
  rewrite !fmap_cons, fmap_nil.
  Forall_each; apply andb_false_intro2; reflexivity.
Qed.

Lemma config_row_no_eol (filename : string) :
  Config.plain_file filename = true →
  Config.no_eol (Config.config_row filename) = true.
Proof.
  unfold Config.plain_file. rewrite !andb_true_iff.
  intros [[Hf Hstem] _].
  apply plain_field_inv in Hf as (_ & _ & _ & Hf).
  apply plain_field_inv in Hstem as (_ & _ & _ & Hs).
  unfold Config.config_row. simpl str_join.
  rewrite !no_eol_app, Hf, Hs. reflexivity.
Qed.

(** The lines of a file written by [write_config_file] that are read as
    data are the lines written for the FASTA files. *)
Lemma data_lines_written (asctime : string) (fasta_files : list string) :
  Config.no_eol asctime = true →
  Forall (λ f, Config.plain_file f = true) fasta_files →
  Config.data_lines
    (Config.file_lines (Config.write_config_file asctime fasta_files))
  = Config.config_row <$> fasta_files.
Proof.
  intros Ha Hfiles. unfold Config.write_config_file.
  rewrite (str_app_assoc _ (Config.nl ++ Config.nl)), (str_app_assoc Config.nl).
  rewrite file_lines_join;
    [|done|by apply header_lines_no_eol].
  rewrite <- (str_app_nil_l (Config.nl ++ foldr _ _ _)).
  rewrite (file_lines_line "") by done.
  rewrite (file_lines_rows Config.config_row).
  2:{ eapply Forall_impl; [exact Hfiles|]. apply config_row_no_eol. }
  unfold Config.data_lines.
  rewrite List.filter_app, header_lines_skipped, app_nil_l.
  rewrite List_filter_skip by reflexivity.
  rewrite List_filter_all.
  - rewrite <- list_fmap_compose. apply Forall_fmap_ext.
    eapply Forall_impl; [exact Hfiles|]. intros f Hf. unfold compose.
    apply (proj1 (fields_of_row f Hf)).
  - apply Forall_fmap. eapply Forall_impl; [exact Hfiles|].
    intros f Hf. unfold compose. cbv beta.
    rewrite (proj1 (fields_of_row f Hf)).
    unfold Config.plain_file in Hf. rewrite !andb_true_iff in Hf.
    destruct Hf as [[_ Hstem] Hhash].
    apply plain_field_inv in Hstem as (Hs1 & _).
    assert (Hrow : Config.config_row f
                   = Config.fstem f
                     ++ Config.tab ++ Config.fstem f ++ Config.tab ++ f
                     ++ Config.tab ++ "-" ++ Config.tab ++ "-"
                     ++ Config.tab ++ "-") by reflexivity.
    rewrite Hrow, str_app_assoc, startswith_char_app by done.
    rewrite Hhash, andb_true_r. apply negb_true_iff, String.eqb_neq.
    destruct (Config.fstem f); [done|]. by rewrite str_app_cons.
Qed.

(** X22. The configuration file that [build_config_file.py] writes is read
    back by [create_gd_from_config] as one sample per FASTA file, in the
    order of the files: the name of the sample and its family column are the
    stem of the file name, the sequence file is the file, and the feature,
    primer and PrimerSearch files are unset. This holds when the time stamp
    holds no line end, every sequence file loads, and each file name and its
    stem are not empty, hold no tabulation or line end and no white space at
    their ends, and the stem does not start with [#]. *)
Theorem config_round_trip (load_sequence : string → option Config.failure)
    (asctime : string) (fasta_files : list string) :
  Config.no_eol asctime = true →
  Forall (λ f, Config.plain_file f = true) fasta_files →
  Forall (λ f, load_sequence f = None) fasta_files →
  Config.create_gd_from_config load_sequence
    (Config.file_lines (Config.write_config_file asctime fasta_files))
  = inr ((λ f, Config.GenomeData_init (Config.fstem f) (Config.fstem f) f
                 "-" "-" "-")
         <$> fasta_files).
Proof.
  intros Ha Hfiles Hload. unfold Config.create_gd_from_config.
  rewrite data_lines_written by done.
  induction fasta_files as [|f fs IH]; [done|].
  apply Forall_cons in Hfiles as [Hf Hfiles].
  apply Forall_cons in Hload as [Hl Hload].
  rewrite !fmap_cons. simpl Config.create_all.
  rewrite (IH Hfiles Hload). unfold Config.create_gd.
  rewrite (proj2 (fields_of_row f Hf)). simpl.
  unfold Config.dash_to_None at 1.
  destruct (String.eqb f "-"); [done|]. by rewrite Hl.
Qed.

Lemma config_round_trip_witness :
  Config.create_gd_from_config (λ _, None)
    (Config.file_lines
       (Config.write_config_file "Sat Jun  6 16:26:11 1998"
          ["genomes/A.fas"; "genomes/B.1.fasta"]))
  = inr [Config.GenomeData_init "A" "A" "genomes/A.fas" "-" "-" "-";
         Config.GenomeData_init "B.1" "B.1" "genomes/B.1.fasta" "-" "-" "-"].
Proof.
  apply (config_round_trip (λ _, None) "Sat Jun  6 16:26:11 1998"
           ["genomes/A.fas"; "genomes/B.1.fasta"]).
  - reflexivity.
  - repeat constructor.
  - repeat constructor.
Defined.

(** ** Switching on more filters *)

Lemma flags_pass_mono (options : Options) (c o b c' o' b' : bool)
    (p : Primer.t) :
  implb c c' = true → implb o o' = true → implb b b' = true →
  flags_pass options c' o' b' p = true → flags_pass options c o b p = true.
Proof.
  unfold flags_pass. rewrite !andb_true_iff.
  destruct c, c', o, o', b, b'; simpl; try done; tauto.
Qed.

(** X23. Switching on more of the CDS, oligo and BLAST filters of a query
    only removes primers, and never makes a query fail that returned with
    fewer: when a query returns a list with some of the three switches on,
    the same query with these and further switches on returns that list
    without the primers that fail one of the required flags, in the same
    order. This holds for the three queries and with or without the
    single-product filter. *)
Theorem stricter_query_filters_result (options : Options)
    (self : GenomeData.t) (q : query) (c o b c' o' b' : bool)
    (l : list Primer.t) :
  implb c c' = true → implb o o' = true → implb b b' = true →
  run_query options self q c o b = Ok l →
  run_query options self q c' o' b'
  = Ok (List.filter (flags_pass options c' o' b') l).
Proof.
  intros Hc Ho Hb. rewrite !run_query_stages.
  generalize (List.filter (base_predicate self q) (GenomeData.values self)).
  intros base. unfold filter_stages. rewrite !flag_stages_mask.
  assert (Hmono : ∀ p, flags_pass options c' o' b' p
                       = flags_pass options c o b p
                         && flags_pass options c' o' b' p).
  { intros p. destruct (flags_pass options c' o' b' p) eqn:Hp.
    - by rewrite (flags_pass_mono _ _ _ _ _ _ _ _ Hc Ho Hb Hp).
    - by rewrite andb_false_r. }
  destruct (single_product_active options).
  - destruct (unscanned_dichotomy
                (List.filter (flags_pass options c o b) base))
      as [Hex|Hall].
    + by rewrite single_product_stage_raise.
    + rewrite single_product_stage_ok by done. intros [= <-].
      rewrite single_product_stage_ok.
      * f_equal. rewrite !List_filter_twice.
        apply List_filter_ext_elem. intros p _. rewrite (Hmono p).
        destruct (flags_pass options c o b p),
          (flags_pass options c' o' b' p), (one_product p); reflexivity.
      * intros p [Hin Hp]%elem_of_List_filter. apply Hall.
        apply elem_of_List_filter. split; [done|].
        by apply (flags_pass_mono _ _ _ _ _ _ _ _ Hc Ho Hb).
  - intros [= <-]. f_equal. rewrite List_filter_twice.
    apply List_filter_ext_elem. intros p _. apply Hmono.
Qed.

Lemma stricter_query_filters_result_witness :
  ∃ l,
    run_query Sample.plain_options Sample.A_classified (universal 1)
      false false false = Ok l
    ∧ Primer.name <$> l = ["A_primer_0001"]
    ∧ run_query Sample.plain_options Sample.A_classified (universal 1)
        true false true
      = Ok (List.filter (flags_pass Sample.plain_options true false true) l).
Proof.
  eexists. split; [vm_compute; reflexivity|].
  split; [vm_compute; reflexivity|].
  apply (stricter_query_filters_result Sample.plain_options
           Sample.A_classified (universal 1) false false false
           true false true).
  - reflexivity.
  - reflexivity.
  - reflexivity.
  - vm_compute. reflexivity.
Defined.

(** ** When the matrix builder returns *)

Lemma update_each_total {A} (body : A → result A) (l : list A) :
  Forall (λ x, ∃ y, body x = Ok y) l ↔ ∃ l', update_each body l = Ok l'.
Proof.
  induction l as [|x l IH]; simpl.
  - split; [by eexists|constructor].
  - split.
    + intros [[y Hy] [l' Hl']%IH]%Forall_cons. exists (y :: l').
      by rewrite Hy, bind_Ok, Hl', bind_Ok.
    + intros [l' H]. apply bind_Ok_inv in H as (y & Hy & H).
      apply bind_Ok_inv in H as (r & Hr & _). constructor; [by eexists|].
      apply IH. by eexists.
Qed.

(** Whether a file applies depends on the names of the sample's primers
    only. *)
Lemma file_applies_names (fs : gmap string PrimerSearch.OutputRecord)
    (gddict : gmap string GenomeData.t) (gd gd' : GenomeData.t)
    (filename : string) :
  (∀ k, is_Some (GenomeData.primers gd !! k)
        ↔ is_Some (GenomeData.primers gd' !! k)) →
  file_applies fs gddict gd filename → file_applies fs gddict gd' filename.
Proof.
  intros Hnames. unfold file_applies.
  destruct (gddict !! targetname_of filename) as [target|].
  - destruct (fs !! filename) as [psdata|]; [|done].
    intros H k pdata Hk Hpd. destruct (H k pdata Hk Hpd) as [Hp Hf].
    split; [by apply Hnames|done].
  - destruct (PyStr.contains "negative_control" filename); [|done].
    destruct (fs !! filename) as [psdata|]; [|done].
    intros H k pdata Hk. apply Hnames. by apply (H k pdata).
Qed.

Lemma classified_from_names (targets : gset string) (gd gd' : GenomeData.t) :
  (∀ k, option_Forall2 (extends_by targets)
          (GenomeData.primers gd !! k) (GenomeData.primers gd' !! k)) →
  ∀ k, is_Some (GenomeData.primers gd !! k)
       ↔ is_Some (GenomeData.primers gd' !! k).
Proof.
  intros H k. specialize (H k).
  destruct H; split; intros [? ?]; by eexists.
Qed.

(** One result file: the pass returns exactly when the file applies. *)
Lemma classify_file_returns (fs : gmap string PrimerSearch.OutputRecord)
    (gddict : gmap string GenomeData.t) (filename : string)
    (gd : GenomeData.t) :
  (∃ gd', classify_file fs gddict filename gd = Ok gd')
  ↔ file_applies fs gddict gd filename.
Proof.
  unfold file_applies, classify_file, for_items, read_primersearch.
  destruct (gddict !! targetname_of filename) as [target|].
  - destruct (fs !! filename) as [psdata|]; [|by split; [intros [? ?]|]].
    rewrite bind_Ok. split.
    + intros [gd' H]. apply bind_Ok_inv in H as (ps & Hloop & _).
      apply (keyed_loop_shape _ _ _ _ (amplification_step_inv _ _))
        in Hloop as [_ Hpre]; [|apply NoDup_fst_map_to_list].
      intros k pdata Hk Hpd. apply elem_of_map_to_list in Hk.
      destruct (Hpre k pdata Hk) as [Hf Hp].
      apply Nat.ltb_lt in Hpd. by split; [apply Hp|apply Hf].
    + intros Hall.
      destruct (keyed_loop_total _ _ _ _
                  (amplification_step_inv (targetname_of filename)
                     (GenomeData.families target))
                  (amplification_step_ok _ _)
                  (map_to_list (PrimerSearch.amplifiers psdata))
                  (GenomeData.primers gd)) as [ps Hloop].
      { intros k v Hin%elem_of_map_to_list.
        split; intros Hv%Nat.ltb_lt; by destruct (Hall k v Hin Hv). }
      rewrite Hloop, bind_Ok. by eexists.
  - destruct (PyStr.contains "negative_control" filename);
      [|by split; [|eexists]].
    destruct (fs !! filename) as [psdata|]; [|by split; [intros [? ?]|]].
    rewrite bind_Ok. split.
    + intros [gd' H]. apply bind_Ok_inv in H as (ps & Hloop & _).
      apply (keyed_loop_shape _ _ _ _ control_step_inv)
        in Hloop as [_ Hpre]; [|apply NoDup_fst_map_to_list].
      intros k pdata Hk. apply elem_of_map_to_list in Hk.
      by apply (Hpre k pdata Hk).
    + intros Hall.
      destruct (keyed_loop_total _ _ _ _ control_step_inv control_step_ok
                  (map_to_list (PrimerSearch.amplifiers psdata))
                  (GenomeData.primers gd)) as [ps Hloop].
      { intros k v Hin%elem_of_map_to_list. split; [done|].
        intros _. by apply (Hall k v). }
      rewrite Hloop, bind_Ok. by eexists.
Qed.

(** The result files of one sample, one after the other. *)
Lemma classify_files_return (fs : gmap string PrimerSearch.OutputRecord)
    (gddict : gmap string GenomeData.t) (files : list string)
    (gd : GenomeData.t) :
  (∃ gd', for_each (classify_file fs gddict) files gd = Ok gd')
  ↔ Forall (file_applies fs gddict gd) files.
Proof.
  revert gd. induction files as [|f files IH]; intros gd.
  - split; [constructor|by eexists].
  - rewrite for_each_cons, Forall_cons. split.
    + intros [gd' H]. apply bind_Ok_inv in H as (gd1 & Hf & H).
      split; [apply classify_file_returns; by eexists|].
      pose proof (classify_file_effect _ _ _ _ _ Hf) as [_ Hk].
      assert (Hfiles : Forall (file_applies fs gddict gd1) files)
        by (apply IH; by eexists).
      eapply Forall_impl; [exact Hfiles|]. intros f'.
      apply file_applies_names. intros k. symmetry.
      by apply (classified_from_names _ _ _ Hk).
    + intros [[gd1 Hf]%classify_file_returns Hfiles].
      rewrite Hf, bind_Ok. apply IH.
      pose proof (classify_file_effect _ _ _ _ _ Hf) as [_ Hk].
      eapply Forall_impl; [exact Hfiles|]. intros f'.
      apply file_applies_names. by apply (classified_from_names _ _ _ Hk).
Qed.

(** X24. [classify_primers] returns exactly when every result file of
    every sample applies to the sample: a file whose target is a sample of
    the collection can be read and every primer it reports with at least
    one amplimer is a primer of the query sample, the target having a list
    of families; a negative-control file can be read and names primers of
    the sample only. A file with any other name is never opened. In every
    other case the run stops with an exception. *)
Theorem classify_primers_returns_iff
    (fs : gmap string PrimerSearch.OutputRecord)
    (gdlist : list GenomeData.t) :
  (∃ gdlist', classify_primers fs gdlist = Ok gdlist')
  ↔ Forall (λ gd, Forall (file_applies fs (build_gddict gdlist) gd)
                    (GenomeData.primersearch_output gd))
      gdlist.
Proof.
  unfold classify_primers. rewrite <- update_each_total.
  apply Forall_iff. intros gd. apply classify_files_return.
Qed.

Lemma classify_primers_returns_iff_witness :
  ∃ gdlist', classify_primers Sample.fs_pairwise Sample.A_and_B = Ok gdlist'.
Proof.
  apply (proj2 (classify_primers_returns_iff Sample.fs_pairwise
                  Sample.A_and_B)).
  unfold Sample.A_and_B. Forall_each.
  - change (GenomeData.primersearch_output Sample.A_query)
      with ["data/A_vs_B.primersearch"].
    Forall_each.
    assert (Hd : build_gddict [Sample.A_query; Sample.B_query]
                 !! targetname_of "data/A_vs_B.primersearch"
                 = Some Sample.B_query) by (vm_compute; reflexivity).
    unfold file_applies. rewrite Hd.
    change (Sample.fs_pairwise !! "data/A_vs_B.primersearch")
      with (Some (Sample.output [("A_primer_0001", [Sample.amplimer])])).
    by_evaluation.
  - change (GenomeData.primersearch_output Sample.B_query)
      with ["data/B_vs_A.primersearch"].
    Forall_each.
    assert (Hd : build_gddict [Sample.A_query; Sample.B_query]
                 !! targetname_of "data/B_vs_A.primersearch"
                 = Some Sample.A_query) by (vm_compute; reflexivity).
    unfold file_applies. rewrite Hd.
    change (Sample.fs_pairwise !! "data/B_vs_A.primersearch")
      with (Some (Sample.output [("B_primer_0001", [])])).
    by_evaluation.
Defined.
(** ** Result files that cannot be applied *)

Lemma update_each_raise {A} (body : A → result A) (e : exn)
    (before after : list A) (x : A) :
  Forall (λ y, ∃ y', body y = Ok y') before →
  body x = Raise e →
  update_each body (before ++ x :: after) = Raise e.
Proof.
  intros Hbefore Hx. induction Hbefore as [|y before [y' Hy] _ IH]; simpl.
  - by rewrite Hx.
  - by rewrite Hy, bind_Ok, IH.
Qed.

(** X6. [classify_primers] stops with a key error at a result file that
    names a primer the query sample does not hold. The result files of the
    samples before the query sample, and the files of the query sample
    before this one, all apply; the file can be read. If its target is a
    sample of the collection that has a list of families and the file
    reports at least one amplimer for the missing name, or if it is a
    negative-control file that names the missing primer, with or without
    amplimers, the run raises [KeyError], whatever else the file reports
    and whatever files and samples follow. *)
Theorem classify_primers_unknown_primer
    (fs : gmap string PrimerSearch.OutputRecord)
    (before after : list GenomeData.t) (gd : GenomeData.t)
    (earlier later : list string) (filename : string)
    (psdata : PrimerSearch.OutputRecord)
    (k : string) (pdata : list PrimerSearch.Amplifier) :
  Forall (λ g, Forall (file_applies fs
                         (build_gddict (before ++ gd :: after)) g)
                 (GenomeData.primersearch_output g))
    before →
  GenomeData.primersearch_output gd = (earlier ++ filename :: later)%list →
  Forall (file_applies fs (build_gddict (before ++ gd :: after)) gd)
    earlier →
  fs !! filename = Some psdata →
  PrimerSearch.amplifiers psdata !! k = Some pdata →
  GenomeData.primers gd !! k = None →
  (∀ target,
     build_gddict (before ++ gd :: after) !! targetname_of filename
     = Some target →
     is_Some (GenomeData.families target) → pdata ≠ [] →
     classify_primers fs (before ++ gd :: after) = Raise KeyError)
  ∧ (build_gddict (before ++ gd :: after) !! targetname_of filename = None →
     PyStr.contains "negative_control" filename = true →
     classify_primers fs (before ++ gd :: after) = Raise KeyError).
Proof.
  intros Hbefore Hfiles Hearlier Hfile Hk Hmissing.
  apply classify_files_return in Hearlier as [gd1 Hgd1].
  assert (Hmissing1 : GenomeData.primers gd1 !! k = None).
  { apply classify_files_effect in Hgd1 as [_ Hnames].
    specialize (Hnames k). rewrite Hmissing in Hnames.
    by inversion Hnames. }
  pose proof (classify_file_missing_primer fs
                (build_gddict (before ++ gd :: after)) filename gd1 psdata
                k pdata Hfile Hk Hmissing1) as [Hknown Hcontrol].
  assert (Hstop : classify_file fs (build_gddict (before ++ gd :: after))
                    filename gd1 = Raise KeyError →
                  classify_primers fs (before ++ gd :: after)
                  = Raise KeyError).
  { intros Hraise. unfold classify_primers. apply update_each_raise.
    - eapply Forall_impl; [exact Hbefore|]. intros g Hg.
      by apply classify_files_return.
    - rewrite Hfiles, for_each_app, Hgd1, bind_Ok, for_each_cons, Hraise.
      reflexivity. }
  split.
  - intros target Ht Hfams Hpd. apply Hstop. by eapply Hknown.
  - intros Ht Hc. apply Hstop. by apply Hcontrol.
Qed.

Lemma classify_primers_unknown_primer_witness :
  classify_primers Fixture.fs_late
    [Sample.B_query; Fixture.A_late; Fixture.C_alone] = Raise KeyError
  ∧ classify_primers Fixture.fs_foreign_control [Sample.A_control]
    = Raise KeyError.
Proof.
  split.
  - refine (proj1 (classify_primers_unknown_primer Fixture.fs_late
                     [Sample.B_query] [Fixture.C_alone] Fixture.A_late
                     ["data/A_vs_B.primersearch"] []
                     "data/A_vs_C.primersearch"
                     (Sample.output [("A_primer_0001", []);
                                     ("C_primer_0001", [Sample.amplimer])])
                     "C_primer_0001" [Sample.amplimer] _ _ _ _ _ _)
              Fixture.C_alone _ _ _).
    + Forall_each.
      change (GenomeData.primersearch_output Sample.B_query)
        with ["data/B_vs_A.primersearch"].
      Forall_each.
      assert (Hd : build_gddict
                     ([Sample.B_query] ++ Fixture.A_late :: [Fixture.C_alone])
                   !! targetname_of "data/B_vs_A.primersearch"
                   = Some Fixture.A_late) by (vm_compute; reflexivity).
      unfold file_applies. rewrite Hd.
      change (Fixture.fs_late !! "data/B_vs_A.primersearch")
        with (Some (Sample.output [("B_primer_0001", [])])).
      by_evaluation.
    + reflexivity.
    + Forall_each.
      assert (Hd : build_gddict
                     ([Sample.B_query] ++ Fixture.A_late :: [Fixture.C_alone])
                   !! targetname_of "data/A_vs_B.primersearch"
                   = Some Sample.B_query) by (vm_compute; reflexivity).
      unfold file_applies. rewrite Hd.
      change (Fixture.fs_late !! "data/A_vs_B.primersearch")
        with (Some (Sample.output [("A_primer_0001", [Sample.amplimer])])).
      by_evaluation.
    + vm_compute. reflexivity.
    + vm_compute. reflexivity.
    + vm_compute. reflexivity.
    + vm_compute. reflexivity.
    + by eexists.
    + done.
  - apply (proj2 (classify_primers_unknown_primer Fixture.fs_foreign_control
                    [] [] Sample.A_control [] []
                    "data/A_negative_control.primersearch"
                    (Sample.output [("A_primer_0009", [])])
                    "A_primer_0009" []
                    (Forall_nil_2 _) eq_refl (Forall_nil_2 _)
                    eq_refl eq_refl eq_refl)).
    + vm_compute. reflexivity.
    + vm_compute. reflexivity.
Defined.
